(** * fetch-market: a verification model of the Alpha Vantage fetch scripts

    The development embeds the two scripts of [src/fetch-market]:

    - [fetch_a_share_info.py]: the comprehensive-information orchestrator
      (rate limiter, retrying fetcher, four endpoint parsers, aggregator,
      batch driver);
    - [fetch_a_shares.py]: the daily K-line fetcher (the same rate limiter
      and symbol normalisation, its own retrying fetcher and batch driver).

    Definitions come first, one [Module] per source unit; the theorems
    follow.  Python values are modelled by [pyval]; IEEE-754 doubles are
    Rocq's primitive floats; dictionaries are [gmap string _]; exceptions
    are an explicit error result. *)

From Stdlib Require Import ZArith QArith Qabs Lqa Lia.
From Stdlib Require Import Ascii String List.
From Stdlib Require Import Floats.PrimFloat Floats.SpecFloat Floats.FloatOps
  Floats.FloatAxioms.
From stdpp Require Import base option list gmap strings fin_maps sorting.

Set Default Proof Using "Type".
Set Warnings "-register-all".

Local Open Scope Z_scope.

(* ===================================================================== *)
(** * Part I. Definitions *)
(* ===================================================================== *)

(** ** Doubles as exact numbers

    Every finite double is a whole number of units of 2^-1074, the
    smallest positive double.  The arithmetic of the scripts is the
    arithmetic of primitive floats; what it computes is stated about
    these exact values. *)
Module Double.

(** The units of a specification float: its mantissa at its exponent,
    counted from 2^-1074. *)
Definition sf_units (x : spec_float) : Z :=
  match x with
  | S754_finite s m e => cond_Zopp s (Zpos m * 2 ^ (e + 1074))
  | _ => 0
  end.

(** A zero or a finite number. *)
Definition sf_finite (x : spec_float) : Prop :=
  match x with
  | S754_finite _ _ _ | S754_zero _ => True
  | _ => False
  end.

(** The largest finite double, in units. *)
Definition max_units : Z := (2 ^ 53 - 1) * 2 ^ 2045.

Definition units (x : float) : Z := sf_units (Prim2SF x).

(** Neither an infinity nor a NaN. *)
Definition finite (x : float) : Prop := sf_finite (Prim2SF x).

(** The rational number that a finite double stands for (0 for an
    infinity or a NaN, which have no units). *)
Definition value (x : float) : Q := units x # (2 ^ 1074).

End Double.

(** ** Strings as Python sees them (ASCII text) *)
Module Str.

(** The ASCII characters [str.strip()] removes: TAB, LF, VT, FF, CR,
    the four separators FS, GS, RS, US and the space. *)
Definition isspace (c : ascii) : bool :=
  let n := N_of_ascii c in
  ((9 <=? n) && (n <=? 13) || (28 <=? n) && (n <=? 32))%N.

Definition upper_char (c : ascii) : ascii :=
  let n := N_of_ascii c in
  if ((97 <=? n) && (n <=? 122))%N then ascii_of_N (n - 32) else c.

Fixpoint upper (s : string) : string :=
  match s with
  | EmptyString => EmptyString
  | String c s' => String (upper_char c) (upper s')
  end.

Fixpoint lstrip (s : string) : string :=
  match s with
  | EmptyString => EmptyString
  | String c s' => if isspace c then lstrip s' else s
  end.

Definition rstrip (s : string) : string := String.rev (lstrip (String.rev s)).

Definition strip (s : string) : string := rstrip (lstrip s).

(** [c in s] for a one-character string [c] *)
Fixpoint contains (c : ascii) (s : string) : bool :=
  match s with
  | EmptyString => false
  | String c' s' => if Ascii.eqb c c' then true else contains c s'
  end.

Fixpoint startswith (s p : string) : bool :=
  match p, s with
  | EmptyString, _ => true
  | String a p', String b s' => Ascii.eqb a b && startswith s' p'
  | String _ _, EmptyString => false
  end.

(** [s.endswith(suffix)]: one of the tails of [s] is [suffix]. *)
Fixpoint endswith (s suffix : string) : bool :=
  String.eqb s suffix ||
  match s with
  | EmptyString => false
  | String _ s' => endswith s' suffix
  end.

(** [s[:k]] and [s[:-k]] *)
Definition take (k : nat) (s : string) : string := substring 0 k s.
Definition drop_last (k : nat) (s : string) : string :=
  substring 0 (String.length s - k) s.

(** [s.replace(c, "")] for a one-character [c] *)
Fixpoint remove_char (c : ascii) (s : string) : string :=
  match s with
  | EmptyString => EmptyString
  | String c' s' =>
      if Ascii.eqb c c' then remove_char c s' else String c' (remove_char c s')
  end.

Definition isdigit (c : ascii) : bool :=
  let n := N_of_ascii c in ((48 <=? n) && (n <=? 57))%N.

Fixpoint all_digits (s : string) : bool :=
  match s with
  | EmptyString => true
  | String c s' => isdigit c && all_digits s'
  end.


(** A string is the sequence of the bytes of its UTF-8 encoding.  On
    an ASCII string bytes and characters are the same, and [isspace],
    [upper] and the slices above are those of Python's [str]. *)
Definition is_ascii_char (c : ascii) : bool := (N_of_ascii c <? 128)%N.

Fixpoint is_ascii (s : string) : bool :=
  match s with
  | EmptyString => true
  | String c s' => is_ascii_char c && is_ascii s'
  end.

End Str.

(** ** Symbol normalisation ([normalize_a_share_symbol], identical in both
    scripts) *)
Definition normalize_a_share_symbol (symbol : string) : string :=
  let s := Str.upper (Str.strip symbol) in
  match s with
  | EmptyString => s
  | String c0 _ =>
      if Str.contains "." s then
        if Str.endswith s ".SH" then Str.drop_last 3 s +:+ ".SHH"
        else if Str.endswith s ".SZ" then Str.drop_last 3 s +:+ ".SHZ"
        else s
      else if Ascii.eqb c0 "6" then s +:+ ".SHH"
      else if Ascii.eqb c0 "0" || Ascii.eqb c0 "3" then s +:+ ".SHZ"
      else s
  end.

(** A string that does not start with a space. *)
Definition head_ok (s : string) : Prop :=
  match s with
  | EmptyString => True
  | String c _ => Str.isspace c = false
  end.

(** The three facts about [s = symbol.strip().upper()] the function uses. *)
Definition canonical (s : string) : Prop :=
  head_ok s /\ head_ok (String.rev s) /\ Str.upper s = s.

(** ** Python values, exceptions and the built-ins the scripts call *)
Module Py.

(** What [json.loads] produces and what the parsers return. *)
Inductive pyval : Type :=
  | PNone
  | PBool (b : bool)
  | PInt (n : Z)
  | PFloat (x : float)
  | PStr (s : string)
  | PList (l : list pyval)
  | PDict (m : gmap string pyval).

(** Why [sys.exit] was called. *)
Inductive exit_reason : Type :=
  | MissingApiKey     (* "请提供 Alpha Vantage API Key ...", code 2 *)
  | StartAfterEnd     (* "开始日期不能晚于结束日期", code 2 *)
  | NoFrames.         (* "没有可用数据可写出。", code 1 *)

Definition exit_code (why : exit_reason) : Z :=
  match why with
  | MissingApiKey => 2
  | StartAfterEnd => 2
  | NoFrames => 1
  end.

(** The exceptions that can travel through the scripts.  The two the
    fetchers raise themselves carry what their message is built from. *)
Inductive exn : Type :=
  | ValueError
  | TypeError
  | AttributeError
  | KeyError
  | OverflowError
  | ZeroDivisionError
  (* raise ValueError(f"{symbol} API 返回错误: {data['Error Message']}") *)
  | ValueError_api (symbol : string) (message : pyval)
  (* raise RuntimeError(f"{symbol} {function} 请求失败，超过最大重试次数 {max_retries}。") *)
  | RuntimeError_retries (symbol : string) (function : option string) (max_retries : Z)
  (* requests.RequestException and its subclasses *)
  | RequestException
  (* sys.exit(code) *)
  | SystemExit (why : exit_reason).

(** [except Exception] catches everything but [SystemExit] (and the
    other [BaseException]s, which the model does not produce). *)
Definition is_Exception (e : exn) : bool :=
  match e with
  | SystemExit _ => false
  | _ => true
  end.

Definition is_RequestException (e : exn) : bool :=
  match e with
  | RequestException => true
  | _ => false
  end.

Inductive result (A : Type) : Type :=
  | Ok (a : A)
  | Raise (e : exn).
Global Arguments Ok {A} a.
Global Arguments Raise {A} e.

Global Instance result_ret : MRet result := fun A a => Ok a.
Global Instance result_bind : MBind result := fun A B f m =>
  match m with
  | Ok a => f a
  | Raise e => Raise e
  end.

Definition of_option {A : Type} (e : exn) (o : option A) : result A :=
  match o with
  | Some a => Ok a
  | None => Raise e
  end.

(** A [datetime.datetime]; the scripts only look at its date. *)
Record datetime : Type := mk_datetime {
  year : Z; month : Z; day : Z;
  hour : Z; minute : Z; second : Z
}.

Definition is_leap (y : Z) : bool :=
  (y mod 4 =? 0) && (negb (y mod 100 =? 0) || (y mod 400 =? 0)).

Definition days_before_year (y : Z) : Z :=
  let y1 := y - 1 in y1 * 365 + y1 / 4 - y1 / 100 + y1 / 400.

Definition days_in_month (y m : Z) : Z :=
  if m =? 2 then (if is_leap y then 29 else 28)
  else if (m =? 4) || (m =? 6) || (m =? 9) || (m =? 11) then 30
  else 31.

Fixpoint days_before_month_aux (y : Z) (k : nat) : Z :=
  match k with
  | O => 0
  | S k' => days_before_month_aux y k' + days_in_month y (Z.of_nat k)
  end.

Definition days_before_month (y m : Z) : Z :=
  days_before_month_aux y (Z.to_nat (m - 1)).

(** [d.date().toordinal()]: day 1 is 0001-01-01.  Comparing two dates
    is comparing their ordinals, and subtracting [timedelta(days=k)]
    subtracts [k] from the ordinal. *)
Definition toordinal (d : datetime) : Z :=
  days_before_year (year d) + days_before_month (year d) (month d) + day d.

(** The part of the Python runtime the scripts rely on and that is not
    IEEE arithmetic: the conversions of strings to numbers, [round] on
    a float, and the formatting and parsing of dates.  [None] stands
    for the [ValueError] the function raises. *)
Class Builtins : Type := {
  float_of_str : string -> option float;          (* float(s) *)
  int_of_str : string -> option Z;                (* int(s) *)
  round_float : float -> Z -> float;              (* round(x, ndigits) *)
  strptime : string -> string -> option datetime; (* datetime.strptime(s, fmt) *)
  strftime : datetime -> string -> string;        (* d.strftime(fmt) *)
  dateutil_parse : string -> option datetime      (* dateutil.parser.parse(s) *)
}.

(** [float(n)] for an [int]: the nearest double, ties to even;
    [OverflowError] when it is out of range. *)
Definition float_of_int (n : Z) : result float :=
  let x := SF2Prim (binary_normalize prec emax n 0 false) in
  if is_infinity x then Raise OverflowError else Ok x.

(** [int(x)] for a [float]: truncation towards zero. *)
Definition int_of_float (x : float) : result Z :=
  match Prim2SF x with
  | S754_zero _ => Ok 0
  | S754_nan => Raise ValueError
  | S754_infinity _ => Raise OverflowError
  | S754_finite s m e =>
      let a := if 0 <=? e then Z.shiftl (Zpos m) e else Z.shiftr (Zpos m) (- e) in
      Ok (if s then - a else a)
  end.

Section WithBuiltins.
Context `{Builtins}.

(** [float(v)] *)
Definition tofloat (v : pyval) : result float :=
  match v with
  | PFloat x => Ok x
  | PInt n => float_of_int n
  | PBool b => Ok (if b then 1%float else 0%float)
  | PStr s => of_option ValueError (float_of_str s)
  | PNone | PList _ | PDict _ => Raise TypeError
  end.

(** [int(v)] *)
Definition toint (v : pyval) : result Z :=
  match v with
  | PInt n => Ok n
  | PBool b => Ok (if b then 1 else 0)
  | PFloat x => int_of_float x
  | PStr s => of_option ValueError (int_of_str s)
  | PNone | PList _ | PDict _ => Raise TypeError
  end.

(** [round(v, ndigits)] with [ndigits >= 0]: an [int] is returned
    as it is, a [float] is rounded. *)
Definition round (v : pyval) (ndigits : Z) : result pyval :=
  match v with
  | PInt n => Ok (PInt n)
  | PBool b => Ok (PInt (if b then 1 else 0))
  | PFloat x => Ok (PFloat (round_float x ndigits))
  | PNone | PStr _ | PList _ | PDict _ => Raise TypeError
  end.
End WithBuiltins.

(** Truth value of an object ([if v:], [not v]) *)
Definition truthy (v : pyval) : bool :=
  match v with
  | PNone => false
  | PBool b => b
  | PInt n => negb (n =? 0)
  | PFloat x => negb (PrimFloat.eqb x 0)
  | PStr s => negb (String.eqb s "")
  | PList l => match l with [] => false | _ => true end
  | PDict m => negb (bool_decide (m = ∅))
  end.

(** [d.get(key, default)] on a [dict] *)
Definition get (m : gmap string pyval) (key : string) (dflt : pyval) : pyval :=
  default dflt (m !! key).

(** [v.get(key, default)] on any object: only a [dict] has [get]. *)
Definition get_attr (v : pyval) (key : string) (dflt : pyval) : result pyval :=
  match v with
  | PDict m => Ok (get m key dflt)
  | _ => Raise AttributeError
  end.

(** [a + b] for the numbers of the numeric tower: [int] (and [bool])
    with [int] stays an [int], anything with a [float] is a [float];
    a number plus anything else raises [TypeError]. *)
Definition as_number (v : pyval) : option (Z + float) :=
  match v with
  | PInt n => Some (inl n)
  | PBool b => Some (inl (if b then 1 else 0))
  | PFloat x => Some (inr x)
  | _ => None
  end.

Definition number_to_float (a : Z + float) : result float :=
  match a with
  | inl n => float_of_int n
  | inr x => Ok x
  end.

Definition add (a b : pyval) : result pyval :=
  match as_number a, as_number b with
  | Some (inl m), Some (inl n) => Ok (PInt (m + n))
  | Some x, Some y =>
      fx ← number_to_float x; fy ← number_to_float y; Ok (PFloat (fx + fy)%float)
  | _, _ => Raise TypeError
  end.

(** An [int] as an unrounded binary number. *)
Definition Z2SF (n : Z) : spec_float :=
  match n with
  | Z0 => S754_zero false
  | Zpos p => S754_finite false p 0
  | Zneg p => S754_finite true p 0
  end.

(** [a / b] (true division).  For two [int]s Python rounds the exact
    quotient once, which [SFdiv] does on the unrounded operands. *)
Definition truediv (a b : pyval) : result pyval :=
  match as_number a, as_number b with
  | Some (inl m), Some (inl n) =>
      if n =? 0 then Raise ZeroDivisionError
      else
        let x := SF2Prim (SFdiv prec emax (Z2SF m) (Z2SF n)) in
        if is_infinity x then Raise OverflowError else Ok (PFloat x)
  | Some x, Some y =>
      fx ← number_to_float x; fy ← number_to_float y;
      if PrimFloat.eqb fy 0 then Raise ZeroDivisionError
      else Ok (PFloat (fx / fy)%float)
  | _, _ => Raise TypeError
  end.

End Py.

(** ** The rate limiter ([class RateLimiter], identical in both scripts)

    Times are doubles, as [time.monotonic()] returns them and as the
    arithmetic of [wait] rounds them.  The limiter's lock serialises
    the callers, so the calls through one instance form a sequence
    whatever the number of threads; the clock is an input of each
    call. *)
Module RateLimiter.
Import Py.

Record t : Type := mk {
  interval_seconds : float;
  _last_call_ts : float
}.

(** [__init__(self, calls_per_minute)].  The division of the float
    [60.0] by an [int] converts the [int] first, which raises
    [OverflowError] when it has no double. *)
Definition __init__ (calls_per_minute : Z) : result t :=
  d ← float_of_int (Z.max 1 calls_per_minute);
  Ok {| interval_seconds := 60 / d; _last_call_ts := 0 |}.

(** What the clock shows during one call of [wait]: the two readings
    of [time.monotonic()], before the test and after the sleep. *)
Record tick : Type := mk_tick {
  now : float;
  after : float
}.

(** [wait(self)]: the body of the critical section.  The result is the
    limiter after the call, whose [_last_call_ts] is the time at which
    the call returns, and the argument of [time.sleep] when the call
    sleeps. *)
Definition wait (self : t) (k : tick) : t * option float :=
  let wait_seconds := (interval_seconds self - (now k - _last_call_ts self))%float in
  let slept := if (0 <? wait_seconds)%float then Some wait_seconds else None in
  ({| interval_seconds := interval_seconds self; _last_call_ts := after k |}, slept).

(** [N] calls through one instance, one after the other.  The result
    is the final limiter and the times at which the calls returned, in
    order. *)
Fixpoint waits (self : t) (ks : list tick) : t * list float :=
  match ks with
  | [] => (self, [])
  | k :: ks' =>
      let self1 := (wait self k).1 in
      let '(self2, granted) := waits self1 ks' in
      (self2, _last_call_ts self1 :: granted)
  end.

(** What the code assumes of its environment during one call: the
    clock shows finite times and never goes backwards (the first
    reading is not below the initial [_last_call_ts = 0.0]), and
    [time.sleep(s)] returns when at least [s] seconds have passed on
    that clock. *)
Definition tick_ok (self : t) (k : tick) : Prop :=
  Double.finite (now k) /\ Double.finite (after k) /\
  (Double.value (_last_call_ts self) <= Double.value (now k))%Q /\
  (Double.value (now k) <= Double.value (after k))%Q /\
  match (wait self k).2 with
  | Some s => (Double.value (now k) + Double.value s <= Double.value (after k))%Q
  | None => True
  end.

(** The same of every call of a run, each call finding the limiter as
    the previous one left it. *)
Fixpoint run_ok (self : t) (ks : list tick) : Prop :=
  match ks with
  | [] => True
  | k :: ks' => tick_ok self k /\ run_ok (wait self k).1 ks'
  end.

(** The limiter between two calls: a finite positive interval and a
    finite recorded time that is not negative. *)
Definition steady (self : t) : Prop :=
  Double.finite (interval_seconds self) /\ 0 < Double.units (interval_seconds self) /\
  Double.finite (_last_call_ts self) /\ 0 <= Double.units (_last_call_ts self).

(** Consecutive elements of a list of times are at least [gap] apart. *)
Fixpoint spaced (gap : Q) (ts : list Q) : Prop :=
  match ts with
  | [] => True
  | t1 :: rest =>
      match rest with
      | [] => True
      | t2 :: _ => (t1 + gap <= t2)%Q /\ spaced gap rest
      end
  end.



End RateLimiter.

(** ** The network and the effects of the scripts

    A run acts on a [world]: the upstream service, given as the answer
    to the [n]-th GET of the run; the local date and time; and the trace
    of what the run did (limiter acquisitions, requests, sleeps), oldest
    first.  Messages printed on [stderr] are not part of the trace. *)
Module Net.
Import Py.

Record request : Type := mk_request {
  url : string;
  params : gmap string string;
  timeout : Z
}.

(** What [session.get] meets: a connection failure or timeout (a
    [requests.RequestException]), or an HTTP response with its status
    and its body: [None] when the body is not JSON ([resp.json()] then
    raises [requests.JSONDecodeError], a [RequestException]), the decoded
    JSON object otherwise. *)
Inductive response : Type :=
  | Failed
  | Response (status_code : Z) (json : option (gmap string pyval)).

Inductive event : Type :=
  | Wait                  (* rate_limiter.wait() *)
  | Get (r : request)     (* session.get(url, params=..., timeout=...) *)
  | Sleep (seconds : Z).  (* time.sleep(seconds) *)

Record world : Type := mk_world {
  transport : nat -> request -> response;
  now : datetime;
  trace : list event
}.

Definition is_get (e : event) : bool :=
  match e with
  | Get _ => true
  | _ => false
  end.

Definition requests (tr : list event) : list request :=
  omap (fun e => match e with Get r => Some r | _ => None end) tr.

Definition sleeps (tr : list event) : list Z :=
  omap (fun e => match e with Sleep z => Some z | _ => None end) tr.

(** The world after the events [evs]. *)
Definition extend (w : world) (evs : list event) : world :=
  {| transport := transport w; now := now w; trace := trace w ++ evs |}.

Definition log (e : event) (w : world) : world := extend w [e].

(** The answer the next GET of the run will meet. *)
Definition next_response (w : world) (r : request) : response :=
  transport w (length (requests (trace w))) r.

(** Computations with effects: state passing over the world, with an
    exception or a value as result. *)
Definition io (A : Type) : Type := world -> result A * world.

Global Instance io_ret : MRet io := fun A a w => (Ok a, w).
Global Instance io_bind : MBind io := fun A B f m w =>
  match m w with
  | (Ok a, w') => f a w'
  | (Raise e, w') => (Raise e, w')
  end.

Definition raise {A : Type} (e : exn) : io A := fun w => (Raise e, w).

Definition lift {A : Type} (r : result A) : io A := fun w => (r, w).

(** [try: body  except <class> as ex: handler ex] *)
Definition try_except {A : Type} (body : io A) (catches : exn -> bool)
    (handler : exn -> io A) : io A := fun w =>
  match body w with
  | (Ok a, w') => (Ok a, w')
  | (Raise e, w') => if catches e then handler e w' else (Raise e, w')
  end.

Definition rate_limiter_wait : io unit := fun w => (Ok tt, log Wait w).

Definition sleep (seconds : Z) : io unit := fun w => (Ok tt, log (Sleep seconds) w).

Definition datetime_now : io datetime := fun w => (Ok (now w), w).

(** [session.get(...)]: the answer to this request is the transport's
    answer to the GET of that rank in the run. *)
Definition session_get (r : request) : io (Z * option (gmap string pyval)) := fun w =>
  let w' := log (Get r) w in
  match next_response w r with
  | Failed => (Raise RequestException, w')
  | Response status body => (Ok (status, body), w')
  end.

(** [resp.json()] *)
Definition resp_json (body : option (gmap string pyval)) : io (gmap string pyval) :=
  lift (of_option RequestException body).

(** [for attempt in range(first, first + n): body], where the body
    either returns from the function ([Some]) or goes on ([None]). *)
Fixpoint for_attempts {A : Type} (body : Z -> io (option A)) (attempt : Z) (n : nat)
    : io (option A) :=
  match n with
  | O => mret None
  | S n' =>
      r ← body attempt;
      match r with
      | Some a => mret (Some a)
      | None => for_attempts body (attempt + 1) n'
      end
  end.

(** [key in data] *)
Definition has (data : gmap string pyval) (key : string) : bool :=
  bool_decide (is_Some (data !! key)).

(** The trace of [n] attempts from attempt [first] on that all end in
    the back-off [min(cap, attempt * 2)]. *)
Definition backoff_trace (cap : Z) (r : request) (first : Z) (n : nat) : list event :=
  a ← seqZ first (Z.of_nat n); [Wait; Get r; Sleep (Z.min cap (a * 2))].

(** An answer with an HTTP status other than 200. *)
Definition http_error (resp : response) : Prop :=
  match resp with
  | Response status_code _ => status_code <> 200
  | Failed => False
  end.

(** The number of GETs issued between the world [w] and the later
    world [w']. *)
Definition attempts (w w' : world) : nat :=
  length (requests (trace w')) - length (requests (trace w)).

(** A result that raises nothing, or an exception in [E]. *)
Definition raises_only {A : Type} (E : exn -> Prop) (r : result A) : Prop :=
  match r with
  | Ok _ => True
  | Raise e => E e
  end.

(** The exceptions that [except Exception] catches. *)
Definition caught (e : exn) : Prop := is_Exception e = true.

(** What a computation does to any world: it appends events to the
    trace, every request among them satisfies [P], and it raises nothing
    but exceptions in [E]. *)
Definition runs {A : Type} (P : request -> Prop) (E : exn -> Prop) (m : io A) : Prop :=
  forall w, exists evs,
    (m w).2 = extend w evs /\ Forall P (requests evs) /\ raises_only E (m w).1.

(** The events of one attempt on the request [r]: an acquisition, the
    request, and the sleep that follows when there is one. *)
Definition attempt_events (r : request) (pause : option Z) : list event :=
  [Wait; Get r] ++ match pause with Some z => [Sleep z] | None => [] end.

(** The trace of a call whose attempts are followed by [pauses]. *)
Definition attempts_trace (r : request) (pauses : list (option Z)) : list event :=
  p ← pauses; attempt_events r p.

(** The trace of [n] attempts from attempt [first] on, the attempt [a]
    being followed by a sleep of [pause a] seconds. *)
Definition paced_trace (pause : Z -> Z) (r : request) (first : Z) (n : nat) : list event :=
  a ← seqZ first (Z.of_nat n); [Wait; Get r; Sleep (pause a)].

(** A 200 answer whose body carries one of the throttling keys. *)
Definition throttled (resp : response) : Prop :=
  match resp with
  | Response 200 (Some data) => has data "Note" || has data "Information" = true
  | _ => False
  end.

(** A 200 answer whose body carries none of the keys the fetchers test. *)
Definition clean (data : gmap string pyval) : Prop :=
  has data "Note" = false /\ has data "Information" = false /\
  has data "Error Message" = false.

(** An answer that makes the fetchers back off and try again: an HTTP
    status other than 200, or a network failure. *)
Definition failing (resp : response) : Prop :=
  http_error resp \/ resp = Failed.

End Net.

(** ** [fetch_a_share_info.py] *)
Module FetchInfo.
Import Py Net.

Definition ALPHAVANTAGE_API_URL : string := "https://www.alphavantage.co/query".

(** The request of [fetch_alpha_vantage_data]: the four fixed parameters,
    updated with the extra ones. *)
Definition data_params (function symbol api_key : string)
    (extra_params : gmap string string) : gmap string string :=
  extra_params ∪
  list_to_map [("function", function); ("symbol", symbol);
               ("apikey", api_key); ("datatype", "json")].

Definition data_request (function symbol api_key : string)
    (extra_params : gmap string string) (timeout_s : Z) : request :=
  {| url := ALPHAVANTAGE_API_URL;
     params := data_params function symbol api_key extra_params;
     timeout := timeout_s |}.

(** One turn of the loop of [fetch_alpha_vantage_data]: [Some data] is
    [return data], [None] is going on to the next attempt. *)
Definition data_attempt (symbol : string) (req : request) (attempt : Z)
    : io (option (gmap string pyval)) :=
  rate_limiter_wait;;
  try_except
    ('(status_code, body) ← session_get req;
     if negb (status_code =? 200) then
       sleep (Z.min 30 (attempt * 2));; mret None
     else
       data ← resp_json body;
       if has data "Note" || has data "Information" then
         sleep (Z.min 60 (15 * attempt));; mret None
       else if has data "Error Message" then
         raise (ValueError_api symbol (get data "Error Message" PNone))
       else mret (Some data))
    is_RequestException
    (fun ex => sleep (Z.min 30 (attempt * 2));; mret None).

Definition fetch_alpha_vantage_data (function symbol api_key : string)
    (extra_params : gmap string string) (max_retries timeout_s : Z)
    : io (gmap string pyval) :=
  let req := data_request function symbol api_key extra_params timeout_s in
  r ← for_attempts (data_attempt symbol req) 1 (Z.to_nat max_retries);
  match r with
  | Some data => mret data
  | None => raise (RuntimeError_retries symbol (Some function) max_retries)
  end.

(** The four endpoints, with the defaults [max_retries=3], [timeout_s=20]. *)
Definition fetch_quote_endpoint (symbol api_key : string) : io (gmap string pyval) :=
  fetch_alpha_vantage_data "GLOBAL_QUOTE" symbol api_key ∅ 3 20.

Definition fetch_company_overview (symbol api_key : string) : io (gmap string pyval) :=
  fetch_alpha_vantage_data "OVERVIEW" symbol api_key ∅ 3 20.

Definition fetch_news_sentiment (symbol api_key : string) : io (gmap string pyval) :=
  fetch_alpha_vantage_data "NEWS_SENTIMENT" symbol api_key
    (list_to_map [("time_from", "20240801T0000"); ("limit", "50")]) 3 20.

Definition fetch_daily_data (symbol api_key : string) : io (gmap string pyval) :=
  fetch_alpha_vantage_data "TIME_SERIES_DAILY" symbol api_key
    (list_to_map [("outputsize", "compact")]) 3 20.

(** [v[:k] + "..." if v else ""] *)
Definition truncated (v : pyval) (k : nat) : result pyval :=
  if truthy v then
    match v with
    | PStr s => Ok (PStr (Str.take k s +:+ "..."))
    | _ => Raise TypeError
    end
  else Ok (PStr "").

(** [v.replace("%", "")] *)
Definition strip_percent (v : pyval) : result pyval :=
  match v with
  | PStr s => Ok (PStr (Str.remove_char "%" s))
  | _ => Raise AttributeError
  end.

(** [v == label] for a string literal [label] *)
Definition is_str (v : pyval) (label : string) : bool :=
  match v with
  | PStr s => String.eqb s label
  | _ => false
  end.

Section WithBuiltins.
Context `{Builtins}.

Definition parse_quote_data (quote_data : gmap string pyval) (symbol : string)
    : result (gmap string pyval) :=
  let global_quote := get quote_data "Global Quote" (PDict ∅) in
  if negb (truthy global_quote) then Ok ∅
  else
    current_price ← get_attr global_quote "05. price" (PInt 0) ≫= tofloat;
    change ← get_attr global_quote "09. change" (PInt 0) ≫= tofloat;
    change_percent ← get_attr global_quote "10. change percent" (PStr "0%") ≫= strip_percent;
    volume ← get_attr global_quote "06. volume" (PStr "0");
    previous_close ← get_attr global_quote "08. previous close" (PInt 0) ≫= tofloat;
    open ← get_attr global_quote "02. open" (PInt 0) ≫= tofloat;
    high ← get_attr global_quote "03. high" (PInt 0) ≫= tofloat;
    low ← get_attr global_quote "04. low" (PInt 0) ≫= tofloat;
    latest_trading_day ← get_attr global_quote "07. latest trading day" (PStr "");
    Ok (list_to_map [
      ("symbol", PStr symbol);
      ("current_price", PFloat current_price);
      ("change", PFloat change);
      ("change_percent", change_percent);
      ("volume", volume);
      ("previous_close", PFloat previous_close);
      ("open", PFloat open);
      ("high", PFloat high);
      ("low", PFloat low);
      ("latest_trading_day", latest_trading_day)]).

Definition parse_company_overview (overview_data : gmap string pyval) (symbol : string)
    : result (gmap string pyval) :=
  if negb (truthy (PDict overview_data)) || negb (has overview_data "Symbol") then Ok ∅
  else
    description ← truncated (get overview_data "Description" (PStr "")) 200;
    Ok (list_to_map [
      ("symbol", PStr symbol);
      ("company_name", get overview_data "Name" (PStr ""));
      ("sector", get overview_data "Sector" (PStr ""));
      ("industry", get overview_data "Industry" (PStr ""));
      ("description", description);
      ("market_cap", get overview_data "MarketCapitalization" (PStr ""));
      ("pe_ratio", get overview_data "PERatio" (PStr ""));
      ("dividend_yield", get overview_data "DividendYield" (PStr ""));
      ("eps", get overview_data "EPS" (PStr ""));
      ("beta", get overview_data "Beta" (PStr ""))]).

(** The four variables the loop of [parse_news_sentiment] updates. *)
Record news_acc : Type := mk_news_acc {
  recent_news : list pyval;
  total_sentiment : pyval;
  positive_count : Z;
  negative_count : Z
}.

(** [datetime.strptime(news_date, "%Y%m%dT%H%M%S")]: a [TypeError] when
    [news_date] is not a string, a [ValueError] when it does not match. *)
Definition parse_time_published (news_date : pyval) : result datetime :=
  match news_date with
  | PStr s => of_option ValueError (strptime s "%Y%m%dT%H%M%S")
  | _ => Raise TypeError
  end.

(** [news_datetime.date() >= (datetime.now() - timedelta(days=7)).date()] *)
Definition within_last_week (today news_datetime : datetime) : bool :=
  toordinal today - 7 <=? toordinal news_datetime.

(** The entry appended to [recent_news] for a kept item. *)
Definition news_entry (item : gmap string pyval) (news_datetime : datetime)
    : result pyval :=
  summary ← truncated (get item "summary" (PStr "")) 100;
  Ok (PDict (list_to_map [
    ("title", get item "title" (PStr ""));
    ("summary", summary);
    ("sentiment", get item "overall_sentiment_label" (PStr ""));
    ("date", PStr (strftime news_datetime "%Y-%m-%d"))])).

(** The [try] block of the loop body, for an item whose
    [time_published] is true.  What was assigned before an exception
    stays assigned: the bare [except] only skips the rest of the block. *)
Definition news_try (today : datetime) (item : gmap string pyval) (news_date : pyval)
    (acc : news_acc) : news_acc :=
  match parse_time_published news_date with
  | Raise _ => acc
  | Ok news_datetime =>
      if within_last_week today news_datetime then
        match news_entry item news_datetime with
        | Raise _ => acc
        | Ok entry =>
            let recent := recent_news acc ++ [entry] in
            let sentiment_score := get item "overall_sentiment_score" (PInt 0) in
            match add (total_sentiment acc) sentiment_score with
            | Raise _ =>
                {| recent_news := recent;
                   total_sentiment := total_sentiment acc;
                   positive_count := positive_count acc;
                   negative_count := negative_count acc |}
            | Ok total =>
                let label := get item "overall_sentiment_label" (PStr "") in
                {| recent_news := recent;
                   total_sentiment := total;
                   positive_count :=
                     if is_str label "positive" then positive_count acc + 1
                     else positive_count acc;
                   negative_count :=
                     if is_str label "positive" then negative_count acc
                     else if is_str label "negative" then negative_count acc + 1
                     else negative_count acc |}
            end
        end
      else acc
  end.

(** An item the loop keeps: its [time_published] is true, matches the
    format and is dated within the last seven days. *)
Definition is_recent (today : datetime) (item : pyval) : bool :=
  match item with
  | PDict d =>
      let news_date := get d "time_published" (PStr "") in
      truthy news_date &&
      match parse_time_published news_date with
      | Ok news_datetime => within_last_week today news_datetime
      | Raise _ => false
      end
  | _ => false
  end.

Definition is_object (item : pyval) : Prop :=
  match item with
  | PDict _ => True
  | _ => False
  end.

Definition has_label (label : string) (item : pyval) : bool :=
  match item with
  | PDict d => is_str (get d "overall_sentiment_label" (PStr "")) label
  | _ => false
  end.

(** One turn of [for item in feed[:10]].  [item.get] is outside the
    [try]: an item that is not an object raises [AttributeError]. *)
Definition news_step (today : datetime) (acc : news_acc) (item : pyval) : result news_acc :=
  match item with
  | PDict d =>
      let news_date := get d "time_published" (PStr "") in
      if truthy news_date then Ok (news_try today d news_date acc) else Ok acc
  | _ => Raise AttributeError
  end.

Fixpoint news_loop (today : datetime) (acc : news_acc) (items : list pyval)
    : result news_acc :=
  match items with
  | [] => Ok acc
  | item :: rest => acc' ← news_step today acc item; news_loop today acc' rest
  end.

Definition news_acc0 : news_acc :=
  {| recent_news := []; total_sentiment := PInt 0;
     positive_count := 0; negative_count := 0 |}.

(** [today] is the value of [datetime.now()] during the call. *)
Definition parse_news_sentiment (today : datetime) (news_data : gmap string pyval)
    (symbol : string) : result (gmap string pyval) :=
  if negb (truthy (PDict news_data)) || negb (has news_data "feed") then Ok ∅
  else
    let feed := get news_data "feed" (PList []) in
    if negb (truthy feed) then Ok ∅
    else
      match feed with
      | PList items =>
          acc ← news_loop today news_acc0 (take 10 items);
          let n := Z.of_nat (length (recent_news acc)) in
          avg ← (if truthy (PList (recent_news acc))
                 then truediv (total_sentiment acc) (PInt n) ≫= fun q => round q 3
                 else Ok (PInt 0));
          Ok (list_to_map [
            ("symbol", PStr symbol);
            ("recent_news_count", PInt n);
            ("avg_sentiment_score", avg);
            ("positive_news_count", PInt (positive_count acc));
            ("negative_news_count", PInt (negative_count acc));
            ("recent_news", PList (recent_news acc))])
      | PStr _ => Raise AttributeError   (* the characters have no [get] *)
      | _ => Raise TypeError             (* [feed[:10]] on a number or an object *)
      end.

(** One element of [week_data]. *)
Record day_row : Type := mk_day_row {
  row_date : string;
  row_close : float;
  row_volume : Z;
  row_change : float
}.

Definition day_row_value (r : day_row) : pyval :=
  PDict (list_to_map [
    ("date", PStr (row_date r));
    ("close", PFloat (row_close r));
    ("volume", PInt (row_volume r));
    ("change", PFloat (row_change r))]).

(** The body of [for date_str in dates]. *)
Definition day_entry (time_series : gmap string pyval) (date_str : string)
    : result day_row :=
  day_data ← of_option KeyError (time_series !! date_str);
  close ← get_attr day_data "4. close" (PInt 0) ≫= tofloat;
  volume ← get_attr day_data "5. volume" (PInt 0) ≫= toint;
  open ← get_attr day_data "1. open" (PInt 0) ≫= tofloat;
  Ok {| row_date := date_str; row_close := close;
        row_volume := volume; row_change := (close - open)%float |}.

Fixpoint week_rows (time_series : gmap string pyval) (dates : list string)
    : result (list day_row) :=
  match dates with
  | [] => Ok []
  | date_str :: rest =>
      r ← day_entry time_series date_str;
      rs ← week_rows time_series rest;
      Ok (r :: rs)
  end.

(** [sorted(keys, reverse=True)] on strings: descending code points. *)
Definition sorted_reverse (keys : list string) : list string :=
  merge_sort (flip String.le) keys.

Definition keys (m : gmap string pyval) : list string := (map_to_list m).*1.

(** [week_change] and [week_change_percent] before rounding. *)
Definition week_changes (week_data : list day_row) : pyval * pyval :=
  match week_data with
  | newest :: _ :: _ =>
      let first_close := row_close (List.last week_data newest) in
      let last_close := row_close newest in
      let week_change := (last_close - first_close)%float in
      (PFloat week_change,
       if (0 <? first_close)%float
       then PFloat (week_change / first_close * 100)%float
       else PInt 0)
  | _ => (PInt 0, PInt 0)
  end.

Definition parse_daily_data_for_week (daily_data : gmap string pyval) (symbol : string)
    : result (gmap string pyval) :=
  let time_series := get daily_data "Time Series (Daily)" (PDict ∅) in
  if negb (truthy time_series) then Ok ∅
  else
    match time_series with
    | PDict ts =>
        let dates := take 7 (sorted_reverse (keys ts)) in
        match dates with
        | [] => Ok ∅
        | _ =>
            week_data ← week_rows ts dates;
            let '(week_change, week_change_percent) := week_changes week_data in
            rounded_change ← round week_change 2;
            rounded_percent ← round week_change_percent 2;
            Ok (list_to_map [
              ("symbol", PStr symbol);
              ("week_change", rounded_change);
              ("week_change_percent", rounded_percent);
              ("week_data", PList (day_row_value <$> week_data))])
        end
    | _ => Raise AttributeError   (* only an object has [keys] *)
    end.

(** One of the four [try: ... result.update(...) except Exception] blocks
    of [fetch_stock_comprehensive_info]. *)
Definition adapter (fetch : io (gmap string pyval))
    (parse : gmap string pyval -> io (gmap string pyval))
    (result : gmap string pyval) : io (gmap string pyval) :=
  try_except
    (data ← fetch; part ← parse data; mret (part ∪ result))
    is_Exception
    (fun e => mret result).

Definition fetch_stock_comprehensive_info (symbol api_key : string)
    : io (gmap string pyval) :=
  let result : gmap string pyval := {[ "symbol" := PStr symbol ]} in
  result ← adapter (fetch_quote_endpoint symbol api_key)
             (fun d => lift (parse_quote_data d symbol)) result;
  result ← adapter (fetch_company_overview symbol api_key)
             (fun d => lift (parse_company_overview d symbol)) result;
  result ← adapter (fetch_news_sentiment symbol api_key)
             (fun d => today ← datetime_now; lift (parse_news_sentiment today d symbol)) result;
  result ← adapter (fetch_daily_data symbol api_key)
             (fun d => lift (parse_daily_data_for_week d symbol)) result;
  mret result.

(** What one endpoint contributes to the result from the world [w]: the
    record its parser returns, or the empty record when the fetch or the
    parse fails; and the world it leaves. *)
Definition partial_record (fetch : io (gmap string pyval))
    (parse : gmap string pyval -> io (gmap string pyval))
    (w : world) : gmap string pyval * world :=
  match (data ← fetch; parse data) w with
  | (Ok part, w') => (part, w')
  | (Raise _, w') => (∅, w')
  end.

(** The partial records of the four endpoints. *)
Definition quote_record (symbol api_key : string) : world -> gmap string pyval * world :=
  partial_record (fetch_quote_endpoint symbol api_key)
    (fun d => lift (parse_quote_data d symbol)).

Definition overview_record (symbol api_key : string) : world -> gmap string pyval * world :=
  partial_record (fetch_company_overview symbol api_key)
    (fun d => lift (parse_company_overview d symbol)).

Definition news_record (symbol api_key : string) : world -> gmap string pyval * world :=
  partial_record (fetch_news_sentiment symbol api_key)
    (fun d => today ← datetime_now; lift (parse_news_sentiment today d symbol)).

Definition daily_record (symbol api_key : string) : world -> gmap string pyval * world :=
  partial_record (fetch_daily_data symbol api_key)
    (fun d => lift (parse_daily_data_for_week d symbol)).

(** The requests of the four endpoints. *)
Definition endpoint_request (function symbol api_key : string) : request :=
  data_request function symbol api_key
    (if String.eqb function "NEWS_SENTIMENT"
     then list_to_map [("time_from", "20240801T0000"); ("limit", "50")]
     else if String.eqb function "TIME_SERIES_DAILY"
     then list_to_map [("outputsize", "compact")]
     else ∅)
    20.

(** A partial record is empty or names the symbol it was built for. *)
Definition names_symbol (symbol : string) (part : gmap string pyval) : Prop :=
  part = ∅ \/ part !! "symbol" = Some (PStr symbol).

(** The parsed command line of [main]. *)
Record args : Type := mk_args {
  symbols : list string;
  api_key : option string;
  output : string;
  calls_per_minute : Z;
  no_proxy : bool;
  timeout : Z
}.

(** The line [api_key = "DBW1NM92621232126K" #args.api_key or os.getenv(...)]:
    neither the option nor the environment variable is read. *)
Definition resolve_api_key (a : args) (ALPHAVANTAGE_API_KEY : option string) : string :=
  "DBW1NM92621232126K".

(** The loop of [main] over [args.symbols]. *)
Fixpoint main_loop (api_key : string) (raw_symbols : list string)
    (all_results : list (gmap string pyval)) : io (list (gmap string pyval)) :=
  match raw_symbols with
  | [] => mret all_results
  | raw_symbol :: rest =>
      let symbol := normalize_a_share_symbol raw_symbol in
      result ← fetch_stock_comprehensive_info symbol api_key;
      main_loop api_key rest (all_results ++ [result])
  end.

(** [main], up to the list it hands to the JSON and CSV writers. *)
Definition main (a : args) (ALPHAVANTAGE_API_KEY : option string)
    : io (list (gmap string pyval)) :=
  let api_key := resolve_api_key a ALPHAVANTAGE_API_KEY in
  if negb (truthy (PStr api_key)) then raise (SystemExit MissingApiKey)
  else main_loop api_key (symbols a) [].

End WithBuiltins.

(** What the loop of [parse_news_sentiment] keeps true of its counters. *)
Definition news_inv (acc : news_acc) : Prop :=
  0 <= positive_count acc /\ 0 <= negative_count acc /\
  positive_count acc + negative_count acc <= Z.of_nat (length (recent_news acc)).

(** The keys, other than [symbol], of the records of the four parsers. *)
Definition quote_fields : list string :=
  ["current_price"; "change"; "change_percent"; "volume"; "previous_close";
   "open"; "high"; "low"; "latest_trading_day"].

Definition overview_fields : list string :=
  ["company_name"; "sector"; "industry"; "description"; "market_cap";
   "pe_ratio"; "dividend_yield"; "eps"; "beta"].

Definition news_fields : list string :=
  ["recent_news_count"; "avg_sentiment_score"; "positive_news_count";
   "negative_news_count"; "recent_news"].

Definition daily_fields : list string :=
  ["week_change"; "week_change_percent"; "week_data"].

(** A record with the keys [symbol] and [fields] at most. *)
Definition keys_within (fields : list string) (part : gmap string pyval) : Prop :=
  forall k, is_Some (part !! k) -> k = "symbol" \/ k ∈ fields.

(** The record among [quote], [overview], [news] and [daily] that the
    field [k] is read from. *)
Definition field_of (quote overview news daily : gmap string pyval) (k : string)
    : option pyval :=
  if bool_decide (k ∈ quote_fields) then quote !! k
  else if bool_decide (k ∈ overview_fields) then overview !! k
  else if bool_decide (k ∈ news_fields) then news !! k
  else if bool_decide (k ∈ daily_fields) then daily !! k
  else None.

(** One element of [simplified_data] in [main]: the columns of the CSV
    summary, in order. *)
Definition simplified_row (result : gmap string pyval) : list (string * pyval) :=
  [("股票代码", get result "symbol" (PStr ""));
   ("公司名称", get result "company_name" (PStr ""));
   ("行业", get result "industry" (PStr ""));
   ("当前价格", get result "current_price" (PInt 0));
   ("涨跌幅", get result "change_percent" (PStr "0"));
   ("周涨跌幅", get result "week_change_percent" (PInt 0));
   ("成交量", get result "volume" (PStr "0"));
   ("市值", get result "market_cap" (PStr ""));
   ("市盈率", get result "pe_ratio" (PStr ""));
   ("最近新闻数", get result "recent_news_count" (PInt 0));
   ("情感评分", get result "avg_sentiment_score" (PInt 0))].

Definition simplified_data (all_results : list (gmap string pyval))
    : list (list (string * pyval)) :=
  simplified_row <$> all_results.

End FetchInfo.

(** ** [fetch_a_shares.py] *)
Module FetchShares.
Import Py Net.

Definition ALPHAVANTAGE_API_URL : string := "https://www.alphavantage.co/query".

Definition daily_request (symbol api_key outputsize function_name : string)
    (timeout_s : Z) : request :=
  {| url := ALPHAVANTAGE_API_URL;
     params := list_to_map [("function", function_name); ("symbol", symbol);
                            ("outputsize", outputsize); ("datatype", "json");
                            ("apikey", api_key)];
     timeout := timeout_s |}.

(** One turn of the loop of [fetch_alpha_vantage_daily]. *)
Definition daily_attempt (symbol : string) (req : request) (attempt : Z)
    : io (option (gmap string pyval)) :=
  rate_limiter_wait;;
  try_except
    ('(status_code, body) ← session_get req;
     if negb (status_code =? 200) then
       sleep (Z.min 60 (attempt * 2));; mret None
     else
       data ← resp_json body;
       if has data "Note" || has data "Information" then
         sleep (Z.min 75 (10 * attempt));; mret None
       else if has data "Error Message" then
         raise (ValueError_api symbol (get data "Error Message" PNone))
       else if has data "Time Series (Daily)" then mret (Some data)
       else sleep (Z.min 60 (attempt * 2));; mret None)
    is_RequestException
    (fun ex => sleep (Z.min 60 (attempt * 2));; mret None).

Definition fetch_alpha_vantage_daily (symbol api_key outputsize function_name : string)
    (max_retries timeout_s : Z) : io (gmap string pyval) :=
  let req := daily_request symbol api_key outputsize function_name timeout_s in
  r ← for_attempts (daily_attempt symbol req) 1 (Z.to_nat max_retries);
  match r with
  | Some data => mret data
  | None => raise (RuntimeError_retries symbol None max_retries)
  end.

(** One row of the data frame. *)
Record row : Type := mk_row {
  r_symbol : string;
  r_date : datetime;
  r_open : float;
  r_high : float;
  r_low : float;
  r_close : float;
  r_adjusted_close : float;
  r_volume : Z;
  r_dividend_amount : float;
  r_split_coefficient : float
}.

Section Frames.
Context `{Builtins}.

Definition parse_row (symbol d_str : string) (values : pyval) : result row :=
  date ← of_option ValueError (strptime d_str "%Y-%m-%d");
  open ← get_attr values "1. open" (PStr "nan") ≫= tofloat;
  high ← get_attr values "2. high" (PStr "nan") ≫= tofloat;
  low ← get_attr values "3. low" (PStr "nan") ≫= tofloat;
  close ← get_attr values "4. close" (PStr "nan") ≫= tofloat;
  close_or_nan ← get_attr values "4. close" (PStr "nan");
  adjusted_close ← get_attr values "5. adjusted close" close_or_nan ≫= tofloat;
  volume5 ← get_attr values "5. volume" (PInt 0);
  volume_float ← get_attr values "6. volume" volume5 ≫= tofloat;
  volume ← int_of_float volume_float;
  dividend_amount ← get_attr values "7. dividend amount" (PFloat 0) ≫= tofloat;
  split_coefficient ← get_attr values "8. split coefficient" (PFloat 1) ≫= tofloat;
  Ok {| r_symbol := symbol; r_date := date; r_open := open; r_high := high;
        r_low := low; r_close := close; r_adjusted_close := adjusted_close;
        r_volume := volume; r_dividend_amount := dividend_amount;
        r_split_coefficient := split_coefficient |}.

Fixpoint parse_rows (symbol : string) (items : list (string * pyval))
    : result (list row) :=
  match items with
  | [] => Ok []
  | (d_str, values) :: rest =>
      r ← parse_row symbol d_str values;
      rs ← parse_rows symbol rest;
      Ok (r :: rs)
  end.

(** [parse_daily_to_dataframe]: the frame as the list of its rows (in the
    order of [map_to_list], which is not the order of the response). *)
Definition parse_daily_to_dataframe (symbol : string) (payload : gmap string pyval)
    : result (list row) :=
  match get payload "Time Series (Daily)" (PDict ∅) with
  | PDict ts => parse_rows symbol (map_to_list ts)
  | _ => Raise AttributeError   (* only an object has [items] *)
  end.

(** [parse_date]: [None] for a missing or empty argument. *)
Definition parse_date (d : option string) : result (option datetime) :=
  match d with
  | None => Ok None
  | Some s =>
      if String.eqb s "" then Ok None
      else
        match dateutil_parse s with
        | Some dt => Ok (Some dt)
        | None => Raise ValueError
        end
  end.

Record args : Type := mk_args {
  symbols : list string;
  api_key : option string;
  start : option string;
  end_ : option string;
  output : string;
  outputsize : string;
  calls_per_minute : Z;
  adjusted : bool;
  no_proxy : bool;
  timeout : Z
}.

Definition resolve_api_key (a : args) (ALPHAVANTAGE_API_KEY : option string) : string :=
  "DBW1NM92621232126K".

(** [df[df["date"] >= start_date]] and [df[df["date"] <= end_date]] *)
Definition filter_dates (start_date end_date : option datetime) (df : list row) : list row :=
  let df1 := match start_date with
             | Some s => List.filter (fun r => toordinal s <=? toordinal (r_date r)) df
             | None => df
             end in
  match end_date with
  | Some e => List.filter (fun r => toordinal (r_date r) <=? toordinal e) df1
  | None => df1
  end.

(** The loop of [main] over [args.symbols]: no [try] surrounds the fetch
    or the parse. *)
Fixpoint main_loop (a : args) (api_key function_name : string)
    (start_date end_date : option datetime)
    (raw_symbols : list string) (frames : list (list row)) : io (list (list row)) :=
  match raw_symbols with
  | [] => mret frames
  | raw_symbol :: rest =>
      let symbol := normalize_a_share_symbol raw_symbol in
      payload ← fetch_alpha_vantage_daily symbol api_key (outputsize a) function_name
                  5 (timeout a);
      df ← lift (parse_daily_to_dataframe symbol payload);
      match df with
      | [] => main_loop a api_key function_name start_date end_date rest frames
      | _ =>
          main_loop a api_key function_name start_date end_date rest
            (frames ++ [filter_dates start_date end_date df])
      end
  end.

(** [start_date and end_date and start_date > end_date] *)
Definition start_after_end (start_date end_date : option datetime) : bool :=
  match start_date, end_date with
  | Some s, Some e => toordinal e <? toordinal s
  | _, _ => false
  end.

(** [main], up to the frames it concatenates, sorts and writes. *)
Definition main (a : args) (ALPHAVANTAGE_API_KEY : option string)
    : io (list (list row)) :=
  let api_key := resolve_api_key a ALPHAVANTAGE_API_KEY in
  if negb (truthy (PStr api_key)) then raise (SystemExit MissingApiKey)
  else
    start_date ← lift (parse_date (start a));
    end_date ← lift (parse_date (end_ a));
    if start_after_end start_date end_date then raise (SystemExit StartAfterEnd)
    else
      let function_name :=
        if adjusted a then "TIME_SERIES_DAILY_ADJUSTED" else "TIME_SERIES_DAILY" in
      frames ← main_loop a api_key function_name start_date end_date (symbols a) [];
      match frames with
      | [] => raise (SystemExit NoFrames)
      | _ => mret frames
      end.

(** What [parse_daily_to_dataframe] makes of one entry of the series. *)
Definition row_of (symbol : string) (item : string * pyval) (r : row) : Prop :=
  r_symbol r = symbol /\
  strptime item.1 "%Y-%m-%d" = Some (r_date r) /\
  forall v, item.2 = PDict v ->
    (v !! "5. adjusted close" = None -> r_adjusted_close r = r_close r) /\
    (v !! "6. volume" = None -> v !! "5. volume" = None -> r_volume r = 0) /\
    (v !! "7. dividend amount" = None -> r_dividend_amount r = 0%float) /\
    (v !! "8. split coefficient" = None -> r_split_coefficient r = 1%float).

(** A row dated within the bounds that are given. *)
Definition in_range (start_date end_date : option datetime) (r : row) : Prop :=
  (forall s, start_date = Some s -> toordinal s <= toordinal (r_date r)) /\
  (forall e, end_date = Some e -> toordinal (r_date r) <= toordinal e).

End Frames.

End FetchShares.

(** ** A reference implementation of the built-ins

    The theorems below hold for every [Builtins].  To run the model on
    concrete inputs, this instance implements the built-ins on plain
    ASCII literals: decimal numbers with an optional sign, fraction and
    exponent, [inf] and [nan]; zero-padded dates.  On these it computes
    what CPython computes (correctly rounded conversions; [round] rounds
    the exact binary value to the requested decimals, ties to even, and
    converts the decimal back). *)
Module Ref.
Import Py.

Fixpoint span_digits (s : string) : string * string :=
  match s with
  | EmptyString => (EmptyString, EmptyString)
  | String c s' =>
      if Str.isdigit c then let '(d, r) := span_digits s' in (String c d, r)
      else (EmptyString, s)
  end.

Fixpoint digits_value (s : string) (acc : Z) : Z :=
  match s with
  | EmptyString => acc
  | String c s' => digits_value s' (10 * acc + (Z.of_N (N_of_ascii c) - 48))
  end.

Definition split_sign (s : string) : bool * string :=
  match s with
  | String "-" s' => (true, s')
  | String "+" s' => (false, s')
  | _ => (false, s)
  end.

(** [int(s)] *)
Definition int_of_str (s : string) : option Z :=
  let '(neg, body) := split_sign (Str.strip s) in
  let '(d, r) := span_digits body in
  match d, r with
  | String _ _, EmptyString => Some (if neg then - digits_value d 0 else digits_value d 0)
  | _, _ => None
  end.

(** The double nearest to [(-1)^neg * m * 10^e10], ties to even. *)
Definition decimal_to_float (neg : bool) (m e10 : Z) : float :=
  match m with
  | Zpos p =>
      let sf :=
        if 0 <=? e10 then binary_normalize prec emax (Zpos p * 10 ^ e10) 0 false
        else SFdiv prec emax (S754_finite false p 0) (Z2SF (10 ^ (- e10))) in
      let x := SF2Prim sf in
      if neg then (- x)%float else x
  | _ => if neg then (-0)%float else 0%float
  end.

(** The exponent part of a literal: empty, or [e] or [E], an optional
    sign and digits. *)
Definition exponent_of (s : string) : option Z :=
  match s with
  | EmptyString => Some 0
  | String c s' =>
      if Ascii.eqb c "e" || Ascii.eqb c "E" then
        let '(neg, body) := split_sign s' in
        let '(d, r) := span_digits body in
        match d, r with
        | String _ _, EmptyString =>
            Some (if neg then - digits_value d 0 else digits_value d 0)
        | _, _ => None
        end
      else None
  end.

(** [float(s)] *)
Definition float_of_str (s : string) : option float :=
  let '(neg, body) := split_sign (Str.strip s) in
  let u := Str.upper body in
  if String.eqb u "INF" || String.eqb u "INFINITY" then
    Some (if neg then neg_infinity else infinity)
  else if String.eqb u "NAN" then Some nan
  else
    let '(int_part, r1) := span_digits body in
    let '(frac_part, r2) :=
      match r1 with
      | String "." r => span_digits r
      | _ => (EmptyString, r1)
      end in
    match int_part +:+ frac_part with
    | EmptyString => None
    | digits =>
        e ← exponent_of r2;
        Some (decimal_to_float neg (digits_value digits 0)
                (e - Z.of_nat (String.length frac_part)))
    end.

(** The integer nearest to [a / b] for [0 < b], ties to even. *)
Definition div_half_even (a b : Z) : Z :=
  let q := a / b in
  match 2 * (a mod b) ?= b with
  | Lt => q
  | Gt => q + 1
  | Eq => if Z.even q then q else q + 1
  end.

(** [round(x, ndigits)] for [0 <= ndigits] *)
Definition round_float (x : float) (ndigits : Z) : float :=
  match Prim2SF x with
  | S754_finite s m e =>
      let p := 10 ^ ndigits in
      let n := if 0 <=? e then Zpos m * 2 ^ e * p
               else div_half_even (Zpos m * p) (2 ^ (- e)) in
      match n with
      | Zpos k => SF2Prim (SFdiv prec emax (S754_finite s k 0) (Z2SF p))
      | _ => if s then (-0)%float else 0%float
      end
  | _ => x
  end.

Definition two_digits (n : Z) : string :=
  String (ascii_of_N (Z.to_N (48 + n / 10 mod 10)))
    (String (ascii_of_N (Z.to_N (48 + n mod 10))) EmptyString).

Definition four_digits (n : Z) : string :=
  two_digits (n / 100) +:+ two_digits n.

(** A run of exactly [k] digits at the head of [s], and the rest. *)
Definition fixed_digits (k : nat) (s : string) : option (Z * string) :=
  let d := Str.take k s in
  if (String.length d =? k)%nat && Str.all_digits d
  then Some (digits_value d 0, substring k (String.length s - k) s)
  else None.

Definition expect (c : ascii) (s : string) : option string :=
  match s with
  | String c' s' => if Ascii.eqb c c' then Some s' else None
  | EmptyString => None
  end.

Definition valid_datetime (d : datetime) : bool :=
  (1 <=? year d) && (year d <=? 9999) && (1 <=? month d) && (month d <=? 12) &&
  (1 <=? day d) && (day d <=? days_in_month (year d) (month d)) &&
  (0 <=? hour d) && (hour d <=? 23) && (0 <=? minute d) && (minute d <=? 59) &&
  (0 <=? second d) && (second d <=? 59).

Definition checked (d : datetime) : option datetime :=
  if valid_datetime d then Some d else None.

(** [YYYY-MM-DD] *)
Definition parse_ymd (s : string) : option datetime :=
  '(y, s) ← fixed_digits 4 s; s ← expect "-" s;
  '(m, s) ← fixed_digits 2 s; s ← expect "-" s;
  '(d, s) ← fixed_digits 2 s;
  match s with
  | EmptyString => checked (mk_datetime y m d 0 0 0)
  | _ => None
  end.

(** [YYYYMMDDTHHMMSS] *)
Definition parse_compact (s : string) : option datetime :=
  '(y, s) ← fixed_digits 4 s;
  '(m, s) ← fixed_digits 2 s;
  '(d, s) ← fixed_digits 2 s; s ← expect "T" s;
  '(hh, s) ← fixed_digits 2 s;
  '(mm, s) ← fixed_digits 2 s;
  '(ss, s) ← fixed_digits 2 s;
  match s with
  | EmptyString => checked (mk_datetime y m d hh mm ss)
  | _ => None
  end.

Definition strptime (s fmt : string) : option datetime :=
  if String.eqb fmt "%Y%m%dT%H%M%S" then parse_compact s
  else if String.eqb fmt "%Y-%m-%d" then parse_ymd s
  else None.

Definition strftime (d : datetime) (fmt : string) : string :=
  if String.eqb fmt "%Y-%m-%d"
  then four_digits (year d) +:+ "-" +:+ two_digits (month d) +:+ "-" +:+ two_digits (day d)
  else fmt.

Global Instance builtins : Builtins := {|
  Py.float_of_str := float_of_str;
  Py.int_of_str := int_of_str;
  Py.round_float := round_float;
  Py.strptime := strptime;
  Py.strftime := strftime;
  Py.dateutil_parse := parse_ymd
|}.

End Ref.

(** ** Sample inputs *)
Module Samples.
Import Py Net.

(** The local time of the sample runs: 2024-09-10 12:00:00. *)
Definition noon : datetime := mk_datetime 2024 9 10 12 0 0.

(** An upstream that gives the same answer to every request. *)
Definition always (resp : response) : world :=
  {| transport := fun _ _ => resp; now := noon; trace := [] |}.

(** HTTP 500 with a body that is not JSON. *)
Definition http_500 : response := Response 500 None.

(** An error payload. *)
Definition error_body : gmap string pyval :=
  {[ "Error Message" := PStr "Invalid API call." ]}.

(** An error payload that also carries the throttling note. *)
Definition error_and_note_body : gmap string pyval :=
  list_to_map [("Note", PStr "Thank you for using Alpha Vantage!");
               ("Error Message", PStr "Invalid API call.")].

(** A well-formed body of an unexpected shape. *)
Definition unexpected_body : gmap string pyval := {[ "unexpected" := PInt 1 ]}.

(** A daily series with one day. *)
Definition one_day_body : gmap string pyval :=
  {[ "Time Series (Daily)" :=
       PDict {[ "2024-09-09" :=
                  PDict (list_to_map [("1. open", PStr "10.0"); ("4. close", PStr "11.0");
                                      ("5. volume", PStr "100")]) ]} ]}.

Definition day (open close volume : string) : pyval :=
  PDict (list_to_map [("1. open", PStr open); ("2. high", PStr close);
                      ("3. low", PStr open); ("4. close", PStr close);
                      ("5. volume", PStr volume)]).

(** A daily series of two days whose older close is zero. *)
Definition zero_close_series : gmap string pyval :=
  list_to_map [("2024-09-09", day "4.0" "5.0" "100");
               ("2024-09-06", day "0.0" "0.0" "100")].

Definition zero_close_body : gmap string pyval :=
  {[ "Time Series (Daily)" := PDict zero_close_series ]}.

(** A daily series of eight days; the oldest is left out of the week. *)
Definition eight_days_series : gmap string pyval :=
  list_to_map [("2024-09-09", day "11.0" "12.5" "800");
               ("2024-09-06", day "10.5" "11.0" "700");
               ("2024-09-05", day "10.0" "10.5" "600");
               ("2024-09-04", day "10.2" "10.0" "500");
               ("2024-09-03", day "10.4" "10.2" "400");
               ("2024-09-02", day "10.1" "10.4" "300");
               ("2024-08-30", day "9.9" "10.0" "200");
               ("2024-08-29", day "70.0" "80.0" "100")].

Definition eight_days_body : gmap string pyval :=
  {[ "Time Series (Daily)" := PDict eight_days_series ]}.

(** A feed item. *)
Definition news_item (time_published label : string) (score : float) : pyval :=
  PDict (list_to_map [("title", PStr "title"); ("summary", PStr "summary");
                      ("time_published", PStr time_published);
                      ("overall_sentiment_label", PStr label);
                      ("overall_sentiment_score", PFloat score)]).

Definition old_item : pyval := news_item "20240101T080000" "neutral" 0.5.

(** Twelve items, the three recent ones among the first ten. *)
Definition feed_recent_first : gmap string pyval :=
  {[ "feed" := PList ([news_item "20240909T093000" "positive" 0.25;
                       news_item "20240908T093000" "negative" (-0.5);
                       news_item "20240905T093000" "positive" 0.75]
                      ++ replicate 9 old_item) ]}.

(** A feed item whose score is any value, or is missing. *)
Definition scored_fields (time_published label : string) (score : option pyval)
    : gmap string pyval :=
  list_to_map ([("title", PStr "title"); ("summary", PStr "summary");
                ("time_published", PStr time_published);
                ("overall_sentiment_label", PStr label)]
               ++ match score with
                  | Some v => [("overall_sentiment_score", v)]
                  | None => []
                  end).

(** Twelve items, the three recent ones first: an [int] score, no
    score and a [float] score. *)
Definition mixed_items : list pyval :=
  [PDict (scored_fields "20240909T093000" "positive" (Some (PInt 1)));
   PDict (scored_fields "20240908T093000" "negative" None);
   PDict (scored_fields "20240905T093000" "positive" (Some (PFloat 0.5)))]
  ++ replicate 9 old_item.

Definition feed_mixed_scores : gmap string pyval := {[ "feed" := PList mixed_items ]}.

(** Twelve items, the three recent ones last. *)
Definition feed_recent_last : gmap string pyval :=
  {[ "feed" := PList (replicate 9 old_item
                      ++ [news_item "20240909T093000" "positive" 0.25;
                          news_item "20240908T093000" "negative" (-0.5);
                          news_item "20240905T093000" "positive" 0.75]) ]}.

(** The field [key] of a returned record. *)
Definition field (r : result (gmap string pyval)) (key : string) : option pyval :=
  match r with
  | Ok m => m !! key
  | Raise _ => None
  end.

(** The rows of the week of the eight-day series. *)
Definition eight_days_rows : list FetchInfo.day_row :=
  Eval vm_compute in
    match FetchInfo.week_rows eight_days_series
            (take 7 (FetchInfo.sorted_reverse (FetchInfo.keys eight_days_series))) with
    | Ok rows => rows
    | Raise _ => []
    end.

(** A quote with a price and a change percent only. *)
Definition partial_quote : gmap string pyval :=
  list_to_map [("05. price", PStr "10.5"); ("10. change percent", PStr "1.2%")].

Definition quote_body : gmap string pyval := {[ "Global Quote" := PDict partial_quote ]}.

(** An overview with a short description. *)
Definition overview_body : gmap string pyval :=
  list_to_map [("Symbol", PStr "600519.SHH"); ("Description", PStr "Liquor")].

(** The limiter of five calls per minute and three calls through it. *)
Definition limiter_5 : RateLimiter.t :=
  {| RateLimiter.interval_seconds := 12; RateLimiter._last_call_ts := 0 |}.
Definition ticks_5 : list RateLimiter.tick :=
  [RateLimiter.mk_tick 100 100; RateLimiter.mk_tick 100 112;
   RateLimiter.mk_tick 112.5 124.5].

(** The limiter of seven calls per minute (60/7 is not a double) and
    two calls through it. *)
Definition interval_7 : float := 60 / 7.
Definition limiter_7 : RateLimiter.t :=
  {| RateLimiter.interval_seconds := interval_7; RateLimiter._last_call_ts := 0 |}.
Definition ticks_7 : list RateLimiter.tick :=
  [RateLimiter.mk_tick interval_7 interval_7;
   RateLimiter.mk_tick interval_7 (interval_7 + interval_7)].


End Samples.

(* ===================================================================== *)
(** * Part II. Theorems *)
(* ===================================================================== *)



(** ** Rounding to the nearest double

    What [SpecFloat]'s rounding does to a mantissa, in units. *)
Section Digits.

Lemma digits2_bounds (p : positive) :
  2 ^ (Zpos (digits2_pos p) - 1) <= Zpos p < 2 ^ Zpos (digits2_pos p).
Proof.
  induction p as [p IH | p IH |]; cbn [digits2_pos]; [| | cbn; lia].
  - rewrite Pos2Z.inj_succ.
    replace (Z.succ (Zpos (digits2_pos p)) - 1) with (Z.succ (Zpos (digits2_pos p) - 1)) by lia.
    rewrite !Z.pow_succ_r by lia. lia.
  - rewrite Pos2Z.inj_succ.
    replace (Z.succ (Zpos (digits2_pos p)) - 1) with (Z.succ (Zpos (digits2_pos p) - 1)) by lia.
    rewrite !Z.pow_succ_r by lia. lia.
Qed.

Lemma digits2_unique (p : positive) (k : Z) :
  2 ^ (k - 1) <= Zpos p < 2 ^ k -> Zpos (digits2_pos p) = k.
Proof.
  intros [Hlo Hhi]. pose proof (digits2_bounds p) as [Hlo' Hhi'].
  assert (0 < k).
  { destruct (Z.lt_ge_cases 0 k) as [|Hk]; [assumption |].
    assert (2 ^ k <= 1); [| lia].
    destruct (Z.eq_dec k 0) as [-> |]; [cbn; lia |]. rewrite Z.pow_neg_r; lia. }
  destruct (Z.lt_trichotomy (Zpos (digits2_pos p)) k) as [Hlt | [Heq | Hgt]]; [| assumption |].
  - assert (2 ^ Zpos (digits2_pos p) <= 2 ^ (k - 1)) by (apply Z.pow_le_mono_r; lia). lia.
  - assert (2 ^ k <= 2 ^ (Zpos (digits2_pos p) - 1)) by (apply Z.pow_le_mono_r; lia). lia.
Qed.

End Digits.

Section Shift.

Lemma iter_pos_nat {A : Type} (f : A -> A) (p : positive) (x : A) :
  SpecFloat.iter_pos f p x = Nat.iter (Pos.to_nat p) f x.
Proof.
  revert x. induction p as [p IH | p IH |]; intros x; cbn [SpecFloat.iter_pos].
  - rewrite !IH, Pos2Nat.inj_xI, <- Nat.iter_add.
    replace (S (2 * Pos.to_nat p))%nat with ((Pos.to_nat p + Pos.to_nat p) + 1)%nat by lia.
    by rewrite (Nat.iter_add (Pos.to_nat p + Pos.to_nat p) 1).
  - rewrite !IH, Pos2Nat.inj_xO, <- Nat.iter_add. f_equal. lia.
  - reflexivity.
Qed.

Lemma shr_1_spec (m : Z) (r s : bool) :
  0 <= m ->
  shr_1 (Build_shr_record m r s) = Build_shr_record (m / 2) (Z.odd m) (r || s).
Proof.
  intros Hm. destruct m as [| p | p]; [reflexivity | | lia].
  destruct p as [p | p |]; cbn [shr_1 Z.odd].
  - f_equal. rewrite Pos2Z.inj_xI. apply Z.div_unique with 1; lia.
  - f_equal. rewrite Pos2Z.inj_xO. apply Z.div_unique with 0; lia.
  - reflexivity.
Qed.

Lemma shr_m_iter (n : nat) (m : Z) (r s : bool) :
  0 <= m ->
  shr_m (Nat.iter n shr_1 (Build_shr_record m r s)) = m / 2 ^ Z.of_nat n.
Proof.
  intros Hm. revert r s. induction n as [| n IH]; intros r s.
  - cbn. by rewrite Z.div_1_r.
  - rewrite Nat.iter_succ.
    destruct (Nat.iter n shr_1 (Build_shr_record m r s)) as [m' r' s'] eqn:Hn.
    specialize (IH r s). rewrite Hn in IH. cbn [shr_m] in IH. subst m'.
    rewrite shr_1_spec by (apply Z.div_pos; lia). cbn [shr_m].
    rewrite Nat2Z.inj_succ, Z.pow_succ_r by lia.
    rewrite Z.div_div by lia. f_equal. lia.
Qed.

(** [n + 1] shifts of an exact mantissa: the quotient, the bit below it
    and whether anything lies below that bit *)
Lemma shr_exact_iter (n : nat) (m : Z) :
  0 <= m ->
  Nat.iter (S n) shr_1 (Build_shr_record m false false) =
  Build_shr_record (m / 2 ^ Z.of_nat (S n)) (Z.odd (m / 2 ^ Z.of_nat n))
    (negb (m mod 2 ^ Z.of_nat n =? 0)).
Proof.
  intros Hm. induction n as [| n IH].
  - rewrite Nat.iter_succ. change (Nat.iter 0 shr_1 ?x) with x.
    rewrite shr_1_spec by assumption.
    change (2 ^ Z.of_nat 1) with 2. change (2 ^ Z.of_nat 0) with 1.
    rewrite Z.div_1_r, Z.mod_1_r. reflexivity.
  - rewrite Nat.iter_succ, IH. rewrite shr_1_spec by (apply Z.div_pos; lia).
    assert (Hp : 0 < 2 ^ Z.of_nat n) by (apply Z.pow_pos_nonneg; lia).
    rewrite !Nat2Z.inj_succ, !Z.pow_succ_r by lia.
    f_equal; [rewrite Z.div_div by lia; f_equal; lia |].
    set (a := 2 ^ Z.of_nat n) in *.
      pose proof (Z.div_mod m a ltac:(lia)) as Hdm.
      pose proof (Z.mod_pos_bound m a Hp) as Hr.
      pose proof (Z.div_mod (m / a) 2 ltac:(lia)) as Hdq.
      pose proof (Z.mod_pos_bound (m / a) 2 ltac:(lia)) as Hb.
      rewrite Zodd_mod.
      assert (m mod (2 * a) = a * ((m / a) mod 2) + m mod a) as ->.
      { symmetry. apply Z.mod_unique with ((m / a) / 2); nia. }
      destruct (Z.eqb_spec ((m / a) mod 2) 1) as [H1 | H1];
        destruct (Z.eqb_spec (m mod a) 0) as [H0 | H0];
        destruct (Z.eqb_spec (a * ((m / a) mod 2) + m mod a) 0) as [H2 | H2];
        cbn [negb orb]; try reflexivity; exfalso; nia.
Qed.

(** rounding to nearest after [n + 1] shifts is within half a unit *)
Lemma round_shr_exact (n : nat) (m : Z) :
  0 <= m ->
  let mrs := Nat.iter (S n) shr_1 (Build_shr_record m false false) in
  let q := round_nearest_even (shr_m mrs) (loc_of_shr_record mrs) in
  (q = m / 2 ^ Z.of_nat (S n) \/ q = m / 2 ^ Z.of_nat (S n) + 1) /\
  2 * Z.abs (q * 2 ^ Z.of_nat (S n) - m) <= 2 ^ Z.of_nat (S n).
Proof.
  intros Hm mrs q. subst q mrs. rewrite shr_exact_iter by assumption.
  cbn [shr_m loc_of_shr_record].
  assert (Hp : 0 < 2 ^ Z.of_nat n) by (apply Z.pow_pos_nonneg; lia).
  rewrite Nat2Z.inj_succ, Z.pow_succ_r by lia.
  set (a := 2 ^ Z.of_nat n) in *.
  pose proof (Z.div_mod m a ltac:(lia)) as Hdm.
  pose proof (Z.mod_pos_bound m a Hp) as Hr.
  pose proof (Z.div_mod (m / a) 2 ltac:(lia)) as Hdq.
  pose proof (Z.mod_pos_bound (m / a) 2 ltac:(lia)) as Hb.
  assert (Hq : m / (2 * a) = (m / a) / 2) by (rewrite (Z.mul_comm 2), Z.div_div; lia).
  rewrite Hq. rewrite Zodd_mod.
  destruct (Z.eqb_spec ((m / a) mod 2) 1) as [H1 | H1];
    destruct (Z.eqb_spec (m mod a) 0) as [H0 | H0]; cbn [negb round_nearest_even].
  - destruct (Z.even (m / a / 2)); split; try tauto; nia.
  - split; [tauto | nia].
  - split; [tauto | nia].
  - split; [tauto | nia].
Qed.

End Shift.

Section Rounding.

Lemma fexp64 (z : Z) : fexp prec emax z = Z.max (z - 53) (-1074).
Proof. reflexivity. Qed.

Lemma pos_iter_xO (m d : positive) : Zpos (Pos.iter xO m d) = Zpos m * 2 ^ Zpos d.
Proof.
  induction d as [| d IH] using Pos.peano_ind.
  - cbn. lia.
  - rewrite Pos.iter_succ, Pos2Z.inj_xO, IH, Pos2Z.inj_succ, Z.pow_succ_r by lia. lia.
Qed.

Lemma shl_align_spec (m : positive) (e e' : Z) :
  (e' < e ->
   Zpos (fst (shl_align m e e')) = Zpos m * 2 ^ (e - e') /\ snd (shl_align m e e') = e') /\
  (e <= e' -> shl_align m e e' = (m, e)).
Proof.
  unfold shl_align. split; intros He.
  - destruct (e' - e) as [| p | p] eqn:Hd; try lia. cbn [fst snd].
    rewrite pos_iter_xO. split; [| reflexivity]. f_equal. f_equal. lia.
  - destruct (e' - e) as [| p | p] eqn:Hd; try lia; reflexivity.
Qed.

Lemma digits2_shift (m : positive) (k : Z) (p : positive) :
  0 <= k -> Zpos p = Zpos m * 2 ^ k ->
  Zpos (digits2_pos p) = Zpos (digits2_pos m) + k.
Proof.
  intros Hk Hp. apply digits2_unique. rewrite Hp.
  pose proof (digits2_bounds m) as [Hlo Hhi].
  replace (Zpos (digits2_pos m) + k - 1) with ((Zpos (digits2_pos m) - 1) + k) by lia.
  rewrite !Z.pow_add_r by lia.
  assert (0 < 2 ^ k) by (apply Z.pow_pos_nonneg; lia). nia.
Qed.

(** a mantissa that is already at its exponent is kept *)
Lemma binary_round_aux_canonical (s : bool) (m : positive) (e : Z) :
  fexp prec emax (Zpos (digits2_pos m) + e) = e ->
  binary_round_aux prec emax s (Zpos m) e loc_Exact =
    if e <=? 971 then S754_finite s m e else S754_infinity s.
Proof.
  intros Hc. unfold binary_round_aux, shr_fexp. cbn [Zdigits2].
  rewrite Hc, Z.sub_diag.
  cbn [shr shr_record_of_loc loc_of_shr_record shr_m round_nearest_even Zdigits2].
  rewrite Hc, Z.sub_diag. reflexivity.
Qed.

(** a mantissa with more than 53 bits is shifted and rounded to nearest *)
Lemma binary_round_aux_shift (s : bool) (m : positive) (e : Z) :
  let d := Zpos (digits2_pos m) in
  53 < d -> -1074 <= e ->
  exists (m3 : positive) (e3 : Z),
    binary_round_aux prec emax s (Zpos m) e loc_Exact =
      (if e3 <=? 971 then S754_finite s m3 e3 else S754_infinity s) /\
    (e3 = d + e - 53 \/ e3 = d + e - 52) /\
    Zpos (digits2_pos m3) = 53 /\
    2 * Z.abs (Zpos m3 * 2 ^ (e3 - e) - Zpos m) <= 2 ^ (d - 53).
Proof.
  intros d Hd He.
  pose proof (digits2_bounds m) as [Hlo Hhi]. fold d in Hlo, Hhi.
  assert (Hdd : Zpos (digits2_pos m) = d) by reflexivity. clearbody d.
  unfold binary_round_aux, shr_fexp. cbn [Zdigits2]. rewrite Hdd.
  rewrite fexp64, Z.max_l by lia.
  replace (d + e - 53 - e) with (d - 53) by lia.
  destruct (d - 53) as [| p | p] eqn:Hn; try lia.
  cbn [shr shr_record_of_loc]. rewrite iter_pos_nat.
  destruct (Pos.to_nat p) as [| n] eqn:Hp; [lia |].
  assert (Hpn : Zpos p = Z.of_nat (S n)) by lia.
  destruct (round_shr_exact n (Zpos m) ltac:(lia)) as [Hq Herr].
  set (q := round_nearest_even _ _) in *. rewrite <- Hpn in Hq, Herr.
  assert (Hp2 : 0 < 2 ^ Zpos p) by (apply Z.pow_pos_nonneg; lia).
  assert (Hm1 : 2 ^ 52 <= Zpos m / 2 ^ Zpos p < 2 ^ 53).
  { replace (d - 1) with (52 + Zpos p) in Hlo by lia.
    replace d with (53 + Zpos p) in Hhi by lia.
    rewrite Z.pow_add_r in Hlo, Hhi by lia.
    split; [apply Z.div_le_lower_bound; lia | apply Z.div_lt_upper_bound; lia]. }
  assert (Hqr : 2 ^ 52 <= q <= 2 ^ 53) by lia.
  destruct q as [| qp | qp] eqn:Eq; try lia.
  destruct (Z.eq_dec (Zpos qp) (2 ^ 53)) as [Htop | Hnot].
  - (* the rounding carried into a 54th bit *)
    assert (Hdq : Zpos (digits2_pos qp) = 54) by (apply digits2_unique; lia).
    cbn [Zdigits2]. rewrite Hdq, fexp64, Z.max_l by lia.
    replace (54 + (e + Zpos p) - 53 - (e + Zpos p)) with 1 by lia.
    cbn [shr shr_record_of_loc SpecFloat.iter_pos].
    rewrite shr_1_spec by lia. cbn [shr_m]. rewrite Htop.
    change (2 ^ 53 / 2) with (Zpos (2 ^ 52)%positive).
    exists (2 ^ 52)%positive, (e + Zpos p + 1).
    split; [reflexivity |]. split; [lia |]. split; [reflexivity |].
    replace (e + Zpos p + 1 - e) with (Z.succ (Zpos p)) by lia.
    rewrite Z.pow_succ_r by lia.
    replace (Zpos (2 ^ 52) * (2 * 2 ^ Zpos p)) with (Zpos qp * 2 ^ Zpos p) by (rewrite Htop; lia).
    exact Herr.
  - assert (Hdq : Zpos (digits2_pos qp) = 53) by (apply digits2_unique; lia).
    cbn [Zdigits2]. rewrite Hdq, fexp64, Z.max_l by lia.
    replace (53 + (e + Zpos p) - 53 - (e + Zpos p)) with 0 by lia.
    cbn [shr shr_record_of_loc shr_m].
    exists qp, (e + Zpos p).
    split; [reflexivity |]. split; [lia |]. split; [exact Hdq |].
    replace (e + Zpos p - e) with (Zpos p) by lia. exact Herr.
Qed.

End Rounding.

Section Units.
Import Double.

Lemma pow2_pos (k : Z) : 0 <= k -> 0 < 2 ^ k.
Proof. intros. apply Z.pow_pos_nonneg; lia. Qed.

Lemma pow2_lt_inv (a b : Z) : 0 <= b -> 2 ^ a < 2 ^ b -> a < b.
Proof. intros Hb H. apply Z.pow_lt_mono_r_iff in H; lia. Qed.

(** [binary_round] of a positive mantissa, in units of 2^-1074 *)
Lemma binary_round_units (s : bool) (m : positive) (e : Z) :
  -1074 <= e ->
  let d := Zpos (digits2_pos m) in
  exists (m3 : positive) (e3 : Z),
    binary_round prec emax s m e =
      (if e3 <=? 971 then S754_finite s m3 e3 else S754_infinity s) /\
    -1074 <= e3 <= Z.max (d + e - 52) (-1074) /\
    fexp prec emax (Zpos (digits2_pos m3) + e3) = e3 /\
    2 ^ 53 * Z.abs (Zpos m3 * 2 ^ (e3 + 1074) - Zpos m * 2 ^ (e + 1074))
      <= Zpos m * 2 ^ (e + 1074) /\
    (d <= 53 -> Zpos m3 * 2 ^ (e3 + 1074) = Zpos m * 2 ^ (e + 1074)) /\
    (-1074 <= d + e - 53 ->
       Zpos (digits2_pos m3) = 53 /\ (e3 = d + e - 53 \/ e3 = d + e - 52)) /\
    (Z.max (d + e - 53) (-1074) <= e3 /\
     2 * Z.abs (Zpos m3 * 2 ^ (e3 + 1074) - Zpos m * 2 ^ (e + 1074))
       <= 2 ^ (Z.max (d + e - 53) (-1074) + 1074)).
Proof.
  intros He d.
  pose proof (digits2_bounds m) as [Hlo Hhi]. fold d in Hlo, Hhi.
  assert (Hdd : Zpos (digits2_pos m) = d) by reflexivity.
  assert (Hd1 : 1 <= d) by (subst d; lia). clearbody d.
  pose proof (pow2_pos (e + 1074) ltac:(lia)) as Hpe.
  unfold binary_round. rewrite Hdd, fexp64.
  destruct (Z.lt_trichotomy (Z.max (d + e - 53) (-1074)) e) as [Hf | [Hf | Hf]].
  - (* fewer than 53 bits: aligned to the left, exact *)
    set (f := Z.max (d + e - 53) (-1074)) in *.
    destruct (shl_align_spec m e f) as [Hshl _]. destruct (Hshl Hf) as [Hmz Hez].
    destruct (shl_align m e f) as [mz ez]. cbn [fst snd] in Hmz, Hez. subst ez.
    assert (Hdz : Zpos (digits2_pos mz) = d + (e - f))
      by (rewrite <- Hdd; apply digits2_shift; [lia | exact Hmz]).
    rewrite binary_round_aux_canonical
      by (rewrite Hdz, fexp64; replace (d + (e - f) + f - 53) with (d + e - 53) by lia;
          fold f; lia).
    exists mz, f.
    assert (Hunits : Zpos mz * 2 ^ (f + 1074) = Zpos m * 2 ^ (e + 1074)).
    { rewrite Hmz, <- Z.mul_assoc, <- Z.pow_add_r by lia. f_equal. f_equal. lia. }
    split; [reflexivity |]. split; [lia |]. split.
    { rewrite Hdz, fexp64. lia. }
    split; [rewrite Hunits, Z.sub_diag; cbn [Z.abs]; lia |].
    split; [intros _; exact Hunits |].
    split; [intros Hn; rewrite Hdz; lia |].
    split; [lia |]. rewrite Hunits, Z.sub_diag. cbn [Z.abs].
    pose proof (pow2_pos (f + 1074) ltac:(lia)). lia.
  - (* exactly at its exponent *)
    destruct (shl_align_spec m e (Z.max (d + e - 53) (-1074))) as [_ Hshl].
    rewrite Hshl by lia.
    rewrite binary_round_aux_canonical by (rewrite Hdd, fexp64; lia).
    exists m, e.
    split; [reflexivity |]. split; [lia |]. split; [rewrite Hdd, fexp64; lia |].
    split; [rewrite Z.sub_diag; cbn [Z.abs]; lia |].
    split; [reflexivity |]. split; [intros Hn; rewrite Hdd; lia |].
    split; [lia |]. rewrite Z.sub_diag. cbn [Z.abs].
    pose proof (pow2_pos (Z.max (d + e - 53) (-1074) + 1074) ltac:(lia)). lia.
  - (* more than 53 bits: rounded *)
    destruct (shl_align_spec m e (Z.max (d + e - 53) (-1074))) as [_ Hshl].
    rewrite Hshl by lia.
    destruct (binary_round_aux_shift s m e ltac:(lia) He)
      as (m3 & e3 & Hr & He3 & Hd3 & Herr).
    rewrite Hdd in He3, Herr.
    exists m3, e3. split; [exact Hr |]. split; [lia |]. split; [rewrite Hd3, fexp64; lia |].
    assert (Hk : 0 <= e3 - e) by lia.
    assert (Hu3 : Zpos m3 * 2 ^ (e3 + 1074) = Zpos m3 * 2 ^ (e3 - e) * 2 ^ (e + 1074)).
    { rewrite <- Z.mul_assoc, <- Z.pow_add_r by lia. f_equal. f_equal. lia. }
    split.
    { rewrite Hu3, <- Z.mul_sub_distr_r, Z.abs_mul, (Z.abs_eq (2 ^ (e + 1074))) by lia.
      assert (Hpd : 2 ^ (d - 1) = 2 ^ 52 * 2 ^ (d - 53))
        by (rewrite <- Z.pow_add_r by lia; f_equal; lia).
      pose proof (pow2_pos (d - 53) ltac:(lia)).
      nia. }
    split; [lia |]. split; [intros _; split; [exact Hd3 | exact He3] |].
    split; [lia |].
    rewrite Hu3, <- Z.mul_sub_distr_r, Z.abs_mul, (Z.abs_eq (2 ^ (e + 1074))) by lia.
    assert (Hnorm : -1074 <= d + e - 53) by lia.
    rewrite Z.max_l by exact Hnorm.
    replace (d + e - 53 + 1074) with ((d - 53) + (e + 1074)) by lia.
    rewrite (Z.pow_add_r 2 (d - 53) (e + 1074)) by lia. rewrite Z.mul_assoc.
    apply Z.mul_le_mono_nonneg_r; [lia | exact Herr].
Qed.

Lemma valid_exponent (s : bool) (m : positive) (e : Z) :
  valid_binary (S754_finite s m e) = true ->
  -1074 <= e <= 971 /\ fexp prec emax (Zpos (digits2_pos m) + e) = e.
Proof.
  cbn [SpecFloat.valid_binary]. unfold bounded, canonical_mantissa.
  intros [Hc He]%andb_true_iff. apply Z.eqb_eq in Hc. apply Z.leb_le in He.
  change (emax - prec) with 971 in He. split; [| exact Hc].
  rewrite fexp64 in Hc. lia.
Qed.

(** the aligned mantissa of an operand of an addition or subtraction *)
Lemma aligned_units (s : bool) (m : positive) (e ez : Z) :
  -1074 <= ez <= e ->
  cond_Zopp s (Zpos (fst (shl_align m e ez))) * 2 ^ (ez + 1074) =
  sf_units (S754_finite s m e).
Proof.
  intros He. cbn [sf_units].
  assert (Zpos (fst (shl_align m e ez)) * 2 ^ (ez + 1074) = Zpos m * 2 ^ (e + 1074)) as Hm.
  { destruct (shl_align_spec m e ez) as [Hlt Hge].
    destruct (Z.eq_dec ez e) as [-> | Hne].
    - by rewrite Hge by lia.
    - destruct (Hlt ltac:(lia)) as [-> _].
      rewrite <- Z.mul_assoc, <- Z.pow_add_r by lia. f_equal. f_equal. lia. }
  destruct s; cbn [cond_Zopp]; lia.
Qed.

Lemma valid_units_bound (s : bool) (m : positive) (e : Z) :
  valid_binary (S754_finite s m e) = true ->
  Zpos m * 2 ^ (e + 1074) <= max_units.
Proof.
  intros [He Hc]%valid_exponent. rewrite fexp64 in Hc.
  pose proof (digits2_bounds m) as [_ Hhi].
  assert (Hm : Zpos m < 2 ^ 53).
  { eapply Z.lt_le_trans; [exact Hhi |]. apply Z.pow_le_mono_r; lia. }
  assert (Hp : 2 ^ (e + 1074) <= 2 ^ 2045) by (apply Z.pow_le_mono_r; lia).
  pose proof (pow2_pos (e + 1074) ltac:(lia)).
  unfold max_units. nia.
Qed.

Lemma sf_units_bound (x : spec_float) :
  valid_binary x = true -> Z.abs (sf_units x) <= max_units.
Proof.
  destruct x as [| | | s m e]; try (intros _; by cbn).
  intros Hv%valid_units_bound. cbn [sf_units].
  pose proof (valid_units_bound s m e) as _.
  destruct s; cbn [cond_Zopp]; lia.
Qed.

(** a rounded mantissa whose exponent is within range *)
Lemma round_in_range (s : bool) (m : positive) (e : Z) :
  -1074 <= e -> Zpos m * 2 ^ (e + 1074) <= max_units ->
  exists (m3 : positive) (e3 : Z),
    binary_round prec emax s m e = S754_finite s m3 e3 /\
    valid_binary (S754_finite s m3 e3) = true /\
    2 ^ 53 * Z.abs (Zpos m3 * 2 ^ (e3 + 1074) - Zpos m * 2 ^ (e + 1074))
      <= Zpos m * 2 ^ (e + 1074) /\
    Z.max (Zpos (digits2_pos m) + e - 53) (-1074) <= e3 /\
    2 * Z.abs (Zpos m3 * 2 ^ (e3 + 1074) - Zpos m * 2 ^ (e + 1074))
      <= 2 ^ (Z.max (Zpos (digits2_pos m) + e - 53) (-1074) + 1074).
Proof.
  intros He Hb.
  destruct (binary_round_units s m e He)
    as (m3 & e3 & Hr & He3 & Hc & Herr & _ & Hn & Hf & Hhalf).
  assert (He971 : e3 <= 971).
  { destruct (Z_lt_le_dec (Zpos (digits2_pos m) + e - 53) (-1074)) as [Hsub | Hnorm]; [lia |].
    destruct (Hn Hnorm) as [Hd3 _].
    destruct (Z_le_gt_dec e3 971) as [| Hover]; [assumption | exfalso].
    pose proof (digits2_bounds m3) as [Hlo _]. rewrite Hd3 in Hlo.
    change (2 ^ (53 - 1)) with (2 ^ 52) in Hlo.
    assert (Hp : 2 ^ 2046 <= 2 ^ (e3 + 1074)) by (apply Z.pow_le_mono_r; lia).
    assert (Hbig : 2 ^ 52 * 2 ^ 2046 <= Zpos m3 * 2 ^ (e3 + 1074)).
    { apply Z.mul_le_mono_nonneg; lia. }
    pose proof (pow2_pos (e + 1074) ltac:(lia)).
    unfold max_units in Hb.
    change (2 ^ 2046) with (2 * 2 ^ 2045) in Hbig.
    assert (0 < 2 ^ 2045) by (apply pow2_pos; lia).
    clear Hhalf.
    set (P := 2 ^ 2045) in *. clearbody P.
    set (A := Zpos m3 * 2 ^ (e3 + 1074)) in *. clearbody A.
    set (B := Zpos m * 2 ^ (e + 1074)) in *. clearbody B.
    change (2 ^ 53) with 9007199254740992 in *. change (2 ^ 52) with 4503599627370496 in *.
    lia. }
  exists m3, e3. rewrite Hr, (proj2 (Z.leb_le e3 971) He971).
  split; [reflexivity |]. split; [| by repeat split].
  cbn [SpecFloat.valid_binary]. unfold bounded, canonical_mantissa.
  apply andb_true_iff. split; [by apply Z.eqb_eq | by apply Z.leb_le].
Qed.

(** a multiple of a power of two that is at most half of it is zero *)
Lemma small_multiple (x k : Z) :
  0 <= k -> (2 ^ k | x) -> 2 * Z.abs x <= 2 ^ k -> x = 0.
Proof.
  intros Hk [q ->] H. pose proof (pow2_pos k Hk).
  destruct (Z.eq_dec q 0) as [-> | Hq]; [reflexivity | exfalso]. nia.
Qed.

Lemma pow2_divide (a b : Z) : 0 <= a <= b -> (2 ^ a | 2 ^ b).
Proof.
  intros H. exists (2 ^ (b - a)). rewrite <- Z.pow_add_r by lia. f_equal. lia.
Qed.

(** a number with a mantissa of at most 53 bits at an exponent within
    range is not changed by the rounding *)
Lemma round_exact (s : bool) (m : positive) (e K g : Z) :
  -1074 <= e -> Zpos m * 2 ^ (e + 1074) <= max_units ->
  -1074 <= g -> 0 <= K < 2 ^ 53 ->
  Zpos m * 2 ^ (e + 1074) = K * 2 ^ (g + 1074) ->
  exists (m3 : positive) (e3 : Z),
    binary_round prec emax s m e = S754_finite s m3 e3 /\
    valid_binary (S754_finite s m3 e3) = true /\
    Zpos m3 * 2 ^ (e3 + 1074) = Zpos m * 2 ^ (e + 1074).
Proof.
  intros He Hb Hg HK Hrep.
  destruct (round_in_range s m e He Hb) as (m3 & e3 & Hr & Hv & _ & Hf & Hhalf).
  exists m3, e3. split; [exact Hr |]. split; [exact Hv |].
  set (d := Zpos (digits2_pos m)) in *. set (f := Z.max (d + e - 53) (-1074)) in *.
  pose proof (digits2_bounds m) as [Hlo _]. fold d in Hlo.
  assert (Hd1 : 1 <= d) by (subst d; lia).
  assert (Hfg : f <= g).
  { assert (d - 1 + (e + 1074) < 53 + (g + 1074)); [| lia].
    apply pow2_lt_inv; [lia |].
    rewrite (Z.pow_add_r 2 (d - 1) (e + 1074)), (Z.pow_add_r 2 53 (g + 1074)) by lia.
    pose proof (pow2_pos (e + 1074) ltac:(lia)). pose proof (pow2_pos (g + 1074) ltac:(lia)).
    assert (2 ^ (d - 1) * 2 ^ (e + 1074) <= Zpos m * 2 ^ (e + 1074))
      by (apply Z.mul_le_mono_nonneg_r; lia).
    assert (K * 2 ^ (g + 1074) < 2 ^ 53 * 2 ^ (g + 1074))
      by (apply Z.mul_lt_mono_pos_r; lia).
    lia. }
  assert (Hzero : Zpos m3 * 2 ^ (e3 + 1074) - Zpos m * 2 ^ (e + 1074) = 0); [| lia].
  apply (small_multiple _ (f + 1074)); [lia | | exact Hhalf].
  apply Z.divide_sub_r.
  - apply Z.divide_mul_r, pow2_divide. lia.
  - rewrite Hrep. apply Z.divide_mul_r, pow2_divide. lia.
Qed.

Lemma binary_normalize_units (M e : Z) :
  -1074 <= e -> Z.abs M * 2 ^ (e + 1074) <= max_units ->
  let r := binary_normalize prec emax M e false in
  sf_finite r /\ valid_binary r = true /\
  2 ^ 53 * Z.abs (sf_units r - M * 2 ^ (e + 1074)) <= Z.abs (M * 2 ^ (e + 1074)).
Proof.
  intros He Hb r. subst r.
  pose proof (pow2_pos (e + 1074) ltac:(lia)) as Hpe.
  destruct M as [| m | m]; cbn [binary_normalize].
  - cbn. lia.
  - destruct (round_in_range false m e He Hb) as (m3 & e3 & -> & Hv & Herr & _).
    split; [exact I |]. split; [exact Hv |].
    cbn [sf_units cond_Zopp]. rewrite (Z.abs_eq (Zpos m * _)) by lia. exact Herr.
  - destruct (round_in_range true m e He Hb) as (m3 & e3 & -> & Hv & Herr & _).
    split; [exact I |]. split; [exact Hv |].
    cbn [sf_units cond_Zopp].
    replace (- (Zpos m3 * 2 ^ (e3 + 1074)) - Zneg m * 2 ^ (e + 1074))
      with (- (Zpos m3 * 2 ^ (e3 + 1074) - Zpos m * 2 ^ (e + 1074))) by lia.
    rewrite Z.abs_opp.
    replace (Z.abs (Zneg m * 2 ^ (e + 1074))) with (Zpos m * 2 ^ (e + 1074)) by lia.
    exact Herr.
Qed.

(** subtraction of finite doubles whose difference is in range: the
    result is finite and within a relative error of 2^-53 of it *)
Lemma SFsub_units (x y : spec_float) :
  valid_binary x = true -> valid_binary y = true ->
  sf_finite x -> sf_finite y ->
  Z.abs (sf_units x - sf_units y) <= max_units ->
  let r := SF64sub x y in
  sf_finite r /\ valid_binary r = true /\
  2 ^ 53 * Z.abs (sf_units r - (sf_units x - sf_units y))
    <= Z.abs (sf_units x - sf_units y).
Proof.
  intros Hvx Hvy Hfx Hfy Hb r. subst r. unfold SF64sub, SFsub.
  destruct x as [sx | sx | | sx mx ex], y as [sy | sy | | sy my ey];
    try (destruct Hfx); try (destruct Hfy).
  - destruct sx, sy; cbn; repeat split; lia.
  - split; [exact I |]. split; [exact Hvy |].
    cbn [sf_units]. destruct sy; cbn [negb cond_Zopp]; lia.
  - split; [exact I |]. split; [exact Hvx |]. cbn [sf_units].
    replace (cond_Zopp sx (Zpos mx * 2 ^ (ex + 1074)) - 0) with
      (cond_Zopp sx (Zpos mx * 2 ^ (ex + 1074))) by lia.
    rewrite Z.sub_diag. cbn [Z.abs]. lia.
  - apply valid_exponent in Hvx as [Hex _]. apply valid_exponent in Hvy as [Hey _].
    cbv zeta. set (ez := Z.min ex ey).
    pose proof (aligned_units sx mx ex ez ltac:(lia)) as Hx.
    pose proof (aligned_units sy my ey ez ltac:(lia)) as Hy.
    set (M := cond_Zopp sx _ - cond_Zopp sy _) in *.
    assert (HM : M * 2 ^ (ez + 1074) =
                 sf_units (S754_finite sx mx ex) - sf_units (S754_finite sy my ey))
      by (subst M; rewrite Z.mul_sub_distr_r, Hx, Hy; reflexivity).
    destruct (binary_normalize_units M ez ltac:(lia)) as (Hfin & Hv & Herr).
    { pose proof (pow2_pos (ez + 1074) ltac:(lia)).
      rewrite <- (Z.abs_eq (2 ^ (ez + 1074))) by lia. by rewrite <- Z.abs_mul, HM. }
    rewrite HM in Herr. by repeat split.
Qed.

Lemma binary_normalize_exact (M e K g : Z) :
  -1074 <= e -> Z.abs M * 2 ^ (e + 1074) <= max_units ->
  -1074 <= g -> 0 <= K < 2 ^ 53 ->
  Z.abs M * 2 ^ (e + 1074) = K * 2 ^ (g + 1074) ->
  sf_units (binary_normalize prec emax M e false) = M * 2 ^ (e + 1074).
Proof.
  intros He Hb Hg HK Hrep.
  destruct M as [| m | m]; cbn [binary_normalize].
  - reflexivity.
  - destruct (round_exact false m e K g He Hb Hg HK Hrep) as (m3 & e3 & -> & _ & Hex).
    exact Hex.
  - destruct (round_exact true m e K g He Hb Hg HK Hrep) as (m3 & e3 & -> & _ & Hex).
    cbn [sf_units cond_Zopp]. rewrite Hex. lia.
Qed.

(** a difference that is a double is computed exactly *)
Lemma SFsub_exact (x y : spec_float) (K g : Z) :
  valid_binary x = true -> valid_binary y = true ->
  sf_finite x -> sf_finite y ->
  Z.abs (sf_units x - sf_units y) <= max_units ->
  -1074 <= g -> 0 <= K < 2 ^ 53 ->
  Z.abs (sf_units x - sf_units y) = K * 2 ^ (g + 1074) ->
  sf_units (SF64sub x y) = sf_units x - sf_units y.
Proof.
  intros Hvx Hvy Hfx Hfy Hb Hg HK Hrep. unfold SF64sub, SFsub.
  destruct x as [sx | sx | | sx mx ex], y as [sy | sy | | sy my ey];
    try (destruct Hfx); try (destruct Hfy).
  - by destruct sx, sy.
  - cbn [sf_units]. destruct sy; cbn [negb cond_Zopp]; lia.
  - cbn [sf_units]. lia.
  - apply valid_exponent in Hvx as [Hex _]. apply valid_exponent in Hvy as [Hey _].
    cbv zeta. set (ez := Z.min ex ey).
    pose proof (aligned_units sx mx ex ez ltac:(lia)) as Hx.
    pose proof (aligned_units sy my ey ez ltac:(lia)) as Hy.
    set (M := cond_Zopp sx _ - cond_Zopp sy _) in *.
    assert (HM : M * 2 ^ (ez + 1074) =
                 sf_units (S754_finite sx mx ex) - sf_units (S754_finite sy my ey))
      by (subst M; rewrite Z.mul_sub_distr_r, Hx, Hy; reflexivity).
    pose proof (pow2_pos (ez + 1074) ltac:(lia)) as Hp.
    assert (HMabs : Z.abs M * 2 ^ (ez + 1074) =
                    Z.abs (sf_units (S754_finite sx mx ex) - sf_units (S754_finite sy my ey))).
    { rewrite <- (Z.abs_eq (2 ^ (ez + 1074))) at 1 by lia. by rewrite <- Z.abs_mul, HM. }
    rewrite <- HM. apply (binary_normalize_exact M ez K g); [lia | | lia | lia |];
      by rewrite HMabs.
Qed.

(** the exponents of two doubles are in the order of the doubles *)
Lemma exponent_mono (mx my : positive) (ex ey : Z) :
  valid_binary (S754_finite false mx ex) = true ->
  valid_binary (S754_finite false my ey) = true ->
  Zpos mx * 2 ^ (ex + 1074) <= Zpos my * 2 ^ (ey + 1074) ->
  ex <= ey.
Proof.
  intros [Hex Hcx]%valid_exponent [Hey Hcy]%valid_exponent Hle.
  rewrite fexp64 in Hcx, Hcy.
  destruct (Z_le_gt_dec ex ey) as [| Hgt]; [assumption | exfalso].
  pose proof (digits2_bounds mx) as [Hlox _]. pose proof (digits2_bounds my) as [_ Hhiy].
  assert (Hdx : Zpos (digits2_pos mx) = 53) by lia.
  rewrite Hdx in Hlox. change (2 ^ (53 - 1)) with (2 ^ 52) in Hlox.
  assert (Hmy : Zpos my < 2 ^ 53).
  { eapply Z.lt_le_trans; [exact Hhiy |]. apply Z.pow_le_mono_r; lia. }
  assert (Hp : 2 * 2 ^ (ey + 1074) <= 2 ^ (ex + 1074)).
  { rewrite <- Z.pow_succ_r by lia. apply Z.pow_le_mono_r; lia. }
  pose proof (pow2_pos (ey + 1074) ltac:(lia)).
  change (2 ^ 53) with (2 * 2 ^ 52) in Hmy. nia.
Qed.

End Units.

Section Division.

Lemma loc_of_shr_record_of_loc (m : Z) (l : location) :
  loc_of_shr_record (shr_record_of_loc m l) = l /\
  shr_m (shr_record_of_loc m l) = m.
Proof. destruct l as [| []]; by split. Qed.

(** where the remainder [r] of a division by [m] lies *)
Lemma new_location_spec (m r : Z) :
  0 <= r < m ->
  match new_location m r with
  | loc_Exact => r = 0
  | loc_Inexact Lt => 0 < 2 * r < m
  | loc_Inexact Eq => 0 < r /\ 2 * r = m
  | loc_Inexact Gt => m < 2 * r
  end.
Proof.
  intros Hr. unfold new_location, new_location_even, new_location_odd.
  destruct (Z.even m) eqn:Hev; destruct (Z.eqb_spec r 0) as [H0 | H0]; try assumption.
  - destruct (Z.compare_spec (2 * r) m); lia.
  - apply (f_equal negb) in Hev. rewrite Z.negb_even in Hev. apply Z.odd_spec in Hev as [k Hk].
    destruct (Z.compare_spec (2 * r + 1) m); lia.
Qed.

(** the second normalisation of [binary_round_aux] *)
Lemma finish_round (s : bool) (q e : Z) :
  2 ^ 52 <= q <= 2 ^ 53 -> -1074 <= e ->
  exists (m3 : positive) (e3 : Z),
    (let '(mrs, e') := shr_fexp prec emax q e loc_Exact in
     match shr_m mrs with
     | Z0 => S754_zero s
     | Zpos m => if e' <=? emax - prec then S754_finite s m e' else S754_infinity s
     | Zneg _ => S754_nan
     end) = (if e3 <=? 971 then S754_finite s m3 e3 else S754_infinity s) /\
    Zpos m3 * 2 ^ (e3 - e) = q /\ (e3 = e \/ e3 = e + 1) /\
    Zpos (digits2_pos m3) = 53.
Proof.
  intros Hq He. destruct q as [| qp | qp]; try lia. unfold shr_fexp. cbn [Zdigits2].
  destruct (Z.eq_dec (Zpos qp) (2 ^ 53)) as [Htop | Hnot].
  - assert (Hdq : Zpos (digits2_pos qp) = 54) by (apply digits2_unique; lia).
    rewrite Hdq, fexp64, Z.max_l by lia.
    replace (54 + e - 53 - e) with 1 by lia.
    cbn [shr shr_record_of_loc SpecFloat.iter_pos].
    rewrite shr_1_spec by lia. cbn [shr_m]. rewrite Htop.
    change (2 ^ 53 / 2) with (Zpos (2 ^ 52)%positive).
    exists (2 ^ 52)%positive, (e + 1).
    split; [reflexivity |]. replace (e + 1 - e) with 1 by lia.
    split; [reflexivity |]. split; [lia | reflexivity].
  - assert (Hdq : Zpos (digits2_pos qp) = 53) by (apply digits2_unique; lia).
    rewrite Hdq, fexp64, Z.max_l by lia.
    replace (53 + e - 53 - e) with 0 by lia.
    cbn [shr shr_record_of_loc shr_m].
    exists qp, e. split; [reflexivity |]. rewrite Z.sub_diag.
    split; [cbn; lia |]. split; [lia | exact Hdq].
Qed.

(** rounding a quotient of 53 or 54 bits with its remainder *)
Lemma binary_round_aux_quotient (s : bool) (N my e : Z) :
  0 < my -> -1074 <= e ->
  let q := N / my in
  2 ^ 52 <= q < 2 ^ 54 ->
  exists (m3 : positive) (e3 : Z),
    binary_round_aux prec emax s q e (new_location my (N mod my)) =
      (if e3 <=? 971 then S754_finite s m3 e3 else S754_infinity s) /\
    e <= e3 <= e + 2 /\
    Zpos (digits2_pos m3) = 53 /\
    2 ^ 53 * Z.abs (Zpos m3 * 2 ^ (e3 - e) * my - N) <= N.
Proof.
  intros Hmy He q Hq.
  pose proof (Z.div_mod N my ltac:(lia)) as Hdm. fold q in Hdm.
  pose proof (Z.mod_pos_bound N my Hmy) as Hr.
  pose proof (new_location_spec my (N mod my) Hr) as Hloc.
  set (r := N mod my) in *. clearbody r.
  set (l := new_location my r) in *. clearbody l.
  clearbody q.
  unfold binary_round_aux.
  destruct q as [| qp | qp]; try lia.
  destruct (Z_lt_le_dec (Zpos qp) (2 ^ 53)) as [H53 | H54].
  - (* 53 bits: no shift *)
    assert (Hdq : Zpos (digits2_pos qp) = 53) by (apply digits2_unique; lia).
    unfold shr_fexp at 1. cbn [Zdigits2]. rewrite Hdq, fexp64, Z.max_l by lia.
    replace (53 + e - 53 - e) with 0 by lia. cbn [shr].
    destruct (loc_of_shr_record_of_loc (Zpos qp) l) as [-> ->].
    set (m2 := round_nearest_even (Zpos qp) l).
    assert (Hm2 : (m2 = Zpos qp \/ m2 = Zpos qp + 1) /\ 2 * Z.abs (m2 * my - N) <= my).
    { subst m2. destruct l as [| []]; cbn [round_nearest_even];
        try (match goal with |- context [if ?b then _ else _] => destruct b end);
        (split; [tauto | lia]). }
    destruct Hm2 as [Hm2 Herr].
    destruct (finish_round s m2 e ltac:(lia) He) as (m3 & e3 & -> & Hv & He3 & Hd3).
    exists m3, e3. split; [reflexivity |]. split; [lia |]. split; [exact Hd3 |].
    rewrite Hv. nia.
  - (* 54 bits: one shift *)
    assert (Hdq : Zpos (digits2_pos qp) = 54) by (apply digits2_unique; lia).
    unfold shr_fexp at 1. cbn [Zdigits2]. rewrite Hdq, fexp64, Z.max_l by lia.
    replace (54 + e - 53 - e) with 1 by lia. cbn [shr SpecFloat.iter_pos].
    pose proof (Z.div_mod (Zpos qp) 2 ltac:(lia)) as Hdq2.
    pose proof (Z.mod_pos_bound (Zpos qp) 2 ltac:(lia)) as Hb.
    set (m2 := round_nearest_even _ _).
    assert (Hm2 : (m2 = Zpos qp / 2 \/ m2 = Zpos qp / 2 + 1) /\
                  Z.abs (m2 * 2 * my - N) <= my).
    { subst m2. destruct l as [| []]; cbn [shr_record_of_loc];
        rewrite shr_1_spec by lia; cbn [shr_m loc_of_shr_record orb];
        rewrite Zodd_mod;
        destruct (Z.eqb_spec (Zpos qp mod 2) 1) as [H1 | H1];
        cbn [round_nearest_even];
        try (match goal with |- context [if ?b then _ else _] => destruct b end);
        (split; [tauto | lia]). }
    destruct Hm2 as [Hm2 Herr].
    assert (Hhalf : 2 ^ 52 <= Zpos qp / 2 < 2 ^ 53).
    { split; [apply Z.div_le_lower_bound; lia | apply Z.div_lt_upper_bound; lia]. }
    destruct (finish_round s m2 (e + 1) ltac:(lia) ltac:(lia)) as (m3 & e3 & -> & Hv & He3 & Hd3).
    exists m3, e3. split; [reflexivity |]. split; [lia |]. split; [exact Hd3 |].
    replace (e3 - e) with (Z.succ (e3 - (e + 1))) by lia.
    rewrite Z.pow_succ_r by lia.
    replace (Zpos m3 * (2 * 2 ^ (e3 - (e + 1)))) with (Zpos m3 * 2 ^ (e3 - (e + 1)) * 2) by lia.
    rewrite Hv. nia.
Qed.

End Division.

Section Quotient.
Import Double.

(** division of two positive doubles with full mantissas, within range *)
Lemma SFdiv_units (mx my : positive) (ex ey : Z) :
  Zpos (digits2_pos mx) = 53 -> Zpos (digits2_pos my) = 53 ->
  -1074 <= ex -> -1074 <= ey ->
  -1074 <= ex - ey - 53 -> ex - ey - 51 <= 971 ->
  exists (m3 : positive) (e3 : Z),
    SF64div (S754_finite false mx ex) (S754_finite false my ey) = S754_finite false m3 e3 /\
    valid_binary (S754_finite false m3 e3) = true /\
    Zpos (digits2_pos m3) = 53 /\
    2 ^ 53 * Z.abs (Zpos m3 * 2 ^ (e3 + 1074) * (Zpos my * 2 ^ (ey + 1074))
                    - Zpos mx * 2 ^ (ex + 1074) * 2 ^ 1074)
      <= Zpos mx * 2 ^ (ex + 1074) * 2 ^ 1074.
Proof.
  intros Hdx Hdy Hex Hey Hlo Hhi.
  unfold SF64div, SFdiv, SFdiv_core_binary. cbn [Zdigits2 xorb]. cbv zeta.
  rewrite Hdx, Hdy, fexp64.
  replace (Z.min (Z.max (53 + ex - (53 + ey) - 53) (-1074)) (ex - ey))
    with (ex - ey - 53) by lia.
  replace (ex - ey - (ex - ey - 53)) with 53 by lia. cbv iota.
  rewrite Z.shiftl_mul_pow2 by lia.
  set (N := Zpos mx * 2 ^ 53). set (e := ex - ey - 53) in *.
  destruct (Z.div_eucl N (Zpos my)) as [q r] eqn:Hdiv.
  assert (Hq : q = N / Zpos my) by (unfold Z.div; by rewrite Hdiv).
  assert (Hr : r = N mod Zpos my) by (unfold Z.modulo; by rewrite Hdiv).
  subst q r.
  pose proof (digits2_bounds mx) as Hbx. rewrite Hdx in Hbx.
  pose proof (digits2_bounds my) as Hby. rewrite Hdy in Hby.
  change (2 ^ (53 - 1)) with (2 ^ 52) in Hbx, Hby.
  assert (HN : 2 ^ 52 * 2 ^ 53 <= N < 2 ^ 53 * 2 ^ 53) by (subst N; lia).
  assert (Hquot : 2 ^ 52 <= N / Zpos my < 2 ^ 54).
  { split.
    - apply Z.div_le_lower_bound; [lia |].
      change (2 ^ 53) with 9007199254740992 in *. change (2 ^ 52) with 4503599627370496 in *. nia.
    - apply Z.div_lt_upper_bound; [lia |].
      change (2 ^ 54) with 18014398509481984.
      change (2 ^ 53) with 9007199254740992 in *. change (2 ^ 52) with 4503599627370496 in *. nia. }
  destruct (binary_round_aux_quotient false N (Zpos my) e ltac:(lia) Hlo Hquot)
    as (m3 & e3 & -> & He3 & Hd3 & Herr).
  exists m3, e3. rewrite (proj2 (Z.leb_le e3 971)) by lia.
  split; [reflexivity |]. split.
  { cbn [SpecFloat.valid_binary]. unfold bounded, canonical_mantissa.
    apply andb_true_iff. split; [apply Z.eqb_eq; rewrite Hd3, fexp64; lia | apply Z.leb_le].
    change (emax - prec) with 971. lia. }
  split; [exact Hd3 |].
  set (T := (e + 1074) + (ey + 1074)).
  assert (HT : 0 <= T) by (subst T e; lia).
  assert (H1 : Zpos m3 * 2 ^ (e3 + 1074) * (Zpos my * 2 ^ (ey + 1074)) =
               Zpos m3 * 2 ^ (e3 - e) * Zpos my * 2 ^ T).
  { subst T. rewrite (Z.pow_add_r 2 (e + 1074)) by lia.
    replace (e3 + 1074) with ((e3 - e) + (e + 1074)) by lia.
    rewrite (Z.pow_add_r 2 (e3 - e)) by lia. ring. }
  assert (H2 : Zpos mx * 2 ^ (ex + 1074) * 2 ^ 1074 = N * 2 ^ T).
  { subst N T e. rewrite <- !Z.mul_assoc, <- !Z.pow_add_r by lia. f_equal. f_equal. lia. }
  rewrite H1, H2, <- Z.mul_sub_distr_r, Z.abs_mul.
  pose proof (pow2_pos T HT) as HpT. rewrite (Z.abs_eq (2 ^ T)) by lia.
  rewrite Z.mul_assoc. apply Z.mul_le_mono_nonneg_r; [lia | exact Herr].
Qed.

(** the double nearest a positive integer *)
Lemma normalize_int (n : positive) :
  (exists (m3 : positive) (e3 : Z),
     binary_normalize prec emax (Zpos n) 0 false = S754_finite false m3 e3 /\
     valid_binary (S754_finite false m3 e3) = true /\
     Zpos (digits2_pos m3) = 53 /\ -52 <= e3 <= 971 /\
     2 ^ 53 * Z.abs (Zpos m3 * 2 ^ (e3 + 1074) - Zpos n * 2 ^ 1074) <= Zpos n * 2 ^ 1074 /\
     (Zpos n < 2 ^ 53 -> Zpos m3 * 2 ^ (e3 + 1074) = Zpos n * 2 ^ 1074)) \/
  (binary_normalize prec emax (Zpos n) 0 false = S754_infinity false /\ 2 ^ 1023 <= Zpos n).
Proof.
  cbn [binary_normalize].
  destruct (binary_round_units false n 0 ltac:(lia)) as (m3 & e3 & Hr & He3 & Hc & Herr & Hex & Hn & _).
  pose proof (digits2_bounds n) as [Hlo _].
  assert (Hd1 : 1 <= Zpos (digits2_pos n)) by lia.
  destruct (Hn ltac:(lia)) as [Hd3 Hcase].
  change (0 + 1074) with 1074 in Herr, Hex.
  destruct (Z.leb_spec e3 971) as [Hle | Hgt].
  - left. exists m3, e3. split; [exact Hr |]. split.
    { cbn [SpecFloat.valid_binary]. unfold bounded, canonical_mantissa.
      apply andb_true_iff. split; [by apply Z.eqb_eq | by apply Z.leb_le]. }
    split; [exact Hd3 |]. split; [lia |]. split; [exact Herr |].
    intros Hsmall. apply Hex.
    destruct (Z_le_gt_dec (Zpos (digits2_pos n)) 53) as [| Hd]; [assumption | exfalso].
    assert (2 ^ 53 <= 2 ^ (Zpos (digits2_pos n) - 1)) by (apply Z.pow_le_mono_r; lia). lia.
  - right. split; [exact Hr |].
    eapply Z.le_trans; [| exact Hlo]. apply Z.pow_le_mono_r; lia.
Qed.



End Quotient.

(** ** Primitive floats *)
Section DoubleFacts.
Import Double.

Lemma prim_zero : Prim2SF 0%float = S754_zero false.
Proof. reflexivity. Qed.

Lemma prim_infinity : Prim2SF infinity = S754_infinity false.
Proof. reflexivity. Qed.

Lemma prim_sixty : Prim2SF 60%float = S754_finite false 8444249301319680 (-47).
Proof. reflexivity. Qed.

Lemma is_infinity_SF (x : float) :
  is_infinity x = match Prim2SF x with S754_infinity _ => true | _ => false end.
Proof.
  unfold is_infinity. rewrite FloatAxioms.eqb_spec, abs_spec, prim_infinity.
  destruct (Prim2SF x) as [| | | s m e]; reflexivity.
Qed.

Lemma units_bound (x : float) : Z.abs (units x) <= max_units.
Proof. apply sf_units_bound, Prim2SF_valid. Qed.

(** [a - b] on finite doubles *)
Lemma sub_units (a b : float) :
  finite a -> finite b -> Z.abs (units a - units b) <= max_units ->
  finite (a - b) /\
  2 ^ 53 * Z.abs (units (a - b) - (units a - units b)) <= Z.abs (units a - units b).
Proof.
  intros Ha Hb Hm. unfold finite, units. rewrite sub_spec.
  destruct (SFsub_units (Prim2SF a) (Prim2SF b)) as (Hf & _ & Herr);
    auto using Prim2SF_valid.
Qed.

(** [0 < x] on a finite double *)
Lemma ltb_zero (x : float) :
  finite x -> (0 <? x)%float = true <-> 0 < units x.
Proof.
  unfold finite, units. rewrite ltb_spec, prim_zero.
  pose proof (Prim2SF_valid x) as Hv.
  destruct (Prim2SF x) as [s | s | | s m e]; intros H; try (exfalso; exact H).
  - cbn. split; [done | lia].
  - apply valid_exponent in Hv as [He _].
    pose proof (pow2_pos (e + 1074) ltac:(lia)).
    destruct s; cbn [sf_units cond_Zopp]; unfold SFltb, SFcompare; split; try done; lia.
Qed.



Lemma value_le (a b : float) : (value a <= value b)%Q <-> units a <= units b.
Proof.
  unfold value, Qle. cbn [Qnum Qden].
  split; intros H; [eapply Z.mul_le_mono_pos_r; [| exact H] | apply Z.mul_le_mono_nonneg_r]; lia.
Qed.

Lemma value_lt (a b : float) : (value a < value b)%Q <-> units a < units b.
Proof.
  unfold value, Qlt. cbn [Qnum Qden].
  split; intros H; [eapply Z.mul_lt_mono_pos_r; [| exact H] | apply Z.mul_lt_mono_pos_r]; lia.
Qed.

Lemma value_units (x : float) : (value x == inject_Z (units x) * (1 # 2 ^ 1074))%Q.
Proof. unfold value, Qeq, Qmult, inject_Z. cbn [Qnum Qden]. lia. Qed.

(** [a - b] when the difference is a double *)
Lemma sub_exact (a b : float) (K g : Z) :
  finite a -> finite b -> -1074 <= g -> 0 <= K < 2 ^ 53 ->
  Z.abs (units a - units b) = K * 2 ^ (g + 1074) ->
  Z.abs (units a - units b) <= max_units ->
  finite (a - b) /\ units (a - b) = units a - units b.
Proof.
  intros Ha Hb Hg HK Hrep Hm. split; [by apply sub_units |].
  unfold finite, units in *. rewrite sub_spec.
  apply (SFsub_exact _ _ K g); auto using Prim2SF_valid.
Qed.

(** a positive finite double is a mantissa at an exponent *)
Lemma positive_shape (x : float) :
  finite x -> 0 < units x ->
  exists (m : positive) (e : Z),
    Prim2SF x = S754_finite false m e /\ valid_binary (S754_finite false m e) = true /\
    -1074 <= e <= 971 /\ Zpos m < 2 ^ 53.
Proof.
  unfold finite, units. pose proof (Prim2SF_valid x) as Hv.
  destruct (Prim2SF x) as [s | s | | s m e]; intros Hf Hpos; try (exfalso; exact Hf);
    cbn [sf_units] in Hpos; [lia |].
  pose proof (valid_exponent _ _ _ Hv) as [He Hc]. rewrite fexp64 in Hc.
  pose proof (pow2_pos (e + 1074) ltac:(lia)).
  destruct s; cbn [cond_Zopp] in Hpos; [lia |].
  exists m, e. split; [reflexivity |]. split; [exact Hv |]. split; [exact He |].
  pose proof (digits2_bounds m) as [_ Hhi].
  eapply Z.lt_le_trans; [exact Hhi |]. apply Z.pow_le_mono_r; lia.
Qed.

Lemma value_add_le (a b c : float) :
  (value a + value b <= value c)%Q <-> units a + units b <= units c.
Proof.
  unfold value, Qle, Qplus. cbn [Qnum Qden]. rewrite Pos2Z.inj_mul.
  set (D := Zpos (2 ^ 1074)). assert (0 < D) by (subst D; lia).
  split; intros Hle; nia.
Qed.

End DoubleFacts.

(** ** The rate limiter *)
Section RateLimiterFacts.
Import Double Py RateLimiter.

Lemma init_spec (c : Z) :
  match __init__ c with
  | Raise e => e = OverflowError /\ 2 ^ 1023 <= c
  | Ok self =>
      _last_call_ts self = 0%float /\ steady self /\
      (exists (mi : positive) (ei : Z),
         Prim2SF (interval_seconds self) = S754_finite false mi ei /\
         Zpos (digits2_pos mi) = 53) /\
      2 ^ 51 * Z.abs (units (interval_seconds self) * (Z.max 1 c * 2 ^ 1074)
                      - 60 * 2 ^ 1074 * 2 ^ 1074)
        <= 60 * 2 ^ 1074 * 2 ^ 1074 /\
      (c < 2 ^ 53 ->
       2 ^ 53 * Z.abs (units (interval_seconds self) * (Z.max 1 c * 2 ^ 1074)
                       - 60 * 2 ^ 1074 * 2 ^ 1074)
         <= 60 * 2 ^ 1074 * 2 ^ 1074)
  end.
Proof.
  unfold __init__, float_of_int.
  destruct (Z.max 1 c) as [| n | n] eqn:Hmax; try lia.
  destruct (normalize_int n) as [(m3 & e3 & Hr & Hv & Hd3 & He3 & Herr & Hexact) | [Hr Hbig]].
  - rewrite Hr.
    assert (Hx : Prim2SF (SF2Prim (S754_finite false m3 e3)) = S754_finite false m3 e3)
      by (apply Prim2SF_SF2Prim, Hv).
    rewrite is_infinity_SF, Hx. cbn [mbind result_bind].
    set (x := SF2Prim (S754_finite false m3 e3)) in *.
    destruct (SFdiv_units 8444249301319680 m3 (-47) e3) as (mi & ei & Hdiv & Hvi & Hdi & Hq);
      [reflexivity | exact Hd3 | lia | lia | lia | lia |].
    assert (Hi : Prim2SF (60 / x) = S754_finite false mi ei)
      by (rewrite div_spec, prim_sixty, Hx; exact Hdiv).
    apply valid_exponent in Hvi as [Hei _].
    pose proof (pow2_pos (ei + 1074) ltac:(lia)) as Hpi.
    cbn [_last_call_ts interval_seconds]. split; [reflexivity |]. split.
    { unfold steady, finite, units. cbn [_last_call_ts interval_seconds].
      rewrite Hi, prim_zero. cbn [sf_finite sf_units cond_Zopp]. repeat split; lia. }
    split; [by exists mi, ei |].
    unfold units. rewrite Hi. cbn [sf_units cond_Zopp].
    change (-47 + 1074) with 1027 in Hq.
    change (8444249301319680 * 2 ^ 1027) with (60 * 2 ^ 1074) in Hq.
    set (A := Zpos mi * 2 ^ (ei + 1074)) in *.
    assert (HA : 0 < A) by (subst A; lia).
    pose proof (pow2_pos (e3 + 1074) ltac:(lia)) as Hp3.
    set (Y := Zpos m3 * 2 ^ (e3 + 1074)) in *.
    assert (HY : 0 < Y) by (subst Y; lia).
    set (M := Zpos n * 2 ^ 1074) in *.
    set (K := 60 * 2 ^ 1074 * 2 ^ 1074) in *.
    assert (HPQ : 2 ^ 53 * Z.abs (A * M - A * Y) <= A * M).
    { rewrite <- Z.mul_sub_distr_l, Z.abs_mul, (Z.abs_eq A) by lia.
      assert (Z.abs (M - Y) = Z.abs (Y - M)) as -> by lia.
      replace (2 ^ 53 * (A * Z.abs (Y - M))) with (A * (2 ^ 53 * Z.abs (Y - M))) by ring.
      apply Z.mul_le_mono_nonneg_l; lia. }
    split.
    + clearbody K M. set (P := A * M) in *. set (R := A * Y) in *. clearbody P R.
      change (2 ^ 53) with 9007199254740992 in *. change (2 ^ 51) with 2251799813685248.
      lia.
    + intros Hc. subst M. rewrite <- Hexact; [exact Hq | lia].
  - rewrite Hr. change (SF2Prim (S754_infinity false)) with infinity.
    change (is_infinity infinity) with true. cbn. split; [reflexivity | lia].
Qed.

(** one call, whatever the recorded time (the first call in
    particular): the time recorded next is at least the previous one
    plus the interval, up to the rounding of the two subtractions *)
Lemma wait_gap (self : t) (k : tick) :
  steady self -> tick_ok self k ->
  steady (wait self k).1 /\
  units (now k) <= units (_last_call_ts (wait self k).1) /\
  2 ^ 53 * units (_last_call_ts self) + (2 ^ 53 - 1) * units (interval_seconds self)
    <= 2 ^ 53 * units (_last_call_ts (wait self k).1).
Proof.
  intros (HfI & HI & HfL & HL) (Hfn & Hfa & HLn & Hna & Hsleep).
  apply value_le in HLn, Hna.
  unfold wait in *. cbn [fst snd _last_call_ts interval_seconds] in *.
  set (I := interval_seconds self) in *. set (L := _last_call_ts self) in *.
  pose proof (units_bound (now k)) as Hbn.
  destruct (sub_units (now k) L Hfn HfL ltac:(lia)) as [Hfe Hee].
  set (e := (now k - L)%float) in *.
  pose proof (units_bound e) as Hbe. pose proof (units_bound I) as HbI.
  assert (He0 : 0 <= units e) by lia.
  destruct (sub_units I e HfI Hfe ltac:(lia)) as [Hfw Hew].
  set (w := (I - e)%float) in *.
  pose proof (ltb_zero w Hfw) as Hlt.
  split; [unfold steady; cbn [_last_call_ts interval_seconds]; repeat split; try assumption; lia |].
  split; [exact Hna |].
  change (2 ^ 53) with 9007199254740992 in *.
  destruct (0 <? w)%float.
  - assert (Hw : 0 < units w) by (by apply Hlt).
    assert (Hs : units (now k) + units w <= units (after k)).
    { clear -Hsleep. unfold value, Qle, Qplus in Hsleep. cbn [Qnum Qden] in Hsleep.
      rewrite Pos2Z.inj_mul in Hsleep.
      set (D := Zpos (2 ^ 1074)) in *. assert (0 < D) by (subst D; lia).
      nia. }
    lia.
  - assert (Hw : ~ 0 < units w) by (intros H; by apply Hlt in H).
    lia.
Qed.

(** one call after another: the time recorded is at least the previous
    one plus the interval.  Either the clock has advanced by an interval
    already, or the two subtractions are exact: the recorded time, the
    reading and the interval are multiples of one power of two, and
    what is computed is such a multiple below 2^53 of them. *)
Lemma wait_gap_exact (self : t) (k : tick) (mi : positive) (ei : Z) :
  Prim2SF (interval_seconds self) = S754_finite false mi ei ->
  Zpos (digits2_pos mi) = 53 ->
  steady self ->
  (2 ^ 53 - 1) * units (interval_seconds self) <= 2 ^ 53 * units (_last_call_ts self) ->
  tick_ok self k ->
  units (_last_call_ts self) + units (interval_seconds self) <= units (after k).
Proof.
  intros HI Hdi (HfI & HIpos & HfL & HL) Hpin (Hfn & Hfa & HLn & Hna & Hsleep).
  apply value_le in HLn, Hna.
  unfold wait in Hsleep. cbn [snd] in Hsleep.
  set (I := interval_seconds self) in *. set (L := _last_call_ts self) in *.
  destruct (Z_le_gt_dec (units I) (units (now k) - units L)) as [Hfar | Hnear]; [lia |].
  (* the shapes of the three numbers *)
  pose proof (Prim2SF_valid I) as HvI. rewrite HI in HvI.
  pose proof (valid_exponent _ _ _ HvI) as [Hei _].
  assert (HIu : units I = Zpos mi * 2 ^ (ei + 1074)) by (unfold units; by rewrite HI).
  pose proof (digits2_bounds mi) as Hmi. rewrite Hdi in Hmi.
  change (2 ^ (53 - 1)) with (2 ^ 52) in Hmi.
  destruct (positive_shape L HfL ltac:(lia)) as (ml & el & HLs & HvL & Hel & Hml).
  destruct (positive_shape (now k) Hfn ltac:(lia)) as (mn & en & Hns & Hvn & Hen & Hmn).
  assert (HLu : units L = Zpos ml * 2 ^ (el + 1074)) by (unfold units; by rewrite HLs).
  assert (Hnu : units (now k) = Zpos mn * 2 ^ (en + 1074)) by (unfold units; by rewrite Hns).
  assert (Hlen : el <= en).
  { apply (exponent_mono ml mn); [exact HvL | exact Hvn |]. rewrite <- HLu, <- Hnu. exact HLn. }
  set (P := 2 ^ (el + 1074)) in *.
  assert (HP : 0 < P) by (apply pow2_pos; lia).
  assert (HnP : units (now k) = Zpos mn * 2 ^ (en - el) * P).
  { rewrite Hnu. subst P. rewrite <- Z.mul_assoc, <- Z.pow_add_r by lia. do 2 f_equal. lia. }
  pose proof (pow2_pos (en - el) ltac:(lia)) as HTn.
  set (K := Zpos mn * 2 ^ (en - el) - Zpos ml).
  assert (HB : units (now k) - units L = K * P) by (subst K; rewrite HnP, HLu; ring).
  assert (HK0 : 0 <= K) by nia.
  (* the interval is at most 2^53 units of the recorded time *)
  assert (HIP : units I <= 2 ^ 53 * P /\
                ((ei <= el /\ P = 2 ^ (el - ei) * 2 ^ (ei + 1074)) \/ units I = 2 ^ 53 * P)).
  { destruct (Z_le_gt_dec ei el) as [Hle | Hgt].
    - assert (HPQ : P = 2 ^ (el - ei) * 2 ^ (ei + 1074)).
      { subst P. rewrite <- Z.pow_add_r by lia. f_equal. lia. }
      pose proof (pow2_pos (el - ei) ltac:(lia)). pose proof (pow2_pos (ei + 1074) ltac:(lia)).
      split; [| left; by split]. rewrite HIu, HPQ.
      change (2 ^ 53) with 9007199254740992 in *. nia.
    - assert (HQ : 2 ^ (ei + 1074) = 2 ^ (ei - el) * P).
      { subst P. rewrite <- Z.pow_add_r by lia. f_equal. lia. }
      assert (Hone : ei - el = 1).
      { destruct (Z.eq_dec (ei - el) 1) as [| Hne]; [assumption | exfalso].
        assert (Hfour : 2 ^ 2 <= 2 ^ (ei - el)) by (apply Z.pow_le_mono_r; lia).
        change (2 ^ 2) with 4 in Hfour.
        rewrite HIu, HLu, HQ in Hpin. fold P in Hpin.
        set (T := 2 ^ (ei - el)) in *. clearbody T.
        assert (Hc : (2 ^ 53 - 1) * (Zpos mi * T) <= 2 ^ 53 * Zpos ml).
        { apply (Z.mul_le_mono_pos_r _ _ P HP).
          replace ((2 ^ 53 - 1) * (Zpos mi * T) * P)
            with ((2 ^ 53 - 1) * (Zpos mi * (T * P))) by ring.
          replace (2 ^ 53 * Zpos ml * P) with (2 ^ 53 * (Zpos ml * P)) by ring.
          exact Hpin. }
        change (2 ^ 53) with 9007199254740992 in *.
        change (2 ^ 52) with 4503599627370496 in *. nia. }
      rewrite Hone in HQ. change (2 ^ 1) with 2 in HQ.
      assert (Hmin : Zpos mi = 2 ^ 52).
      { rewrite HIu, HLu, HQ in Hpin. fold P in Hpin.
        assert (Hc : (2 ^ 53 - 1) * (Zpos mi * 2) <= 2 ^ 53 * Zpos ml).
        { apply (Z.mul_le_mono_pos_r _ _ P HP).
          replace ((2 ^ 53 - 1) * (Zpos mi * 2) * P)
            with ((2 ^ 53 - 1) * (Zpos mi * (2 * P))) by ring.
          replace (2 ^ 53 * Zpos ml * P) with (2 ^ 53 * (Zpos ml * P)) by ring.
          exact Hpin. }
        change (2 ^ 53) with 9007199254740992 in *.
        change (2 ^ 52) with 4503599627370496 in *. lia. }
      assert (HIeq : units I = 2 ^ 53 * P).
      { rewrite HIu, HQ, Hmin. change (2 ^ 53) with (2 ^ 52 * 2). ring. }
      split; [lia | by right]. }
  destruct HIP as [HIle Hgrid].
  assert (HK53 : K < 2 ^ 53).
  { apply (Z.mul_lt_mono_pos_r P); [exact HP |]. lia. }
  (* the first subtraction is exact *)
  pose proof (units_bound (now k)) as Hbn.
  destruct (sub_exact (now k) L K el Hfn HfL ltac:(lia) ltac:(lia)) as [Hfe Hee].
  { fold P. rewrite <- HB. apply Z.abs_eq. lia. }
  { lia. }
  set (e := (now k - L)%float) in *.
  (* and so is the second *)
  pose proof (units_bound I) as HbI.
  assert (Hw : exists K2 g, -1074 <= g /\ 0 <= K2 < 2 ^ 53 /\
                            Z.abs (units I - units e) = K2 * 2 ^ (g + 1074)).
  { rewrite Hee, HB, Z.abs_eq by lia.
    destruct (Z.eq_dec K 0) as [-> | HKne].
    - exists (Zpos mi), ei. split; [lia |]. split; [lia |]. rewrite HIu. ring.
    - destruct Hgrid as [[Hle HPQ] | HIeq].
      + exists (Zpos mi - K * 2 ^ (el - ei)), ei.
        pose proof (pow2_pos (el - ei) ltac:(lia)) as HT.
        pose proof (pow2_pos (ei + 1074) ltac:(lia)) as HQ.
        assert (Hpos : 0 < (Zpos mi - K * 2 ^ (el - ei)) * 2 ^ (ei + 1074)).
        { replace ((Zpos mi - K * 2 ^ (el - ei)) * 2 ^ (ei + 1074))
            with (units I - K * P) by (rewrite HIu, HPQ; ring). lia. }
        split; [lia |]. split; [nia |]. rewrite HIu, HPQ. ring.
      + exists (2 ^ 53 - K), el. split; [lia |]. split; [lia |]. fold P. rewrite HIeq. ring. }
  destruct Hw as (K2 & g & Hg & HK2 & Hrep).
  destruct (sub_exact I e K2 g HfI Hfe Hg HK2 Hrep) as [Hfw Hew].
  { rewrite Hee, Z.abs_eq by lia. lia. }
  set (w := (I - e)%float) in *.
  assert (Hwpos : 0 < units w) by lia.
  rewrite (proj2 (ltb_zero w Hfw) Hwpos) in Hsleep.
  apply value_add_le in Hsleep. lia.
Qed.

Lemma waits_steady (self : t) (ks : list tick) :
  steady self -> run_ok self ks ->
  interval_seconds (waits self ks).1 = interval_seconds self.
Proof.
  revert self. induction ks as [| k ks IH]; intros self Hs Hr; [done |].
  destruct Hr as [Hk Hr]. cbn [waits].
  destruct (wait_gap self k Hs Hk) as (Hs1 & _).
  specialize (IH _ Hs1 Hr).
  destruct (waits (wait self k).1 ks) as [self2 granted]. cbn [fst] in *.
  by rewrite IH.
Qed.

Lemma spaced_tail (gap t : Q) (ts : list Q) : spaced gap (t :: ts) -> spaced gap ts.
Proof. destruct ts; cbn; tauto. Qed.

Lemma spaced_total (gap t0 tN : Q) (ts : list Q) :
  spaced gap ts -> head ts = Some t0 -> last ts = Some tN ->
  (t0 + (inject_Z (Z.of_nat (length ts)) - 1) * gap <= tN)%Q.
Proof.
  revert t0. induction ts as [| t1 ts IH]; intros t0 Hs Hh Hl; [done |].
  injection Hh as ->. destruct ts as [| t2 ts].
  - injection Hl as ->. match goal with |- context [inject_Z ?z] => change (inject_Z z) with 1%Q end. lra.
  - destruct Hs as [H12 Hs]. specialize (IH t2 Hs eq_refl Hl).
    match goal with |- context [length (?x :: ?l)] =>
      change (length (x :: l)) with (S (length l)) end.
    rewrite Nat2Z.inj_succ. unfold Z.succ. rewrite inject_Z_plus.
    change (inject_Z 1) with 1%Q. lra.
Qed.

(** the recorded times of a run, the one recorded before it included *)
Lemma waits_spaced (self : t) (ks : list tick) (mi : positive) (ei : Z) :
  Prim2SF (interval_seconds self) = S754_finite false mi ei ->
  Zpos (digits2_pos mi) = 53 ->
  steady self ->
  (2 ^ 53 - 1) * units (interval_seconds self) <= 2 ^ 53 * units (_last_call_ts self) ->
  run_ok self ks ->
  spaced (value (interval_seconds self))
         (value (_last_call_ts self) :: map value (waits self ks).2).
Proof.
  intros HI Hdi. revert self HI.
  induction ks as [| k ks IH]; intros self HI Hs Hpin Hr; [done |].
  destruct Hr as [Hk Hr]. cbn [waits].
  pose proof (wait_gap_exact self k mi ei HI Hdi Hs Hpin Hk) as Hgap.
  destruct (wait_gap self k Hs Hk) as (Hs1 & _ & _).
  assert (Hpin1 : (2 ^ 53 - 1) * units (interval_seconds (wait self k).1)
                  <= 2 ^ 53 * units (_last_call_ts (wait self k).1)).
  { cbn [wait fst interval_seconds _last_call_ts].
    destruct Hs as (_ & HIpos & _ & HL). lia. }
  specialize (IH (wait self k).1 HI Hs1 Hpin1 Hr).
  destruct (waits (wait self k).1 ks) as [self2 granted]. cbn [fst snd map] in *.
  split; [by apply value_add_le | exact IH].
Qed.

Lemma waits_length (self : t) (ks : list tick) : length (waits self ks).2 = length ks.
Proof.
  revert self. induction ks as [| k ks IH]; intros self; [done |].
  cbn [waits]. specialize (IH (wait self k).1).
  destruct (waits (wait self k).1 ks) as [self2 granted]. cbn [snd length] in *. by rewrite IH.
Qed.

Lemma waits_head (self : t) (k : tick) (ks : list tick) :
  head (waits self (k :: ks)).2 = Some (after k).
Proof. cbn [waits]. by destruct (waits (wait self k).1 ks). Qed.

Lemma interval_value (c : Z) (i : float) (p : positive) :
  Zpos p * Z.abs (units i * (Z.max 1 c * 2 ^ 1074) - 60 * 2 ^ 1074 * 2 ^ 1074)
    <= 60 * 2 ^ 1074 * 2 ^ 1074 ->
  (Qabs (value i * inject_Z (Z.max 1 c) - 60) <= 60 * (1 # p))%Q.
Proof.
  intros H. unfold value.
  change (2 ^ 1074) with (Zpos (2 ^ 1074)) in H.
  set (Dp := (2 ^ 1074)%positive) in *. set (A := units i) in *. set (m := Z.max 1 c) in *.
  clearbody Dp A m.
  assert (Heq : ((A # Dp) * inject_Z m - 60 == (A * m - 60 * Zpos Dp) # Dp)%Q).
  { unfold Qeq, Qminus, Qplus, Qopp, Qmult, inject_Z. cbn [Qnum Qden].
    rewrite !Pos2Z.inj_mul. ring. }
  rewrite Heq. cbn [Qabs]. unfold Qle, Qmult. cbn [Qnum Qden].
  rewrite Pos2Z.inj_mul.
  replace (A * (m * Zpos Dp) - 60 * Zpos Dp * Zpos Dp)
    with ((A * m - 60 * Zpos Dp) * Zpos Dp) in H by ring.
  rewrite Z.abs_mul, (Z.abs_eq (Zpos Dp)) in H by lia.
  nia.
Qed.




End RateLimiterFacts.


(** Runs of given clock readings are checked by computation. *)
Ltac run_by_computation :=
  repeat match goal with
         | |- context [RateLimiter.wait ?s ?k] =>
             let v := eval vm_compute in (RateLimiter.wait s k) in
             change (RateLimiter.wait s k) with v; cbn [fst snd]
         | |- _ /\ _ => split
         | |- True => exact I
         | |- Double.finite _ => vm_compute; exact I
         | |- (_ <= _)%Q => apply Qle_bool_iff; vm_compute; reflexivity
         | |- (_ == _)%Q => apply Qeq_bool_iff; vm_compute; reflexivity
         | |- _ = _ => vm_compute; reflexivity
         end.

(** C1 (amended).  [RateLimiter(c)] raises only [OverflowError], and
    only when [c] is at least 2^1023.  Otherwise it stores a positive
    interval, the double that [60.0 / max(1, c)] rounds to: within a
    relative error of 2^-51 of [60 / max(1, c)], and of 2^-53 when
    [c < 2^53], but not [60 / max(1, c)] itself in general.  When the
    clock shows finite times and never goes backwards, and
    [time.sleep] returns after at least the time asked for, the calls
    of [wait] through one instance return at least one stored interval
    apart, and [N] calls return no earlier than [(N - 1)] stored
    intervals after the first of them read the clock. *)
Theorem rate_limiter_min_spacing (c : Z) (ks : list RateLimiter.tick) :
  match RateLimiter.__init__ c with
  | Py.Raise e => e = Py.OverflowError /\ 2 ^ 1023 <= c
  | Py.Ok self =>
      let interval := Double.value (RateLimiter.interval_seconds self) in
      let granted := map Double.value (RateLimiter.waits self ks).2 in
      (0 < interval)%Q /\
      (Qabs (interval * inject_Z (Z.max 1 c) - 60) <= 60 * (1 # 2 ^ 51))%Q /\
      (c < 2 ^ 53 -> (Qabs (interval * inject_Z (Z.max 1 c) - 60) <= 60 * (1 # 2 ^ 53))%Q) /\
      (RateLimiter.run_ok self ks ->
       RateLimiter.spaced interval granted /\
       forall k g, head ks = Some k -> last granted = Some g ->
         (Double.value (RateLimiter.now k)
          + (inject_Z (Z.of_nat (length ks)) - 1) * interval <= g)%Q)
  end.
Proof.
  pose proof (init_spec c) as Hinit.
  destruct (RateLimiter.__init__ c) as [self | e]; [| exact Hinit].
  destruct Hinit as (HL & Hs & (mi & ei & HI & Hdi) & Happrox & Hexact). cbv zeta.
  split; [| split; [by apply interval_value | split; [intros Hc; by apply interval_value, Hexact |]]].
  { destruct Hs as (_ & HI0 & _). unfold Double.value, Qlt. cbn. lia. }
  intros Hrun. destruct ks as [| k ks]; [by split |].
  destruct Hrun as [Hk Hrun].
  destruct (wait_gap self k Hs Hk) as (Hs1 & _ & Hfirst).
  assert (Hpin1 : (2 ^ 53 - 1) * Double.units
                    (RateLimiter.interval_seconds (RateLimiter.wait self k).1)
                  <= 2 ^ 53 * Double.units
                       (RateLimiter._last_call_ts (RateLimiter.wait self k).1)).
  { rewrite HL in Hfirst. change (Double.units 0) with 0 in Hfirst.
    cbn [RateLimiter.wait fst RateLimiter.interval_seconds RateLimiter._last_call_ts]
      in Hfirst |- *. lia. }
  pose proof (waits_spaced (RateLimiter.wait self k).1 ks mi ei HI Hdi Hs1 Hpin1 Hrun) as Hsp.
  pose proof (waits_length (RateLimiter.wait self k).1 ks) as Hlen.
  cbn [RateLimiter.waits].
  destruct (RateLimiter.waits (RateLimiter.wait self k).1 ks) as [self2 granted].
  cbn [fst snd map RateLimiter.wait RateLimiter._last_call_ts RateLimiter.interval_seconds]
    in *.
  split; [exact Hsp |].
  intros k0 g [= <-] Hg.
  pose proof (spaced_total _ _ _ _ Hsp eq_refl Hg) as Htot.
  cbn [length] in Htot |- *. rewrite length_map, Hlen in Htot.
  destruct Hk as (_ & _ & _ & Hna & _).
  eapply Qle_trans; [| exact Htot]. apply Qplus_le_l, Hna.
Qed.

(** Three calls at five calls per minute.  The first reads the clock
    at 100 and returns at once (the limiter has never been used); the
    second reads 100, sleeps 12 seconds and returns at 112; the third
    reads 112.5, sleeps 11.5 seconds and returns at 124.5. *)
Lemma rate_limiter_min_spacing_witness :
  RateLimiter.__init__ 5 = Py.Ok Samples.limiter_5 /\
  RateLimiter.run_ok Samples.limiter_5 Samples.ticks_5 /\
  RateLimiter.spaced (Double.value 12)
    (map Double.value (RateLimiter.waits Samples.limiter_5 Samples.ticks_5).2) /\
  (Double.value 100 + (3 - 1) * Double.value 12 <= Double.value 124.5)%Q.
Proof.
  assert (Hi : RateLimiter.__init__ 5 = Py.Ok Samples.limiter_5) by (vm_compute; reflexivity).
  assert (Hr : RateLimiter.run_ok Samples.limiter_5 Samples.ticks_5).
  { unfold Samples.ticks_5, RateLimiter.run_ok, RateLimiter.tick_ok. run_by_computation. }
  pose proof (rate_limiter_min_spacing 5 Samples.ticks_5) as H.
  rewrite Hi in H. destruct H as (_ & _ & _ & H). destruct (H Hr) as [Hsp Htot].
  split; [exact Hi |]. split; [exact Hr |]. split; [exact Hsp |].
  exact (Htot (RateLimiter.mk_tick 100 100) (Double.value 124.5) eq_refl eq_refl).
Defined.

(** C1, counterexample.  At seven calls per minute the stored interval
    is below 60/7.  Of two calls, the first reads the clock at one
    stored interval and does not sleep, the second sleeps exactly the
    time it asks for: it returns one stored interval after the first,
    which is less than 60/7 after the first read the clock.  And
    [RateLimiter(2 ** 1024)] raises [OverflowError]. *)
Lemma rate_limiter_interval_is_rounded :
  RateLimiter.__init__ 7 = Py.Ok Samples.limiter_7 /\
  RateLimiter.run_ok Samples.limiter_7 Samples.ticks_7 /\
  (Double.value Samples.interval_7 < 60 / 7)%Q /\
  RateLimiter.waits Samples.limiter_7 Samples.ticks_7 =
    (RateLimiter.mk Samples.interval_7 (Samples.interval_7 + Samples.interval_7),
     [Samples.interval_7; (Samples.interval_7 + Samples.interval_7)%float]) /\
  (Double.value (Samples.interval_7 + Samples.interval_7)
     < Double.value Samples.interval_7 + 60 / 7)%Q /\
  RateLimiter.__init__ (2 ^ 1024) = Py.Raise Py.OverflowError.
Proof.
  split; [vm_compute; reflexivity |].
  split; [unfold Samples.ticks_7, RateLimiter.run_ok, RateLimiter.tick_ok; run_by_computation |].
  split; [apply Qlt_alt; vm_compute; reflexivity |].
  split; [vm_compute; reflexivity |].
  split; [apply Qlt_alt; vm_compute; reflexivity | vm_compute; reflexivity].
Qed.


(** ** Symbol normalisation *)
Section SymbolFacts.
Local Arguments String.append !_ _ / : simpl nomatch.


Lemma endswith_inv (s suffix : string) :
  Str.endswith s suffix = true -> exists p, s = p +:+ suffix.
Proof.
  induction s as [| c s IH]; cbn [Str.endswith]; intros Hs.
  - rewrite orb_false_r in Hs. apply String.eqb_eq in Hs. subst. by exists "".
  - apply orb_true_iff in Hs as [Hs | Hs].
    + apply String.eqb_eq in Hs. subst. by exists "".
    + destruct (IH Hs) as [p ->]. by exists (String c p).
Qed.

Lemma string_length_app (p q : string) :
  String.length (p +:+ q) = (String.length p + String.length q)%nat.
Proof. induction p as [| c p IH]; cbn; [reflexivity | by rewrite IH]. Qed.

Lemma substring_prefix (p q : string) : substring 0 (String.length p) (p +:+ q) = p.
Proof.
  induction p as [| c p IH]; cbn.
  - by destruct q.
  - by rewrite IH.
Qed.

Lemma drop_last_app (p suffix : string) :
  Str.drop_last (String.length suffix) (p +:+ suffix) = p.
Proof.
  unfold Str.drop_last. rewrite string_length_app.
  replace (String.length p + String.length suffix - String.length suffix)%nat
    with (String.length p) by lia.
  apply substring_prefix.
Qed.

Lemma contains_app_r (c : ascii) (p q : string) :
  Str.contains c q = true -> Str.contains c (p +:+ q) = true.
Proof.
  intros Hq. induction p as [| c' p IH]; cbn [String.append Str.contains]; [assumption |].
  fold String.append. by destruct (Ascii.eqb c c').
Qed.


End SymbolFacts.

(** What [strip] and [upper] do to the ends of a string *)
Section CanonicalFacts.
Local Arguments String.append !_ _ / : simpl nomatch.

Lemma string_app_assoc (a b c : string) : (a +:+ b) +:+ c = a +:+ (b +:+ c).
Proof. induction a as [| x a IH]; cbn; [reflexivity | by rewrite IH]. Qed.

Lemma string_rev_app_spec (s t : string) : String.rev_app s t = String.rev s +:+ t.
Proof.
  unfold String.rev. revert t. induction s as [| c s IH]; intros t; cbn; [reflexivity |].
  rewrite (IH (String c t)), (IH (String c "")), string_app_assoc. reflexivity.
Qed.

Lemma string_rev_cons (c : ascii) (s : string) :
  String.rev (String c s) = String.rev s +:+ String c "".
Proof. unfold String.rev at 1. cbn. apply string_rev_app_spec. Qed.

Lemma string_app_nil_r (s : string) : s +:+ "" = s.
Proof. induction s as [| c s IH]; cbn; [reflexivity | by rewrite IH]. Qed.

Lemma string_rev_app (a b : string) : String.rev (a +:+ b) = String.rev b +:+ String.rev a.
Proof.
  induction a as [| c a IH]; cbn [String.append].
  - change (String.rev "") with "". by rewrite string_app_nil_r.
  - by rewrite !string_rev_cons, IH, string_app_assoc.
Qed.

Lemma string_rev_involutive (s : string) : String.rev (String.rev s) = s.
Proof.
  induction s as [| c s IH]; [reflexivity |].
  by rewrite string_rev_cons, string_rev_app, IH.
Qed.

Lemma upper_char_idemp (c : ascii) : Str.upper_char (Str.upper_char c) = Str.upper_char c.
Proof. by destruct c as [[] [] [] [] [] [] [] []]. Qed.

Lemma isspace_upper_char (c : ascii) : Str.isspace (Str.upper_char c) = Str.isspace c.
Proof. by destruct c as [[] [] [] [] [] [] [] []]. Qed.

Lemma upper_idemp (s : string) : Str.upper (Str.upper s) = Str.upper s.
Proof. induction s as [| c s IH]; cbn; [reflexivity | by rewrite upper_char_idemp, IH]. Qed.

Lemma upper_app (a b : string) : Str.upper (a +:+ b) = Str.upper a +:+ Str.upper b.
Proof. induction a as [| c a IH]; cbn; [reflexivity | by rewrite IH]. Qed.

Lemma upper_app_inv (a b : string) :
  Str.upper (a +:+ b) = a +:+ b -> Str.upper a = a.
Proof.
  induction a as [| c a IH]; cbn; [reflexivity |].
  intros [= Hc Ha]. by rewrite Hc, IH.
Qed.


Lemma string_rev_upper (s : string) : String.rev (Str.upper s) = Str.upper (String.rev s).
Proof.
  induction s as [| c s IH]; [reflexivity |].
  cbn [Str.upper]. by rewrite !string_rev_cons, IH, upper_app.
Qed.


Lemma lstrip_head_ok (s : string) : head_ok (Str.lstrip s).
Proof.
  induction s as [| c s IH]; cbn; [done |].
  destruct (Str.isspace c) eqn:Hc; [exact IH | exact Hc].
Qed.

Lemma head_ok_lstrip (s : string) : head_ok s -> Str.lstrip s = s.
Proof. destruct s as [| c s]; cbn; [done |]. by intros ->. Qed.

Lemma head_ok_app (a b : string) : head_ok a -> head_ok b -> head_ok (a +:+ b).
Proof. by destruct a. Qed.

Lemma head_ok_app_inv (a b : string) : head_ok (a +:+ b) -> head_ok a.
Proof. by destruct a. Qed.

Lemma head_ok_upper (s : string) : head_ok s -> head_ok (Str.upper s).
Proof. destruct s as [| c s]; cbn; [done |]. by rewrite isspace_upper_char. Qed.

(** Stripping on the right keeps the first character of a string that
    does not start with a space. *)
Lemma lstrip_snoc (v : string) (c : ascii) :
  Str.isspace c = false -> exists u, Str.lstrip (v +:+ String c "") = u +:+ String c "".
Proof.
  intros Hc. induction v as [| x v IH]; cbn.
  - rewrite Hc. by exists "".
  - destruct (Str.isspace x); [exact IH | by exists (String x v)].
Qed.

Lemma rstrip_head_ok (s : string) : head_ok s -> head_ok (Str.rstrip s).
Proof.
  destruct s as [| c s]; [done |]. cbn [head_ok]. intros Hc.
  unfold Str.rstrip. rewrite string_rev_cons.
  destruct (lstrip_snoc (String.rev s) c Hc) as [u ->].
  by rewrite string_rev_app.
Qed.

Lemma strip_head_ok (s : string) : head_ok (Str.strip s).
Proof. apply rstrip_head_ok, lstrip_head_ok. Qed.

Lemma strip_rev_head_ok (s : string) : head_ok (String.rev (Str.strip s)).
Proof.
  unfold Str.strip, Str.rstrip. rewrite string_rev_involutive. apply lstrip_head_ok.
Qed.

(** A string without a space at either end is left alone by [strip]. *)
Lemma strip_fixed (s : string) :
  head_ok s -> head_ok (String.rev s) -> Str.strip s = s.
Proof.
  intros Hl Hr. unfold Str.strip, Str.rstrip.
  by rewrite (head_ok_lstrip s Hl), (head_ok_lstrip _ Hr), string_rev_involutive.
Qed.

Lemma canonical_upper_strip (symbol : string) : canonical (Str.upper (Str.strip symbol)).
Proof.
  split; [apply head_ok_upper, strip_head_ok |]. split.
  - rewrite string_rev_upper. apply head_ok_upper, strip_rev_head_ok.
  - apply upper_idemp.
Qed.

Lemma canonical_fixed (s : string) : canonical s -> Str.upper (Str.strip s) = s.
Proof. intros (Hl & Hr & Hu). by rewrite strip_fixed. Qed.

Lemma canonical_suffixed (t suffix : string) :
  head_ok t -> Str.upper t = t ->
  suffix = ".SHH" \/ suffix = ".SHZ" ->
  canonical (t +:+ suffix).
Proof.
  intros Hl Hu Hs. split; [| split].
  - apply head_ok_app; [done |]. by destruct Hs as [-> | ->].
  - rewrite string_rev_app. by destruct Hs as [-> | ->].
  - rewrite upper_app, Hu. by destruct Hs as [-> | ->].
Qed.

Lemma suffixed_not_short (t q suffix short : string) :
  suffix = ".SHH" \/ suffix = ".SHZ" ->
  short = ".SH" \/ short = ".SZ" ->
  t +:+ suffix <> q +:+ short.
Proof.
  intros Hs Hshort Heq. apply (f_equal String.rev) in Heq. rewrite !string_rev_app in Heq.
  destruct Hs as [-> | ->], Hshort as [-> | ->]; discriminate.
Qed.

(** On a canonical string with a new-style suffix the function does
    nothing. *)
Lemma normalize_suffixed (t suffix : string) :
  head_ok t -> Str.upper t = t ->
  suffix = ".SHH" \/ suffix = ".SHZ" ->
  normalize_a_share_symbol (t +:+ suffix) = t +:+ suffix.
Proof.
  intros Hl Hu Hs. unfold normalize_a_share_symbol.
  rewrite (canonical_fixed _ (canonical_suffixed t suffix Hl Hu Hs)).
  assert (Str.contains "." (t +:+ suffix) = true) as ->
    by (apply contains_app_r; by destruct Hs as [-> | ->]).
  destruct (Str.endswith (t +:+ suffix) ".SH") eqn:Hsh.
  { apply endswith_inv in Hsh as [q Hq].
    exfalso. eapply suffixed_not_short; [exact Hs | by left | exact Hq]. }
  destruct (Str.endswith (t +:+ suffix) ".SZ") eqn:Hsz.
  { apply endswith_inv in Hsz as [q Hq].
    exfalso. eapply suffixed_not_short; [exact Hs | by right | exact Hq]. }
  by destruct (t +:+ suffix).
Qed.

End CanonicalFacts.

Section TrimFacts.
Local Arguments String.append !_ _ / : simpl nomatch.







End TrimFacts.



(** ** Worlds and traces *)
Section NetFacts.
Import Py Net.

Lemma extend_nil (w : world) : extend w [] = w.
Proof. destruct w. unfold extend. cbn. by rewrite app_nil_r. Qed.

Lemma extend_extend (w : world) (a b : list event) :
  extend (extend w a) b = extend w (a ++ b).
Proof. unfold extend. cbn. by rewrite app_assoc. Qed.

Lemma requests_app (a b : list event) : requests (a ++ b) = requests a ++ requests b.
Proof. apply omap_app. Qed.

Lemma next_response_extend (w : world) (evs : list event) (r : request) :
  requests evs = [] -> next_response (extend w evs) r = next_response w r.
Proof.
  intros Hevs. unfold next_response, extend. cbn.
  by rewrite requests_app, Hevs, app_nil_r.
Qed.

End NetFacts.

(** ** The retrying fetchers, one attempt at a time *)
Section AttemptFacts.
Import Py Net.

(** What one attempt of [fetch_alpha_vantage_data] does, by the answer
    it meets. *)
Lemma data_attempt_run (symbol : string) (req : request) (attempt : Z) (w : world) :
  FetchInfo.data_attempt symbol req attempt w =
  match next_response w req with
  | Failed => (Ok None, extend w [Wait; Get req; Sleep (Z.min 30 (attempt * 2))])
  | Response status_code body =>
      if negb (status_code =? 200) then
        (Ok None, extend w [Wait; Get req; Sleep (Z.min 30 (attempt * 2))])
      else
        match body with
        | None => (Ok None, extend w [Wait; Get req; Sleep (Z.min 30 (attempt * 2))])
        | Some data =>
            if has data "Note" || has data "Information" then
              (Ok None, extend w [Wait; Get req; Sleep (Z.min 60 (15 * attempt))])
            else if has data "Error Message" then
              (Raise (ValueError_api symbol (get data "Error Message" PNone)),
               extend w [Wait; Get req])
            else (Ok (Some data), extend w [Wait; Get req])
        end
  end.
Proof.
  unfold FetchInfo.data_attempt, try_except, rate_limiter_wait, session_get,
    sleep, raise, resp_json, lift, log, mbind, io_bind, mret, io_ret.
  rewrite (next_response_extend w [Wait] req eq_refl).
  destruct (next_response w req) as [| status_code body]; cbn.
  - by rewrite !extend_extend.
  - destruct (status_code =? 200); cbn; [| by rewrite !extend_extend].
    destruct body as [data |]; cbn; [| by rewrite !extend_extend].
    destruct (has data "Note" || has data "Information"); cbn;
      [by rewrite !extend_extend |].
    destruct (has data "Error Message"); cbn; by rewrite !extend_extend.
Qed.

(** What one attempt of [fetch_alpha_vantage_daily] does. *)
Lemma daily_attempt_run (symbol : string) (req : request) (attempt : Z) (w : world) :
  FetchShares.daily_attempt symbol req attempt w =
  match next_response w req with
  | Failed => (Ok None, extend w [Wait; Get req; Sleep (Z.min 60 (attempt * 2))])
  | Response status_code body =>
      if negb (status_code =? 200) then
        (Ok None, extend w [Wait; Get req; Sleep (Z.min 60 (attempt * 2))])
      else
        match body with
        | None => (Ok None, extend w [Wait; Get req; Sleep (Z.min 60 (attempt * 2))])
        | Some data =>
            if has data "Note" || has data "Information" then
              (Ok None, extend w [Wait; Get req; Sleep (Z.min 75 (10 * attempt))])
            else if has data "Error Message" then
              (Raise (ValueError_api symbol (get data "Error Message" PNone)),
               extend w [Wait; Get req])
            else if has data "Time Series (Daily)" then
              (Ok (Some data), extend w [Wait; Get req])
            else (Ok None, extend w [Wait; Get req; Sleep (Z.min 60 (attempt * 2))])
        end
  end.
Proof.
  unfold FetchShares.daily_attempt, try_except, rate_limiter_wait, session_get,
    sleep, raise, resp_json, lift, log, mbind, io_bind, mret, io_ret.
  rewrite (next_response_extend w [Wait] req eq_refl).
  destruct (next_response w req) as [| status_code body]; cbn.
  - by rewrite !extend_extend.
  - destruct (status_code =? 200); cbn; [| by rewrite !extend_extend].
    destruct body as [data |]; cbn; [| by rewrite !extend_extend].
    destruct (has data "Note" || has data "Information"); cbn;
      [by rewrite !extend_extend |].
    destruct (has data "Error Message"); cbn; [by rewrite !extend_extend |].
    destruct (has data "Time Series (Daily)"); cbn; by rewrite !extend_extend.
Qed.

End AttemptFacts.

(** ** The retrying fetchers, whole calls *)
Section FetcherFacts.
Import Py Net.

Lemma backoff_trace_succ (cap : Z) (r : request) (first : Z) (n : nat) :
  backoff_trace cap r first (S n) =
  [Wait; Get r; Sleep (Z.min cap (first * 2))] ++ backoff_trace cap r (first + 1) n.
Proof.
  unfold backoff_trace. rewrite seqZ_cons by lia. cbn [mbind list_bind].
  replace (Z.pred (Z.of_nat (S n))) with (Z.of_nat n) by lia.
  by replace (Z.succ first) with (first + 1) by lia.
Qed.

Lemma requests_backoff_trace (cap : Z) (r : request) (n : nat) : forall first,
  requests (backoff_trace cap r first n) = replicate n r.
Proof.
  induction n as [| n IH]; intros first; [reflexivity |].
  rewrite backoff_trace_succ, requests_app, IH. reflexivity.
Qed.

Lemma attempts_extend (w : world) (evs : list event) :
  attempts w (extend w evs) = length (requests evs).
Proof.
  unfold attempts, extend. cbn. rewrite requests_app, length_app. lia.
Qed.

(** A loop whose every turn meets an HTTP error and backs off. *)
Lemma for_attempts_all_backoff {A : Type} (body : Z -> io (option A))
    (cap : Z) (r : request) :
  (forall a w, http_error (next_response w r) ->
     body a w = (Ok None, extend w [Wait; Get r; Sleep (Z.min cap (a * 2))])) ->
  forall (n : nat) (first : Z) (w : world),
    (forall k r', http_error (transport w k r')) ->
    for_attempts body first n w = (Ok None, extend w (backoff_trace cap r first n)).
Proof.
  intros Hbody n. induction n as [| n IH]; intros first w Hw.
  - cbn. by rewrite extend_nil.
  - cbn [for_attempts]. unfold mbind, io_bind.
    rewrite Hbody by apply Hw.
    rewrite IH by apply Hw.
    by rewrite extend_extend, backoff_trace_succ.
Qed.

Lemma data_attempt_http_error (symbol : string) (r : request) (a : Z) (w : world) :
  http_error (next_response w r) ->
  FetchInfo.data_attempt symbol r a w =
    (Ok None, extend w [Wait; Get r; Sleep (Z.min 30 (a * 2))]).
Proof.
  intros Hw. rewrite data_attempt_run.
  destruct (next_response w r) as [| status_code body]; [done |].
  cbn in Hw. apply Z.eqb_neq in Hw. by rewrite Hw.
Qed.

Lemma daily_attempt_http_error (symbol : string) (r : request) (a : Z) (w : world) :
  http_error (next_response w r) ->
  FetchShares.daily_attempt symbol r a w =
    (Ok None, extend w [Wait; Get r; Sleep (Z.min 60 (a * 2))]).
Proof.
  intros Hw. rewrite daily_attempt_run.
  destruct (next_response w r) as [| status_code body]; [done |].
  cbn in Hw. apply Z.eqb_neq in Hw. by rewrite Hw.
Qed.

(** The whole call when every answer is an HTTP error. *)
Lemma fetch_data_all_http_error (function symbol api_key : string)
    (extra_params : gmap string string) (max_retries timeout_s : Z) (w : world) :
  (forall k r, http_error (transport w k r)) ->
  FetchInfo.fetch_alpha_vantage_data function symbol api_key extra_params
    max_retries timeout_s w =
  (Raise (RuntimeError_retries symbol (Some function) max_retries),
   extend w (backoff_trace 30
               (FetchInfo.data_request function symbol api_key extra_params timeout_s)
               1 (Z.to_nat max_retries))).
Proof.
  intros Hw. unfold FetchInfo.fetch_alpha_vantage_data, mbind, io_bind.
  rewrite (for_attempts_all_backoff _ 30 _ (data_attempt_http_error symbol _))
    by apply Hw.
  reflexivity.
Qed.

Lemma fetch_daily_all_http_error (symbol api_key outputsize function_name : string)
    (max_retries timeout_s : Z) (w : world) :
  (forall k r, http_error (transport w k r)) ->
  FetchShares.fetch_alpha_vantage_daily symbol api_key outputsize function_name
    max_retries timeout_s w =
  (Raise (RuntimeError_retries symbol None max_retries),
   extend w (backoff_trace 60
               (FetchShares.daily_request symbol api_key outputsize function_name timeout_s)
               1 (Z.to_nat max_retries))).
Proof.
  intros Hw. unfold FetchShares.fetch_alpha_vantage_daily, mbind, io_bind.
  rewrite (for_attempts_all_backoff _ 60 _ (daily_attempt_http_error symbol _))
    by apply Hw.
  reflexivity.
Qed.

(** A loop whose first turn leaves the function. *)
Lemma for_attempts_first {A : Type} (body : Z -> io (option A)) (first : Z) (n : nat)
    (w w' : world) (r : result (option A)) :
  body first w = (r, w') ->
  r <> Ok None ->
  for_attempts body first (S n) w =
    (match r with Ok (Some a) => Ok (Some a) | Ok None => Ok None | Raise e => Raise e end, w').
Proof.
  intros Hb Hr. cbn [for_attempts]. unfold mbind, io_bind. rewrite Hb.
  by destruct r as [[a |] | e].
Qed.

End FetcherFacts.

(** ** The retry policy *)
Section RetryPolicy.
Import Py Net.

(** A loop that returns a value returned it from one of its turns. *)
Lemma for_attempts_Some_inv {A : Type} (body : Z -> io (option A)) (n : nat) :
  forall (first : Z) (w w' : world) (a : A),
    for_attempts body first n w = (Ok (Some a), w') ->
    exists attempt w1 w2, body attempt w1 = (Ok (Some a), w2).
Proof.
  induction n as [| n IH]; intros first w w' a; cbn [for_attempts].
  - discriminate.
  - unfold mbind, io_bind.
    destruct (body first w) as [[[b |] | e] w1] eqn:Hb; intros Hr.
    + injection Hr as -> ->. eauto.
    + eauto.
    + discriminate.
Qed.

End RetryPolicy.

(** C4, amended.  With a budget [max_retries >= 0], when every answer is
    an HTTP status other than 200, both fetchers make exactly
    [max_retries] requests and then raise the [RuntimeError] of the
    exhausted budget.  With a budget of at least one, when the first
    answer is a 200 whose body has the key [Error Message] and neither
    [Note] nor [Information], both fetchers raise the [ValueError] of the
    upstream error after one acquisition and one request, without a
    sleep. *)
Theorem retry_policy (function symbol api_key outputsize function_name : string)
    (extra_params : gmap string string) (max_retries timeout_s : Z) (w : Net.world) :
  let fetch_data :=
    FetchInfo.fetch_alpha_vantage_data function symbol api_key extra_params
      max_retries timeout_s in
  let fetch_daily :=
    FetchShares.fetch_alpha_vantage_daily symbol api_key outputsize function_name
      max_retries timeout_s in
  let req_data := FetchInfo.data_request function symbol api_key extra_params timeout_s in
  let req_daily :=
    FetchShares.daily_request symbol api_key outputsize function_name timeout_s in
  (0 <= max_retries ->
   (forall k r, Net.http_error (Net.transport w k r)) ->
     (fetch_data w).1 = Py.Raise (Py.RuntimeError_retries symbol (Some function) max_retries) /\
     Z.of_nat (Net.attempts w (fetch_data w).2) = max_retries /\
     (fetch_daily w).1 = Py.Raise (Py.RuntimeError_retries symbol None max_retries) /\
     Z.of_nat (Net.attempts w (fetch_daily w).2) = max_retries) /\
  (forall data,
     1 <= max_retries ->
     Net.has data "Error Message" = true ->
     Net.has data "Note" = false ->
     Net.has data "Information" = false ->
     (Net.next_response w req_data = Net.Response 200 (Some data) ->
        fetch_data w =
          (Py.Raise (Py.ValueError_api symbol (Py.get data "Error Message" Py.PNone)),
           Net.extend w [Net.Wait; Net.Get req_data])) /\
     (Net.next_response w req_daily = Net.Response 200 (Some data) ->
        fetch_daily w =
          (Py.Raise (Py.ValueError_api symbol (Py.get data "Error Message" Py.PNone)),
           Net.extend w [Net.Wait; Net.Get req_daily]))).
Proof.
  intros fetch_data fetch_daily req_data req_daily. split.
  - intros Hn Hw. subst fetch_data fetch_daily.
    rewrite fetch_data_all_http_error, fetch_daily_all_http_error by assumption.
    cbn [fst snd]. rewrite !attempts_extend, !requests_backoff_trace, !length_replicate.
    repeat split; lia.
  - intros data Hn Herr Hnote Hinfo.
    destruct (Z.to_nat max_retries) as [| n] eqn:Hk; [lia |].
    split; intros Hresp.
    + subst fetch_data. unfold FetchInfo.fetch_alpha_vantage_data, mbind, Net.io_bind.
      fold req_data. rewrite Hk.
      rewrite (for_attempts_first _ 1 n w (Net.extend w [Net.Wait; Net.Get req_data])
                 (Py.Raise (Py.ValueError_api symbol (Py.get data "Error Message" Py.PNone))));
        [reflexivity | | discriminate].
      rewrite data_attempt_run, Hresp. cbn. by rewrite Hnote, Hinfo, Herr.
    + subst fetch_daily. unfold FetchShares.fetch_alpha_vantage_daily, mbind, Net.io_bind.
      fold req_daily. rewrite Hk.
      rewrite (for_attempts_first _ 1 n w (Net.extend w [Net.Wait; Net.Get req_daily])
                 (Py.Raise (Py.ValueError_api symbol (Py.get data "Error Message" Py.PNone))));
        [reflexivity | | discriminate].
      rewrite daily_attempt_run, Hresp. cbn. by rewrite Hnote, Hinfo, Herr.
Qed.

(** Both scenarios of [retry_policy] on sample upstreams: three requests
    and the exhausted budget against HTTP 500; one request and the
    upstream error against an error payload. *)
Lemma retry_policy_witness :
  let w500 := Samples.always Samples.http_500 in
  let werr := Samples.always (Net.Response 200 (Some Samples.error_body)) in
  let fetch_data := FetchInfo.fetch_alpha_vantage_data "GLOBAL_QUOTE" "600519.SHH" "k" ∅ 3 20 in
  let fetch_daily :=
    FetchShares.fetch_alpha_vantage_daily "600519.SHH" "k" "full" "TIME_SERIES_DAILY" 3 20 in
  ((fetch_data w500).1 = Py.Raise (Py.RuntimeError_retries "600519.SHH" (Some "GLOBAL_QUOTE") 3) /\
   Z.of_nat (Net.attempts w500 (fetch_data w500).2) = 3 /\
   (fetch_daily w500).1 = Py.Raise (Py.RuntimeError_retries "600519.SHH" None 3) /\
   Z.of_nat (Net.attempts w500 (fetch_daily w500).2) = 3) /\
  (fetch_data werr).1 =
    Py.Raise (Py.ValueError_api "600519.SHH" (Py.PStr "Invalid API call.")) /\
  (fetch_daily werr).1 =
    Py.Raise (Py.ValueError_api "600519.SHH" (Py.PStr "Invalid API call.")).
Proof.
  intros w500 werr fetch_data fetch_daily.
  pose proof (retry_policy "GLOBAL_QUOTE" "600519.SHH" "k" "full" "TIME_SERIES_DAILY"
                ∅ 3 20 w500) as [H500 _].
  pose proof (retry_policy "GLOBAL_QUOTE" "600519.SHH" "k" "full" "TIME_SERIES_DAILY"
                ∅ 3 20 werr) as [_ Herr].
  split.
  - apply H500; [lia | intros k r; cbn; lia].
  - destruct (Herr Samples.error_body) as [Hdata Hdaily];
      [lia | reflexivity | reflexivity | reflexivity |].
    subst fetch_data fetch_daily. cbv zeta in Hdata, Hdaily.
    rewrite Hdata, Hdaily by reflexivity. split; reflexivity.
Defined.

(** C4 as stated fails: a first answer whose body has the key
    [Error Message] together with [Note] is taken for a throttling
    signal; the fetcher sleeps and tries again, three requests in all,
    and ends with the exhausted budget, not with the upstream error. *)
Lemma error_message_with_note_is_retried :
  let w := Samples.always (Net.Response 200 (Some Samples.error_and_note_body)) in
  let run := FetchInfo.fetch_alpha_vantage_data "GLOBAL_QUOTE" "600519.SHH" "k" ∅ 3 20 w in
  Net.has Samples.error_and_note_body "Error Message" = true /\
  run.1 = Py.Raise (Py.RuntimeError_retries "600519.SHH" (Some "GLOBAL_QUOTE") 3) /\
  Net.attempts w run.2 = 3%nat /\
  Net.sleeps (Net.trace run.2) = [15; 30; 45].
Proof. vm_compute. repeat split; reflexivity. Qed.

(** C5, amended.  A decoded 200 body with neither [Note], [Information]
    nor [Error Message]: [fetch_alpha_vantage_daily] returns it when it
    has the key [Time Series (Daily)], and otherwise sleeps
    [min(60, attempt * 2)] and goes on to the next attempt, so that every
    body it returns has that key; [fetch_alpha_vantage_data] looks for no
    marker and returns the body at once, whatever its shape. *)
Theorem success_marker_check (symbol : string) (req : Net.request) (attempt : Z)
    (w : Net.world) (data : gmap string Py.pyval) :
  Net.next_response w req = Net.Response 200 (Some data) ->
  Net.has data "Note" = false ->
  Net.has data "Information" = false ->
  Net.has data "Error Message" = false ->
  (Net.has data "Time Series (Daily)" = true ->
     FetchShares.daily_attempt symbol req attempt w =
       (Py.Ok (Some data), Net.extend w [Net.Wait; Net.Get req])) /\
  (Net.has data "Time Series (Daily)" = false ->
     FetchShares.daily_attempt symbol req attempt w =
       (Py.Ok None,
        Net.extend w [Net.Wait; Net.Get req; Net.Sleep (Z.min 60 (attempt * 2))])) /\
  (forall api_key outputsize function_name max_retries timeout_s w0 w1 returned,
     FetchShares.fetch_alpha_vantage_daily symbol api_key outputsize function_name
       max_retries timeout_s w0 = (Py.Ok returned, w1) ->
     Net.has returned "Time Series (Daily)" = true) /\
  FetchInfo.data_attempt symbol req attempt w =
    (Py.Ok (Some data), Net.extend w [Net.Wait; Net.Get req]).
Proof.
  intros Hresp Hnote Hinfo Herr. repeat split.
  - intros Hts. rewrite daily_attempt_run, Hresp. cbn.
    by rewrite Hnote, Hinfo, Herr, Hts.
  - intros Hts. rewrite daily_attempt_run, Hresp. cbn.
    by rewrite Hnote, Hinfo, Herr, Hts.
  - intros api_key outputsize function_name max_retries timeout_s w0 w1 returned.
    unfold FetchShares.fetch_alpha_vantage_daily, mbind, Net.io_bind.
    destruct (Net.for_attempts _ 1 _ w0) as [[[d |] | e] w2] eqn:Hloop;
      cbn; intros Hr; try discriminate.
    injection Hr as -> ->.
    apply for_attempts_Some_inv in Hloop as (a & wa & wb & Hbody).
    rewrite daily_attempt_run in Hbody.
    destruct (Net.next_response wa _) as [| status_code [body |]];
      repeat (match type of Hbody with
              | (if ?c then _ else _) = _ => destruct c eqn:?
              end; try discriminate);
      try discriminate.
    by injection Hbody as -> _.
  - rewrite data_attempt_run, Hresp. cbn. by rewrite Hnote, Hinfo, Herr.
Qed.

(** [success_marker_check] on sample answers: the one-day series is
    returned by both fetchers. *)
Lemma success_marker_check_witness :
  let w := Samples.always (Net.Response 200 (Some Samples.one_day_body)) in
  let req := FetchShares.daily_request "600519.SHH" "k" "full" "TIME_SERIES_DAILY" 30 in
  FetchShares.daily_attempt "600519.SHH" req 1 w =
    (Py.Ok (Some Samples.one_day_body), Net.extend w [Net.Wait; Net.Get req]) /\
  FetchInfo.data_attempt "600519.SHH" req 1 w =
    (Py.Ok (Some Samples.one_day_body), Net.extend w [Net.Wait; Net.Get req]).
Proof.
  intros w req.
  destruct (success_marker_check "600519.SHH" req 1 w Samples.one_day_body)
    as (Hret & _ & _ & Hdata); try reflexivity.
  split; [apply Hret; reflexivity | exact Hdata].
Defined.

(** C5 as stated fails for [fetch_alpha_vantage_data]: a 200 body of an
    unexpected shape, without the key [Global Quote] its endpoint
    answers with, is returned by the first attempt, and no sleep
    follows. *)
Lemma unexpected_body_is_returned :
  let w := Samples.always (Net.Response 200 (Some Samples.unexpected_body)) in
  let run := FetchInfo.fetch_quote_endpoint "600519.SHH" "k" w in
  Net.has Samples.unexpected_body "Global Quote" = false /\
  run.1 = Py.Ok Samples.unexpected_body /\
  Net.attempts w run.2 = 1%nat /\
  Net.sleeps (Net.trace run.2) = [].
Proof. vm_compute. repeat split; reflexivity. Qed.

(** C6, amended.  An attempt that meets an HTTP status other than 200, or
    a network failure, sleeps [min(30, attempt * 2)] seconds in
    [fetch_alpha_vantage_data] and [min(60, attempt * 2)] seconds in
    [fetch_alpha_vantage_daily], and goes on to the next attempt; the two
    agree up to the fifteenth attempt. *)
Theorem backoff_after_failure (symbol : string) (req : Net.request) (attempt : Z)
    (w : Net.world) :
  Net.http_error (Net.next_response w req) \/ Net.next_response w req = Net.Failed ->
  FetchInfo.data_attempt symbol req attempt w =
    (Py.Ok None,
     Net.extend w [Net.Wait; Net.Get req; Net.Sleep (Z.min 30 (attempt * 2))]) /\
  FetchShares.daily_attempt symbol req attempt w =
    (Py.Ok None,
     Net.extend w [Net.Wait; Net.Get req; Net.Sleep (Z.min 60 (attempt * 2))]) /\
  (attempt <= 15 -> Z.min 60 (attempt * 2) = Z.min 30 (attempt * 2)).
Proof.
  intros [Hw | Hw]; repeat split; try lia.
  - by apply data_attempt_http_error.
  - by apply daily_attempt_http_error.
  - by rewrite data_attempt_run, Hw.
  - by rewrite daily_attempt_run, Hw.
Qed.

(** [backoff_after_failure] at the third attempt against HTTP 500: both
    fetchers sleep six seconds. *)
Lemma backoff_after_failure_witness :
  let w := Samples.always Samples.http_500 in
  let req := FetchShares.daily_request "600519.SHH" "k" "full" "TIME_SERIES_DAILY" 30 in
  FetchInfo.data_attempt "600519.SHH" req 3 w =
    (Py.Ok None, Net.extend w [Net.Wait; Net.Get req; Net.Sleep 6]) /\
  FetchShares.daily_attempt "600519.SHH" req 3 w =
    (Py.Ok None, Net.extend w [Net.Wait; Net.Get req; Net.Sleep 6]).
Proof.
  intros w req.
  destruct (backoff_after_failure "600519.SHH" req 3 w) as (Hdata & Hdaily & _).
  - left. cbn. lia.
  - split; [exact Hdata | exact Hdaily].
Defined.

(** C6 as stated fails for [fetch_alpha_vantage_daily]: with a budget of
    sixteen attempts against HTTP 500, the sleep after the sixteenth
    attempt is 32 seconds, not [min(30, 16 * 2) = 30]. *)
Lemma daily_backoff_exceeds_30 :
  let w := Samples.always Samples.http_500 in
  let run :=
    FetchShares.fetch_alpha_vantage_daily "600519.SHH" "k" "full" "TIME_SERIES_DAILY"
      16 30 w in
  Net.sleeps (Net.trace run.2) !! 15%nat = Some 32 /\
  Z.min 30 (16 * 2) = 30.
Proof. vm_compute. split; reflexivity. Qed.

(** ** What the computations do to the trace and which exceptions leave them *)
Section RunsFacts.
Import Py Net.
Context (P : request -> Prop) (E : exn -> Prop).

Lemma runs_ret {A : Type} (a : A) : runs P E (mret a).
Proof. intros w. exists []. cbn. by rewrite extend_nil. Qed.

Lemma runs_bind {A B : Type} (m : io A) (f : A -> io B) :
  runs P E m -> (forall a, runs P E (f a)) -> runs P E (m ≫= f).
Proof.
  intros Hm Hf w. unfold mbind, io_bind.
  destruct (Hm w) as (evs & Hw & HP & HE).
  destruct (m w) as [[a | e] w1]; cbn [fst snd] in *; subst w1.
  - destruct (Hf a (extend w evs)) as (evs' & Hw' & HP' & HE').
    exists (evs ++ evs'). rewrite Hw', extend_extend, requests_app.
    split; [reflexivity |]. split; [by apply Forall_app | assumption].
  - by exists evs.
Qed.

Lemma runs_raise {A : Type} (e : exn) : E e -> runs P E (raise (A := A) e).
Proof. intros He w. exists []. cbn. by rewrite extend_nil. Qed.

Lemma runs_lift {A : Type} (r : result A) : raises_only E r -> runs P E (lift r).
Proof. intros Hr w. exists []. cbn. by rewrite extend_nil. Qed.

Lemma runs_try_except {A : Type} (body : io A) (catches : exn -> bool)
    (handler : exn -> io A) :
  runs P E body -> (forall e, runs P E (handler e)) ->
  runs P E (try_except body catches handler).
Proof.
  intros Hb Hh w. unfold try_except.
  destruct (Hb w) as (evs & Hw & HP & HE).
  destruct (body w) as [[a | e] w1]; cbn [fst snd] in *; subst w1.
  - by exists evs.
  - destruct (catches e); [| by exists evs].
    destruct (Hh e (extend w evs)) as (evs' & Hw' & HP' & HE').
    exists (evs ++ evs'). rewrite Hw', extend_extend, requests_app.
    split; [reflexivity |]. split; [by apply Forall_app | assumption].
Qed.

Lemma runs_wait : runs P E rate_limiter_wait.
Proof. intros w. exists [Wait]. split; [reflexivity |]. split; [constructor | exact I]. Qed.

Lemma runs_sleep (seconds : Z) : runs P E (sleep seconds).
Proof.
  intros w. exists [Sleep seconds]. split; [reflexivity |]. split; [constructor | exact I].
Qed.

Lemma runs_now : runs P E datetime_now.
Proof. intros w. exists []. cbn. by rewrite extend_nil. Qed.

Lemma runs_session_get (r : request) :
  P r -> E RequestException -> runs P E (session_get r).
Proof.
  intros Hr He w. exists [Get r]. unfold session_get, log.
  destruct (next_response w r); cbn [fst snd raises_only];
    (split; [reflexivity |]); (split; [by repeat constructor | done]).
Qed.

Lemma runs_for_attempts {A : Type} (body : Z -> io (option A)) :
  (forall a, runs P E (body a)) ->
  forall n first, runs P E (for_attempts body first n).
Proof.
  intros Hb n. induction n as [| n IH]; intros first; cbn [for_attempts].
  - apply runs_ret.
  - apply runs_bind; [apply Hb |]. intros [a |]; [apply runs_ret | apply IH].
Qed.

End RunsFacts.

Lemma runs_weaken {A : Type} (P : Net.request -> Prop) (E E' : Py.exn -> Prop)
    (m : Net.io A) :
  (forall e, E e -> E' e) -> Net.runs P E m -> Net.runs P E' m.
Proof.
  intros HE Hm w. destruct (Hm w) as (evs & Hw & HP & Hr).
  exists evs. repeat split; try assumption.
  destruct (m w).1; cbn in *; auto.
Qed.

Section FetcherRuns.
Import Py Net.
Context (P : request -> Prop).

Lemma runs_data_attempt (symbol : string) (req : request) (attempt : Z) :
  P req -> runs P caught (FetchInfo.data_attempt symbol req attempt).
Proof.
  intros Hreq. unfold FetchInfo.data_attempt.
  apply runs_bind; [apply runs_wait |]. intros _.
  apply runs_try_except.
  - apply runs_bind; [by apply runs_session_get |]. intros [status_code body].
    destruct (negb _).
    { apply runs_bind; [apply runs_sleep | intros; apply runs_ret]. }
    apply runs_bind.
    { apply runs_lift. by destruct body. }
    intros data. destruct (_ || _).
    { apply runs_bind; [apply runs_sleep | intros; apply runs_ret]. }
    destruct (has data "Error Message"); [by apply runs_raise | apply runs_ret].
  - intros e. apply runs_bind; [apply runs_sleep | intros; apply runs_ret].
Qed.

Lemma runs_fetch_data (function symbol api_key : string)
    (extra_params : gmap string string) (max_retries timeout_s : Z) :
  P (FetchInfo.data_request function symbol api_key extra_params timeout_s) ->
  runs P caught
    (FetchInfo.fetch_alpha_vantage_data function symbol api_key extra_params
       max_retries timeout_s).
Proof.
  intros Hreq. unfold FetchInfo.fetch_alpha_vantage_data.
  apply runs_bind.
  - apply runs_for_attempts. intros a. by apply runs_data_attempt.
  - intros [data |]; [apply runs_ret | by apply runs_raise].
Qed.

Lemma runs_daily_attempt (symbol : string) (req : request) (attempt : Z) :
  P req -> runs P caught (FetchShares.daily_attempt symbol req attempt).
Proof.
  intros Hreq. unfold FetchShares.daily_attempt.
  apply runs_bind; [apply runs_wait |]. intros _.
  apply runs_try_except.
  - apply runs_bind; [by apply runs_session_get |]. intros [status_code body].
    destruct (negb _).
    { apply runs_bind; [apply runs_sleep | intros; apply runs_ret]. }
    apply runs_bind.
    { apply runs_lift. by destruct body. }
    intros data. destruct (_ || _).
    { apply runs_bind; [apply runs_sleep | intros; apply runs_ret]. }
    destruct (has data "Error Message"); [by apply runs_raise |].
    destruct (has data "Time Series (Daily)"); [apply runs_ret |].
    apply runs_bind; [apply runs_sleep | intros; apply runs_ret].
  - intros e. apply runs_bind; [apply runs_sleep | intros; apply runs_ret].
Qed.

Lemma runs_fetch_daily (symbol api_key outputsize function_name : string)
    (max_retries timeout_s : Z) :
  P (FetchShares.daily_request symbol api_key outputsize function_name timeout_s) ->
  runs P caught
    (FetchShares.fetch_alpha_vantage_daily symbol api_key outputsize function_name
       max_retries timeout_s).
Proof.
  intros Hreq. unfold FetchShares.fetch_alpha_vantage_daily.
  apply runs_bind.
  - apply runs_for_attempts. intros a. by apply runs_daily_attempt.
  - intros [data |]; [apply runs_ret | by apply runs_raise].
Qed.

End FetcherRuns.

(** ** The parsers raise nothing but [Exception]s *)
Section ParserFacts.
Import Py Net.
Context `{Builtins}.

Lemma bind_Ok_inv {A B : Type} (r : result A) (f : A -> result B) (b : B) :
  r ≫= f = Ok b -> exists a, r = Ok a /\ f a = Ok b.
Proof. destruct r as [a | e]; cbn; [eauto | discriminate]. Qed.

Lemma safe_bind {A B : Type} (E : exn -> Prop) (r : result A) (f : A -> result B) :
  raises_only E r -> (forall a, raises_only E (f a)) -> raises_only E (r ≫= f).
Proof. destruct r as [a | e]; cbn; auto. Qed.

Lemma safe_of_option {A : Type} (e : exn) (o : option A) :
  caught e -> raises_only caught (of_option e o).
Proof. by destruct o. Qed.

Lemma safe_float_of_int (n : Z) : raises_only caught (float_of_int n).
Proof. unfold float_of_int. by destruct (is_infinity _). Qed.

Lemma safe_int_of_float (x : float) : raises_only caught (int_of_float x).
Proof. unfold int_of_float. by destruct (Prim2SF x). Qed.

Lemma safe_tofloat (v : pyval) : raises_only caught (tofloat v).
Proof.
  destruct v; cbn; try done; [apply safe_float_of_int | by apply safe_of_option].
Qed.

Lemma safe_toint (v : pyval) : raises_only caught (toint v).
Proof.
  destruct v; cbn; try done; [apply safe_int_of_float | by apply safe_of_option].
Qed.

Lemma safe_round (v : pyval) (ndigits : Z) : raises_only caught (round v ndigits).
Proof. by destruct v. Qed.

Lemma safe_get_attr (v : pyval) (key : string) (dflt : pyval) :
  raises_only caught (get_attr v key dflt).
Proof. by destruct v. Qed.

Lemma safe_number_to_float (a : Z + float) : raises_only caught (number_to_float a).
Proof. destruct a; cbn; [apply safe_float_of_int | done]. Qed.

Lemma safe_truediv (a b : pyval) : raises_only caught (truediv a b).
Proof.
  unfold truediv.
  destruct (as_number a) as [[m | x] |], (as_number b) as [[n | y] |]; try done.
  - destruct (n =? 0); [done |]. by destruct (is_infinity _).
  - apply safe_bind; [apply safe_float_of_int |]. intros fx. cbn.
    by destruct (PrimFloat.eqb y 0).
  - cbn. destruct (float_of_int n) as [fy | e] eqn:Hn; cbn.
    + by destruct (PrimFloat.eqb fy 0).
    + pose proof (safe_float_of_int n) as Hs. by rewrite Hn in Hs.
  - cbn. by destruct (PrimFloat.eqb y 0).
Qed.

Lemma safe_truncated (v : pyval) (k : nat) : raises_only caught (FetchInfo.truncated v k).
Proof. unfold FetchInfo.truncated. destruct (truthy v); [by destruct v | done]. Qed.

Lemma safe_strip_percent (v : pyval) : raises_only caught (FetchInfo.strip_percent v).
Proof. by destruct v. Qed.

(** Breaks a chain of binds down to its steps. *)
Ltac safe_steps :=
  repeat first
    [ apply safe_get_attr | apply safe_tofloat | apply safe_toint | apply safe_round
    | apply safe_truediv | apply safe_truncated | apply safe_strip_percent
    | apply safe_float_of_int | apply safe_int_of_float
    | apply safe_of_option; reflexivity
    | apply safe_bind; [| intros ?]
    | exact I ].

Lemma safe_parse_quote_data (d : gmap string pyval) (symbol : string) :
  raises_only caught (FetchInfo.parse_quote_data d symbol).
Proof.
  unfold FetchInfo.parse_quote_data. destruct (negb _); [done |]. safe_steps.
Qed.

Lemma safe_parse_company_overview (d : gmap string pyval) (symbol : string) :
  raises_only caught (FetchInfo.parse_company_overview d symbol).
Proof.
  unfold FetchInfo.parse_company_overview. destruct (_ || _); [done |]. safe_steps.
Qed.

Lemma safe_news_loop (today : datetime) (items : list pyval) : forall acc,
  raises_only caught (FetchInfo.news_loop today acc items).
Proof.
  induction items as [| item items IH]; intros acc; cbn [FetchInfo.news_loop]; [done |].
  apply safe_bind; [| intros ?; apply IH].
  unfold FetchInfo.news_step. destruct item; try done. by destruct (truthy _).
Qed.

Lemma safe_parse_news_sentiment (today : datetime) (d : gmap string pyval)
    (symbol : string) :
  raises_only caught (FetchInfo.parse_news_sentiment today d symbol).
Proof.
  unfold FetchInfo.parse_news_sentiment. destruct (_ || _); [done |].
  destruct (negb _); [done |].
  destruct (get d "feed" (PList [])); try done.
  apply safe_bind; [apply safe_news_loop |]. intros acc.
  apply safe_bind; [| done].
  destruct (truthy _); [| done]. safe_steps.
Qed.

Lemma safe_week_rows (ts : gmap string pyval) (dates : list string) :
  raises_only caught (FetchInfo.week_rows ts dates).
Proof.
  induction dates as [| date_str dates IH]; cbn [FetchInfo.week_rows]; [done |].
  apply safe_bind; [| intros ?; by apply safe_bind].
  unfold FetchInfo.day_entry. safe_steps.
Qed.

Lemma safe_parse_daily_data_for_week (d : gmap string pyval) (symbol : string) :
  raises_only caught (FetchInfo.parse_daily_data_for_week d symbol).
Proof.
  unfold FetchInfo.parse_daily_data_for_week. destruct (negb _); [done |].
  destruct (get d _ _); try done.
  destruct (take 7 _); [done |].
  apply safe_bind; [apply safe_week_rows |]. intros week_data.
  destruct (FetchInfo.week_changes week_data). safe_steps.
Qed.

Lemma safe_parse_daily_to_dataframe (symbol : string) (payload : gmap string pyval) :
  raises_only caught (FetchShares.parse_daily_to_dataframe symbol payload).
Proof.
  unfold FetchShares.parse_daily_to_dataframe. destruct (get payload _ _); try done.
  induction (map_to_list m) as [| [d_str values] items IH];
    cbn [FetchShares.parse_rows]; [done |].
  apply safe_bind; [| intros ?; by apply safe_bind].
  unfold FetchShares.parse_row. safe_steps.
Qed.

(** Every partial record names the symbol it was built for. *)
Ltac break_binds H :=
  repeat (apply bind_Ok_inv in H as (? & _ & H)).

Lemma parse_quote_data_names_symbol (d part : gmap string pyval) (symbol : string) :
  FetchInfo.parse_quote_data d symbol = Ok part -> FetchInfo.names_symbol symbol part.
Proof.
  unfold FetchInfo.parse_quote_data. destruct (negb _); intros Hp.
  - left. congruence.
  - break_binds Hp. injection Hp as <-. right. apply lookup_insert_eq.
Qed.

Lemma parse_company_overview_names_symbol (d part : gmap string pyval) (symbol : string) :
  FetchInfo.parse_company_overview d symbol = Ok part -> FetchInfo.names_symbol symbol part.
Proof.
  unfold FetchInfo.parse_company_overview. destruct (_ || _); intros Hp.
  - left. congruence.
  - break_binds Hp. injection Hp as <-. right. apply lookup_insert_eq.
Qed.

Lemma parse_news_sentiment_names_symbol (today : datetime) (d part : gmap string pyval)
    (symbol : string) :
  FetchInfo.parse_news_sentiment today d symbol = Ok part ->
  FetchInfo.names_symbol symbol part.
Proof.
  unfold FetchInfo.parse_news_sentiment. destruct (_ || _); [left; congruence |].
  destruct (negb _); [left; congruence |].
  destruct (get d "feed" (PList [])); try discriminate. intros Hp.
  break_binds Hp. injection Hp as <-. right. apply lookup_insert_eq.
Qed.

Lemma parse_daily_data_for_week_names_symbol (d part : gmap string pyval)
    (symbol : string) :
  FetchInfo.parse_daily_data_for_week d symbol = Ok part ->
  FetchInfo.names_symbol symbol part.
Proof.
  unfold FetchInfo.parse_daily_data_for_week. destruct (negb _); [left; congruence |].
  destruct (get d _ _); try discriminate.
  destruct (take 7 _); [left; congruence |]. intros Hp.
  apply bind_Ok_inv in Hp as (week_data & _ & Hp).
  destruct (FetchInfo.week_changes week_data).
  break_binds Hp. injection Hp as <-. right. apply lookup_insert_eq.
Qed.

End ParserFacts.

(** ** The aggregator *)
Section AggregatorFacts.
Import Py Net.
Context `{Builtins}.

(** Every turn of a fetcher starts with one acquisition and one request. *)
Lemma data_attempt_starts (symbol : string) (req : request) (attempt : Z) (w : world) :
  exists evs,
    (FetchInfo.data_attempt symbol req attempt w).2 = extend w ([Wait; Get req] ++ evs).
Proof.
  rewrite data_attempt_run.
  destruct (next_response w req) as [| status_code [data |]];
    repeat match goal with |- context [if ?c then _ else _] => destruct c end;
    cbn [snd]; first [by exists [] | by eexists [_]].
Qed.

Lemma fetch_data_starts (function symbol api_key : string)
    (extra_params : gmap string string) (max_retries timeout_s : Z) (w : world) :
  1 <= max_retries ->
  exists evs,
    (FetchInfo.fetch_alpha_vantage_data function symbol api_key extra_params
       max_retries timeout_s w).2 =
    extend w ([Wait; Get (FetchInfo.data_request function symbol api_key
                            extra_params timeout_s)] ++ evs).
Proof.
  intros Hn. unfold FetchInfo.fetch_alpha_vantage_data.
  set (req := FetchInfo.data_request _ _ _ _ _).
  destruct (Z.to_nat max_retries) as [| n] eqn:Hk; [lia |].
  cbn [for_attempts]. unfold mbind at 1 2, io_bind.
  destruct (data_attempt_starts symbol req 1 w) as [evs Hw].
  destruct (FetchInfo.data_attempt symbol req 1 w) as [[[data |] | e] w1];
    cbn [snd] in Hw; subst w1; cbn; try by exists evs.
  destruct (runs_for_attempts (fun _ => True) (fun _ => True)
              (FetchInfo.data_attempt symbol req)) with (n := n) (first := 1 + 1)
              (w := extend w ([Wait; Get req] ++ evs)) as (evs' & Hw' & _).
  { intros a. eapply runs_weaken; [| by apply runs_data_attempt]. done. }
  destruct (for_attempts _ _ n _) as [[[data |] | e] w2]; cbn [snd] in *; subst w2;
    rewrite extend_extend, <- app_assoc; by eexists.
Qed.

Lemma runs_partial (P : request -> Prop) (fetch : io (gmap string pyval))
    (parse : gmap string pyval -> io (gmap string pyval)) :
  runs P caught fetch -> (forall d, runs P caught (parse d)) ->
  runs P caught (data ← fetch; parse data).
Proof. intros Hf Hp. by apply runs_bind. Qed.

(** One [try] block of the aggregator overlays the partial record of its
    endpoint, which is empty when the fetch or the parse failed. *)
Lemma adapter_partial_record (fetch : io (gmap string pyval))
    (parse : gmap string pyval -> io (gmap string pyval))
    (result : gmap string pyval) (w : world) :
  runs (fun _ => True) caught fetch ->
  (forall d, runs (fun _ => True) caught (parse d)) ->
  FetchInfo.adapter fetch parse result w =
    (Ok ((FetchInfo.partial_record fetch parse w).1 ∪ result),
     (FetchInfo.partial_record fetch parse w).2).
Proof.
  intros Hf Hp.
  unfold FetchInfo.adapter, FetchInfo.partial_record, try_except,
    mbind, io_bind, mret, io_ret.
  destruct (Hf w) as (_ & _ & _ & He).
  destruct (fetch w) as [[data | e] w1]; cbn [fst snd raises_only] in *.
  - destruct (Hp data w1) as (_ & _ & _ & He').
    destruct (parse data w1) as [[part | e] w2]; cbn [fst snd raises_only] in *.
    + reflexivity.
    + unfold caught in He'. rewrite He'. by rewrite (left_id_L ∅ (∪)).
  - unfold caught in He. rewrite He. by rewrite (left_id_L ∅ (∪)).
Qed.

(** Overlaying records that name the symbol keeps the symbol. *)
Lemma overlay_names_symbol (symbol : string) (part result : gmap string pyval) :
  FetchInfo.names_symbol symbol part ->
  result !! "symbol" = Some (PStr symbol) ->
  (part ∪ result) !! "symbol" = Some (PStr symbol).
Proof.
  intros [-> | Hp] Hr.
  - by rewrite (left_id_L ∅ (∪)).
  - by apply lookup_union_Some_l.
Qed.

Lemma partial_record_names_symbol (symbol : string) (fetch : io (gmap string pyval))
    (parse : gmap string pyval -> io (gmap string pyval)) (w : world) :
  (forall d w1 part w2, parse d w1 = (Ok part, w2) -> FetchInfo.names_symbol symbol part) ->
  FetchInfo.names_symbol symbol (FetchInfo.partial_record fetch parse w).1.
Proof.
  intros Hp. unfold FetchInfo.partial_record, mbind, io_bind.
  destruct (fetch w) as [[data | e] w1]; [| by left].
  destruct (parse data w1) as [[part | e] w2] eqn:Hparse; [| by left].
  cbn. eauto.
Qed.

End AggregatorFacts.

Section DriverFacts.
Import Py Net.
Context `{Builtins}.

Lemma partial_record_starts (fetch : io (gmap string pyval))
    (parse : gmap string pyval -> io (gmap string pyval)) (req : request) (w : world) :
  (forall w0, exists evs, (fetch w0).2 = extend w0 ([Wait; Get req] ++ evs)) ->
  (forall d, runs (fun _ => True) caught (parse d)) ->
  exists evs, (FetchInfo.partial_record fetch parse w).2 = extend w ([Wait; Get req] ++ evs).
Proof.
  intros Hf Hp. unfold FetchInfo.partial_record, mbind, io_bind.
  destruct (Hf w) as [evs Hw].
  destruct (fetch w) as [[data | e] w1]; cbn [snd] in Hw; subst w1; [| by exists evs].
  destruct (Hp data (extend w ([Wait; Get req] ++ evs))) as (evs' & Hw' & _).
  destruct (parse data _) as [[part | e] w2]; cbn [snd] in *; subst w2;
    rewrite extend_extend, <- app_assoc; by eexists.
Qed.

Lemma runs_parse_quote (P : request -> Prop) (symbol : string) (d : gmap string pyval) :
  runs P caught (lift (FetchInfo.parse_quote_data d symbol)).
Proof. apply runs_lift, safe_parse_quote_data. Qed.

Lemma runs_parse_overview (P : request -> Prop) (symbol : string) (d : gmap string pyval) :
  runs P caught (lift (FetchInfo.parse_company_overview d symbol)).
Proof. apply runs_lift, safe_parse_company_overview. Qed.

Lemma runs_parse_news (P : request -> Prop) (symbol : string) (d : gmap string pyval) :
  runs P caught
    (today ← datetime_now; lift (FetchInfo.parse_news_sentiment today d symbol)).
Proof.
  apply runs_bind; [apply runs_now |]. intros today.
  apply runs_lift, safe_parse_news_sentiment.
Qed.

Lemma runs_parse_daily (P : request -> Prop) (symbol : string) (d : gmap string pyval) :
  runs P caught (lift (FetchInfo.parse_daily_data_for_week d symbol)).
Proof. apply runs_lift, safe_parse_daily_data_for_week. Qed.


Lemma io_bind_run {A B : Type} (m : io A) (f : A -> io B) (w : world) :
  (m ≫= f) w =
  match m w with
  | (Ok a, w') => f a w'
  | (Raise e, w') => (Raise e, w')
  end.
Proof. reflexivity. Qed.

Lemma runs_fetch_quote (P : request -> Prop) (symbol api_key : string) :
  P (FetchInfo.endpoint_request "GLOBAL_QUOTE" symbol api_key) ->
  runs P caught (FetchInfo.fetch_quote_endpoint symbol api_key).
Proof. intros HP. unfold FetchInfo.fetch_quote_endpoint. by apply runs_fetch_data. Qed.

Lemma runs_fetch_overview (P : request -> Prop) (symbol api_key : string) :
  P (FetchInfo.endpoint_request "OVERVIEW" symbol api_key) ->
  runs P caught (FetchInfo.fetch_company_overview symbol api_key).
Proof. intros HP. unfold FetchInfo.fetch_company_overview. by apply runs_fetch_data. Qed.

Lemma runs_fetch_news (P : request -> Prop) (symbol api_key : string) :
  P (FetchInfo.endpoint_request "NEWS_SENTIMENT" symbol api_key) ->
  runs P caught (FetchInfo.fetch_news_sentiment symbol api_key).
Proof. intros HP. unfold FetchInfo.fetch_news_sentiment. by apply runs_fetch_data. Qed.

Lemma runs_fetch_daily_data (P : request -> Prop) (symbol api_key : string) :
  P (FetchInfo.endpoint_request "TIME_SERIES_DAILY" symbol api_key) ->
  runs P caught (FetchInfo.fetch_daily_data symbol api_key).
Proof. intros HP. unfold FetchInfo.fetch_daily_data. by apply runs_fetch_data. Qed.

Lemma comprehensive_info_eq (symbol api_key : string) (w : world) :
  let quote := FetchInfo.quote_record symbol api_key w in
  let overview := FetchInfo.overview_record symbol api_key quote.2 in
  let news := FetchInfo.news_record symbol api_key overview.2 in
  let daily := FetchInfo.daily_record symbol api_key news.2 in
  FetchInfo.fetch_stock_comprehensive_info symbol api_key w =
    (Ok (daily.1 ∪ (news.1 ∪ (overview.1 ∪ (quote.1 ∪ {[ "symbol" := PStr symbol ]})))),
     daily.2).
Proof.
  intros quote overview news daily.
  subst quote overview news daily.
  unfold FetchInfo.quote_record, FetchInfo.overview_record, FetchInfo.news_record,
    FetchInfo.daily_record, FetchInfo.fetch_stock_comprehensive_info.
  rewrite io_bind_run, adapter_partial_record;
    [| by apply runs_fetch_quote | apply runs_parse_quote].
  rewrite io_bind_run, adapter_partial_record;
    [| by apply runs_fetch_overview | apply runs_parse_overview].
  rewrite io_bind_run, adapter_partial_record;
    [| by apply runs_fetch_news | apply runs_parse_news].
  rewrite io_bind_run, adapter_partial_record;
    [| by apply runs_fetch_daily_data | apply runs_parse_daily].
  reflexivity.
Qed.

(** The aggregator always returns, and its result names the symbol. *)
Lemma comprehensive_info_returns (symbol api_key : string) (w : world) :
  exists result w',
    FetchInfo.fetch_stock_comprehensive_info symbol api_key w = (Ok result, w') /\
    result !! "symbol" = Some (PStr symbol).
Proof.
  eexists _, _. split; [apply comprehensive_info_eq |].
  repeat apply overlay_names_symbol; try apply lookup_singleton_eq;
    apply partial_record_names_symbol; intros d w1 part w2; unfold lift.
  - intros [= Hp _]. by apply parse_daily_data_for_week_names_symbol in Hp.
  - rewrite io_bind_run. unfold datetime_now. intros [= Hp _].
    by apply parse_news_sentiment_names_symbol in Hp.
  - intros [= Hp _]. by apply parse_company_overview_names_symbol in Hp.
  - intros [= Hp _]. by apply parse_quote_data_names_symbol in Hp.
Qed.

Lemma endpoint_request_apikey (function symbol api_key : string) :
  params (FetchInfo.endpoint_request function symbol api_key) !! "apikey" = Some api_key.
Proof.
  unfold FetchInfo.endpoint_request. cbn [FetchInfo.data_request params].
  unfold FetchInfo.data_params.
  rewrite lookup_union_r; [reflexivity |].
  by repeat case_match.
Qed.

(** The requests of the aggregator carry the key it was given. *)
Lemma runs_comprehensive_info (symbol api_key : string) :
  runs (fun r => params r !! "apikey" = Some api_key) caught
    (FetchInfo.fetch_stock_comprehensive_info symbol api_key).
Proof.
  unfold FetchInfo.fetch_stock_comprehensive_info.
  apply runs_bind; [| intros r1; apply runs_bind; [| intros r2; apply runs_bind;
    [| intros r3; apply runs_bind; [| intros r4; apply runs_ret]]]];
    unfold FetchInfo.adapter; (apply runs_try_except; [| intros; apply runs_ret]);
    (apply runs_bind; [| intros d; apply runs_bind; [| intros; apply runs_ret]]).
  - apply runs_fetch_quote, endpoint_request_apikey.
  - apply runs_parse_quote.
  - apply runs_fetch_overview, endpoint_request_apikey.
  - apply runs_parse_overview.
  - apply runs_fetch_news, endpoint_request_apikey.
  - apply runs_parse_news.
  - apply runs_fetch_daily_data, endpoint_request_apikey.
  - apply runs_parse_daily.
Qed.

(** The loop of [main] returns one result for each symbol, in order. *)
Lemma info_main_loop_results (api_key : string) (raw_symbols : list string) :
  forall (all_results : list (gmap string pyval)) (w : world),
  exists results w',
    FetchInfo.main_loop api_key raw_symbols all_results w =
      (Ok (all_results ++ results), w') /\
    (fun r : gmap string pyval => r !! "symbol") <$> results =
    (fun raw => Some (PStr (normalize_a_share_symbol raw))) <$> raw_symbols.
Proof.
  induction raw_symbols as [| raw rest IH]; intros all_results w;
    cbn [FetchInfo.main_loop].
  - exists [], w. by rewrite app_nil_r.
  - rewrite io_bind_run.
    destruct (comprehensive_info_returns (normalize_a_share_symbol raw) api_key w)
      as (result & w1 & -> & Hsym).
    destruct (IH (all_results ++ [result]) w1) as (results & w2 & -> & Hres).
    exists (result :: results), w2. rewrite <- app_assoc. split; [reflexivity |].
    cbn [fmap list_fmap]. by rewrite Hsym, <- Hres.
Qed.

Lemma runs_info_main_loop (api_key : string) (raw_symbols : list string) :
  forall all_results,
    runs (fun r => params r !! "apikey" = Some api_key) caught
      (FetchInfo.main_loop api_key raw_symbols all_results).
Proof.
  induction raw_symbols as [| raw rest IH]; intros all_results;
    cbn [FetchInfo.main_loop]; [apply runs_ret |].
  apply runs_bind; [apply runs_comprehensive_info | intros; apply IH].
Qed.

Lemma daily_request_apikey (symbol api_key outputsize function_name : string)
    (timeout_s : Z) :
  params (FetchShares.daily_request symbol api_key outputsize function_name timeout_s)
    !! "apikey" = Some api_key.
Proof.
  cbn [FetchShares.daily_request params list_to_map foldr fst snd].
  do 4 (rewrite lookup_insert_ne by done). apply lookup_insert_eq.
Qed.

Lemma runs_shares_main_loop (a : FetchShares.args) (api_key function_name : string)
    (start_date end_date : option datetime) (raw_symbols : list string) :
  forall frames,
    runs (fun r => params r !! "apikey" = Some api_key) caught
      (FetchShares.main_loop a api_key function_name start_date end_date
         raw_symbols frames).
Proof.
  induction raw_symbols as [| raw rest IH]; intros frames;
    cbn [FetchShares.main_loop]; [apply runs_ret |].
  apply runs_bind; [apply runs_fetch_daily, daily_request_apikey |]. intros payload.
  apply runs_bind; [apply runs_lift, safe_parse_daily_to_dataframe |].
  intros [| r df]; apply IH.
Qed.

End DriverFacts.

Section RecordFacts.
Import Py Net.
Context `{Builtins}.

(** Each endpoint is asked at least once, whatever came before. *)
Lemma quote_record_starts (symbol api_key : string) (w : world) :
  exists evs, (FetchInfo.quote_record symbol api_key w).2 =
    extend w ([Wait; Get (FetchInfo.endpoint_request "GLOBAL_QUOTE" symbol api_key)] ++ evs).
Proof.
  apply partial_record_starts; [| apply runs_parse_quote].
  intros w0. unfold FetchInfo.fetch_quote_endpoint. by apply fetch_data_starts.
Qed.

Lemma overview_record_starts (symbol api_key : string) (w : world) :
  exists evs, (FetchInfo.overview_record symbol api_key w).2 =
    extend w ([Wait; Get (FetchInfo.endpoint_request "OVERVIEW" symbol api_key)] ++ evs).
Proof.
  apply partial_record_starts; [| apply runs_parse_overview].
  intros w0. unfold FetchInfo.fetch_company_overview. by apply fetch_data_starts.
Qed.

Lemma news_record_starts (symbol api_key : string) (w : world) :
  exists evs, (FetchInfo.news_record symbol api_key w).2 =
    extend w ([Wait; Get (FetchInfo.endpoint_request "NEWS_SENTIMENT" symbol api_key)] ++ evs).
Proof.
  apply partial_record_starts; [| apply runs_parse_news].
  intros w0. unfold FetchInfo.fetch_news_sentiment. by apply fetch_data_starts.
Qed.

Lemma daily_record_starts (symbol api_key : string) (w : world) :
  exists evs, (FetchInfo.daily_record symbol api_key w).2 =
    extend w ([Wait; Get (FetchInfo.endpoint_request "TIME_SERIES_DAILY" symbol api_key)] ++ evs).
Proof.
  apply partial_record_starts; [| apply runs_parse_daily].
  intros w0. unfold FetchInfo.fetch_daily_data. by apply fetch_data_starts.
Qed.

End RecordFacts.

(** C3.  [fetch_stock_comprehensive_info] always returns.  Its result is
    the base record [{"symbol": symbol}] overlaid, in order, with the
    partial records of the quote, overview, news and daily endpoints,
    where the record of an endpoint whose fetch or parse raised is empty;
    each endpoint is run from the world the previous one left and is
    asked at least once, whatever happened to the others; and the result
    maps [symbol] to the identifier. *)
Theorem comprehensive_info_isolates_failures `{Py.Builtins}
    (symbol api_key : string) (w : Net.world) :
  let quote := FetchInfo.quote_record symbol api_key w in
  let overview := FetchInfo.overview_record symbol api_key quote.2 in
  let news := FetchInfo.news_record symbol api_key overview.2 in
  let daily := FetchInfo.daily_record symbol api_key news.2 in
  let merged :=
    daily.1 ∪ (news.1 ∪ (overview.1 ∪ (quote.1 ∪ {[ "symbol" := Py.PStr symbol ]}))) in
  FetchInfo.fetch_stock_comprehensive_info symbol api_key w = (Py.Ok merged, daily.2) /\
  merged !! "symbol" = Some (Py.PStr symbol) /\
  exists e1 e2 e3 e4,
    Net.trace daily.2 =
      Net.trace w
      ++ [Net.Wait; Net.Get (FetchInfo.endpoint_request "GLOBAL_QUOTE" symbol api_key)] ++ e1
      ++ [Net.Wait; Net.Get (FetchInfo.endpoint_request "OVERVIEW" symbol api_key)] ++ e2
      ++ [Net.Wait; Net.Get (FetchInfo.endpoint_request "NEWS_SENTIMENT" symbol api_key)] ++ e3
      ++ [Net.Wait; Net.Get (FetchInfo.endpoint_request "TIME_SERIES_DAILY" symbol api_key)] ++ e4.
Proof.
  intros quote overview news daily merged.
  pose proof (comprehensive_info_eq symbol api_key w) as Heq. cbv zeta in Heq.
  fold quote overview news daily merged in Heq.
  split; [exact Heq |]. split.
  - destruct (comprehensive_info_returns symbol api_key w) as (r & w' & Hr & Hsym).
    rewrite Heq in Hr. by injection Hr as -> _.
  - destruct (quote_record_starts symbol api_key w) as [e1 H1].
    destruct (overview_record_starts symbol api_key quote.2) as [e2 H2].
    destruct (news_record_starts symbol api_key overview.2) as [e3 H3].
    destruct (daily_record_starts symbol api_key news.2) as [e4 H4].
    fold quote in H1. fold overview in H2. fold news in H3. fold daily in H4.
    exists e1, e2, e3, e4. rewrite H4, H3, H2, H1. cbn [Net.trace Net.extend].
    by rewrite <- !app_assoc.
Qed.

(** C2, amended.  The batch driver of [fetch_a_share_info.py] returns,
    whatever the upstream answers, one result for every input symbol, in
    input order, each naming its normalised symbol: no endpoint failure
    leaves the loop or stops it. *)
Theorem info_main_returns_all_results `{Py.Builtins} (a : FetchInfo.args)
    (ALPHAVANTAGE_API_KEY : option string) (w : Net.world) :
  exists results w',
    FetchInfo.main a ALPHAVANTAGE_API_KEY w = (Py.Ok results, w') /\
    (fun r : gmap string Py.pyval => r !! "symbol") <$> results =
    (fun raw => Some (Py.PStr (normalize_a_share_symbol raw))) <$> FetchInfo.symbols a.
Proof.
  unfold FetchInfo.main, FetchInfo.resolve_api_key.
  change (negb (Py.truthy (Py.PStr "DBW1NM92621232126K"))) with false. cbv iota.
  destruct (info_main_loop_results "DBW1NM92621232126K" (FetchInfo.symbols a) [] w)
    as (results & w' & Hrun & Hres).
  by exists results, w'.
Qed.

(** C2 as stated fails for the batch driver of [fetch_a_shares.py]:
    against an upstream that answers HTTP 500, the exhausted budget of
    the first symbol leaves [main], and the second symbol is never asked
    for. *)
Lemma shares_main_aborts_on_failure :
  let a := FetchShares.mk_args ["600519"; "000001"] None None None "out.csv" "full"
             5 false false 30 in
  let run := FetchShares.main a None (Samples.always Samples.http_500) in
  run.1 = Py.Raise (Py.RuntimeError_retries "600519.SHH" None 5) /\
  (fun r => Net.params r !! "symbol") <$> Net.requests (Net.trace run.2) =
    replicate 5 (Some "600519.SHH").
Proof. vm_compute. split; reflexivity. Qed.

(** C10.  In both scripts the key is the constant of the source, whatever
    [--api-key] and [ALPHAVANTAGE_API_KEY] are; every request [main]
    issues carries it; and [main] never leaves through the exit of the
    missing key. *)
Theorem api_key_is_hardcoded `{Py.Builtins} (a : FetchInfo.args) (a' : FetchShares.args)
    (ALPHAVANTAGE_API_KEY : option string) (w : Net.world) :
  let key := "DBW1NM92621232126K" in
  let carries_key := fun r => Net.params r !! "apikey" = Some key in
  FetchInfo.resolve_api_key a ALPHAVANTAGE_API_KEY = key /\
  FetchShares.resolve_api_key a' ALPHAVANTAGE_API_KEY = key /\
  (exists evs, (FetchInfo.main a ALPHAVANTAGE_API_KEY w).2 = Net.extend w evs /\
               Forall carries_key (Net.requests evs)) /\
  (exists evs, (FetchShares.main a' ALPHAVANTAGE_API_KEY w).2 = Net.extend w evs /\
               Forall carries_key (Net.requests evs)) /\
  (FetchInfo.main a ALPHAVANTAGE_API_KEY w).1 <> Py.Raise (Py.SystemExit Py.MissingApiKey) /\
  (FetchShares.main a' ALPHAVANTAGE_API_KEY w).1 <> Py.Raise (Py.SystemExit Py.MissingApiKey).
Proof.
  intros key carries_key.
  set (E := fun e => e <> Py.SystemExit Py.MissingApiKey).
  assert (HE : forall e, Net.caught e -> E e).
  { intros e He ->. discriminate He. }
  assert (Hinfo : Net.runs carries_key E (FetchInfo.main a ALPHAVANTAGE_API_KEY)).
  { unfold FetchInfo.main, FetchInfo.resolve_api_key.
    change (negb (Py.truthy (Py.PStr "DBW1NM92621232126K"))) with false. cbv iota.
    eapply runs_weaken; [exact HE | apply runs_info_main_loop]. }
  assert (Hshares : Net.runs carries_key E (FetchShares.main a' ALPHAVANTAGE_API_KEY)).
  { unfold FetchShares.main, FetchShares.resolve_api_key.
    change (negb (Py.truthy (Py.PStr "DBW1NM92621232126K"))) with false. cbv iota.
    apply runs_bind.
    { apply runs_lift. unfold FetchShares.parse_date.
      destruct (FetchShares.start a') as [s |]; [| done].
      destruct (String.eqb s ""); [done |]. by destruct (Py.dateutil_parse s). }
    intros start_date. apply runs_bind.
    { apply runs_lift. unfold FetchShares.parse_date.
      destruct (FetchShares.end_ a') as [s |]; [| done].
      destruct (String.eqb s ""); [done |]. by destruct (Py.dateutil_parse s). }
    intros end_date.
    destruct (FetchShares.start_after_end start_date end_date); [by apply runs_raise |].
    apply runs_bind.
    { eapply runs_weaken; [exact HE | apply runs_shares_main_loop]. }
    intros [| f frames]; [by apply runs_raise | apply runs_ret]. }
  repeat split.
  - destruct (Hinfo w) as (evs & Hw & HP & _). by exists evs.
  - destruct (Hshares w) as (evs & Hw & HP & _). by exists evs.
  - destruct (Hinfo w) as (_ & _ & _ & Hr). intros Heq. rewrite Heq in Hr. by apply Hr.
  - destruct (Hshares w) as (_ & _ & _ & Hr). intros Heq. rewrite Heq in Hr. by apply Hr.
Qed.

(** ** The daily series *)
Section DailyFacts.
Import Py Net.
Context `{Builtins}.

Global Instance flip_le_trans : Transitive (flip String.le).
Proof. intros x y z Hxy Hyz. unfold flip in *. by etrans. Qed.

Global Instance flip_le_total : Total (flip String.le).
Proof. intros x y. unfold flip. destruct (total String.le x y); auto. Qed.

Lemma sorted_reverse_sorted (l : list string) :
  StronglySorted (flip String.le) (FetchInfo.sorted_reverse l).
Proof. apply StronglySorted_merge_sort; apply _. Qed.

Lemma sorted_reverse_perm (l : list string) : FetchInfo.sorted_reverse l ≡ₚ l.
Proof. apply merge_sort_Permutation. Qed.

(** The dates the parser keeps are at least as recent as those it leaves. *)
Lemma take_sorted_reverse_recent (k : nat) (l : list string) (d d' : string) :
  d ∈ take k (FetchInfo.sorted_reverse l) ->
  d' ∈ l ->
  d' ∉ take k (FetchInfo.sorted_reverse l) ->
  String.le d' d.
Proof.
  intros Hd Hd' Hout.
  pose proof (sorted_reverse_sorted l) as Hs.
  rewrite <- (take_drop k (FetchInfo.sorted_reverse l)) in Hs.
  rewrite <- (sorted_reverse_perm l), <- (take_drop k (FetchInfo.sorted_reverse l)) in Hd'.
  apply elem_of_app in Hd' as [Hd' | Hd']; [done |].
  exact (StronglySorted_app_1_elem_of _ _ _ _ _ Hs Hd Hd').
Qed.

Lemma get_Some (m : gmap string pyval) (key : string) (dflt v : pyval) :
  m !! key = Some v -> get m key dflt = v.
Proof. intros Hm. unfold get. by rewrite Hm. Qed.

Lemma get_None (m : gmap string pyval) (key : string) (dflt : pyval) :
  m !! key = None -> get m key dflt = dflt.
Proof. intros Hm. unfold get. by rewrite Hm. Qed.

Lemma last_List_last {A : Type} (l : list A) (x d : A) :
  last (x :: l) = Some (List.last (x :: l) d).
Proof.
  revert x. induction l as [| y l IH]; intros x; [reflexivity |].
  change (last (y :: l) = Some (List.last (y :: l) d)). apply IH.
Qed.

Lemma keys_length (ts : gmap string pyval) : length (FetchInfo.keys ts) = size ts.
Proof. unfold FetchInfo.keys. by rewrite length_fmap, length_map_to_list. Qed.

Lemma week_rows_dates (ts : gmap string pyval) (dates : list string) :
  forall rows,
    FetchInfo.week_rows ts dates = Ok rows ->
    FetchInfo.row_date <$> rows = dates /\
    Forall (fun r =>
              exists day_data close open,
                ts !! FetchInfo.row_date r = Some day_data /\
                get_attr day_data "4. close" (PInt 0) ≫= tofloat = Ok close /\
                get_attr day_data "1. open" (PInt 0) ≫= tofloat = Ok open /\
                FetchInfo.row_close r = close /\
                FetchInfo.row_change r = (close - open)%float) rows.
Proof.
  induction dates as [| d dates IH]; intros rows; cbn [FetchInfo.week_rows].
  - intros [= <-]. by split.
  - intros Hr.
    apply bind_Ok_inv in Hr as (r & Hentry & Hr).
    apply bind_Ok_inv in Hr as (rs & Hrs & [= <-]).
    destruct (IH rs Hrs) as [Hdates Hall].
    unfold FetchInfo.day_entry in Hentry.
    apply bind_Ok_inv in Hentry as (day_data & Hday & Hentry).
    apply bind_Ok_inv in Hentry as (close & Hclose & Hentry).
    apply bind_Ok_inv in Hentry as (volume & Hvolume & Hentry).
    apply bind_Ok_inv in Hentry as (open & Hopen & [= <-]).
    split; [cbn; by rewrite Hdates |].
    constructor; [| assumption]. cbn.
    exists day_data, close, open. repeat split; try assumption.
    destruct (ts !! d); cbn in Hday; by simplify_eq.
Qed.

End DailyFacts.

(** C8, amended.  Without time-series data [parse_daily_data_for_week]
    returns the empty mapping.  Otherwise it keeps the first seven date
    keys in descending order, which are the most recent ones, and makes
    one row for each, most recent first, whose close is the [float] of
    the field [4. close].  With at least two rows, of oldest close [c1]
    and most recent close [c7], [week_change] is [round(c7 - c1, 2)]
    whatever [c1] is, and [week_change_percent] is
    [round((c7 - c1) / c1 * 100, 2)] when [c1 > 0] and [0] otherwise;
    with one row both are [0]. *)
Theorem parse_daily_week_change `{Py.Builtins} (daily_data : gmap string Py.pyval)
    (symbol : string) :
  (Py.truthy (Py.get daily_data "Time Series (Daily)" (Py.PDict ∅)) = false ->
     FetchInfo.parse_daily_data_for_week daily_data symbol = Py.Ok ∅) /\
  (forall ts week_data,
     daily_data !! "Time Series (Daily)" = Some (Py.PDict ts) ->
     ts <> ∅ ->
     let dates := take 7 (FetchInfo.sorted_reverse (FetchInfo.keys ts)) in
     FetchInfo.week_rows ts dates = Py.Ok week_data ->
     (* the seven most recent dates, most recent first *)
     length dates = Nat.min 7 (size ts) /\
     StronglySorted (flip String.le) dates /\
     (forall d d', d ∈ dates -> is_Some (ts !! d') -> d' ∉ dates -> String.le d' d) /\
     FetchInfo.row_date <$> week_data = dates /\
     Forall (fun r =>
               exists day_data,
                 ts !! FetchInfo.row_date r = Some day_data /\
                 Py.get_attr day_data "4. close" (Py.PInt 0) ≫= Py.tofloat =
                   Py.Ok (FetchInfo.row_close r)) week_data /\
     exists week_change week_change_percent,
       FetchInfo.parse_daily_data_for_week daily_data symbol =
         Py.Ok (list_to_map [
           ("symbol", Py.PStr symbol);
           ("week_change", week_change);
           ("week_change_percent", week_change_percent);
           ("week_data", Py.PList (FetchInfo.day_row_value <$> week_data))]) /\
       (forall newest oldest,
          (2 <= length week_data)%nat ->
          head week_data = Some newest -> last week_data = Some oldest ->
          let c7 := FetchInfo.row_close newest in
          let c1 := FetchInfo.row_close oldest in
          week_change = Py.PFloat (Py.round_float (c7 - c1)%float 2) /\
          ((0 <? c1)%float = true ->
             week_change_percent =
               Py.PFloat (Py.round_float ((c7 - c1) / c1 * 100)%float 2)) /\
          ((0 <? c1)%float = false -> week_change_percent = Py.PInt 0)) /\
       ((length week_data < 2)%nat ->
          week_change = Py.PInt 0 /\ week_change_percent = Py.PInt 0)).
Proof.
  split.
  - intros Hfalse. unfold FetchInfo.parse_daily_data_for_week. by rewrite Hfalse.
  - intros ts week_data Hts Hne dates Hrows.
    assert (Hlen : length dates = Nat.min 7 (size ts)).
    { subst dates. by rewrite length_take, (Permutation_length (sorted_reverse_perm _)),
        keys_length. }
    destruct (week_rows_dates ts dates week_data Hrows) as [Hdates Hall].
    split; [exact Hlen |]. split.
    { subst dates. pose proof (sorted_reverse_sorted (FetchInfo.keys ts)) as Hs.
      rewrite <- (take_drop 7 (FetchInfo.sorted_reverse (FetchInfo.keys ts))) in Hs.
      by apply StronglySorted_app_1_l in Hs. }
    split.
    { intros d d' Hd [v Hv] Hout. apply (take_sorted_reverse_recent 7 (FetchInfo.keys ts));
        try assumption.
      unfold FetchInfo.keys. apply list_elem_of_fmap. exists (d', v).
      split; [reflexivity |]. by apply elem_of_map_to_list. }
    split; [exact Hdates |]. split.
    { eapply Forall_impl; [exact Hall |]. cbn.
      intros r (day_data & close & open & Hday & Hclose & _ & Hrc & _).
      exists day_data. by rewrite Hrc. }
    unfold FetchInfo.parse_daily_data_for_week.
    rewrite (get_Some _ _ _ _ Hts).
    assert (Py.truthy (Py.PDict ts) = true) as ->.
    { cbn. by rewrite bool_decide_eq_false_2. }
    cbn [negb]. fold dates.
    destruct dates as [| d0 dates'] eqn:Hd.
    { exfalso. cbn in Hlen. apply Hne, map_size_empty_iff.
      destruct (size ts); [done | cbn in Hlen; lia]. }
    rewrite Hrows. cbn [mbind Py.result_bind].
    destruct week_data as [| newest [| second rest]].
    + discriminate Hdates.
    + eexists _, _. split; [reflexivity |]. split.
      * intros ? ? Hl. cbn in Hl. lia.
      * by intros _.
    + cbn [FetchInfo.week_changes].
      set (oldest := List.last (newest :: second :: rest) newest).
      assert (Hlast : last (newest :: second :: rest) = Some oldest)
        by apply last_List_last.
      destruct (0 <? FetchInfo.row_close oldest)%float eqn:Hlt;
        (eexists _, _; split; [reflexivity |]; split;
         [| intros Hl; cbn in Hl; lia]);
        intros newest' oldest' _ [= <-] Hlast';
        rewrite Hlast in Hlast'; injection Hlast' as <-;
        rewrite Hlt; by repeat split.
Qed.

(** ** The news feed *)
Section NewsFacts.
Import Py Net.
Context `{Builtins}.

(** An item that is not kept leaves the four variables as they are:
    no time stamp, a malformed one and an old one are all skipped. *)
Lemma news_step_not_recent (today : datetime) (acc : FetchInfo.news_acc) (item : pyval) :
  FetchInfo.is_object item ->
  FetchInfo.is_recent today item = false ->
  FetchInfo.news_step today acc item = Ok acc.
Proof.
  destruct item as [| | | | | | d]; try done. intros _.
  unfold FetchInfo.is_recent, FetchInfo.news_step, FetchInfo.news_try.
  destruct (truthy _); [| done]. cbn [andb].
  destruct (FetchInfo.parse_time_published _) as [dt | e]; [| done].
  by intros ->.
Qed.

(** A kept item with a usable summary and a score that adds to the
    total. *)
Lemma news_step_counted (today : datetime) (acc : FetchInfo.news_acc)
    (d : gmap string pyval) (total : pyval) :
  FetchInfo.is_recent today (PDict d) = true ->
  (exists s, FetchInfo.truncated (get d "summary" (PStr "")) 100 = Ok s) ->
  add (FetchInfo.total_sentiment acc) (get d "overall_sentiment_score" (PInt 0)) = Ok total ->
  exists entry,
    FetchInfo.news_step today acc (PDict d) =
    Ok {| FetchInfo.recent_news := FetchInfo.recent_news acc ++ [entry];
          FetchInfo.total_sentiment := total;
          FetchInfo.positive_count :=
            FetchInfo.positive_count acc +
            (if FetchInfo.has_label "positive" (PDict d) then 1 else 0);
          FetchInfo.negative_count :=
            FetchInfo.negative_count acc +
            (if FetchInfo.has_label "positive" (PDict d) then 0
             else if FetchInfo.has_label "negative" (PDict d) then 1 else 0) |}.
Proof.
  unfold FetchInfo.is_recent, FetchInfo.news_step, FetchInfo.news_try.
  intros Hrecent [s Hs] Hadd.
  destruct (truthy _); [| done]. cbn [andb] in Hrecent.
  destruct (FetchInfo.parse_time_published _) as [dt | e]; [| done].
  rewrite Hrecent. unfold FetchInfo.news_entry. rewrite Hs. cbn [mbind result_bind].
  rewrite Hadd.
  eexists. f_equal. unfold FetchInfo.has_label.
  destruct (FetchInfo.is_str (get d "overall_sentiment_label" (PStr "")) "positive"),
    (FetchInfo.is_str (get d "overall_sentiment_label" (PStr "")) "negative");
    f_equal; lia.
Qed.

(** The loop only sees the items it keeps. *)
Lemma news_loop_filter (today : datetime) (items : list pyval) :
  forall acc,
    Forall FetchInfo.is_object items ->
    FetchInfo.news_loop today acc items =
    FetchInfo.news_loop today acc (List.filter (FetchInfo.is_recent today) items).
Proof.
  induction items as [| item items IH]; intros acc Hobj; [reflexivity |].
  inversion Hobj as [| ? ? Hitem Hitems]; subst.
  cbn [FetchInfo.news_loop List.filter].
  destruct (FetchInfo.is_recent today item) eqn:Hr.
  - cbn [FetchInfo.news_loop].
    destruct (FetchInfo.news_step today acc item); cbn; [by apply IH | done].
  - rewrite (news_step_not_recent today acc item Hitem Hr). cbn. by apply IH.
Qed.

Lemma label_exclusive (item : pyval) :
  FetchInfo.has_label "positive" item = true ->
  FetchInfo.has_label "negative" item = false.
Proof.
  destruct item as [| | | | | | d]; try done. unfold FetchInfo.has_label.
  destruct (get d _ _); try done. cbn.
  intros ->%String.eqb_eq. reflexivity.
Qed.

End NewsFacts.

(** C9, amended.  [parse_news_sentiment] looks at the first ten items of
    the feed only.  For a feed of twelve items whose first ten are
    objects, three of which are kept (a time stamp that matches the
    format, dated no earlier than seven days before today) and have a
    usable summary, two of them labelled [positive] and one
    [negative], and whose scores (a missing score is [0]) add up and
    divide without an exception, it returns [recent_news_count = 3],
    [positive_news_count = 2], [negative_news_count = 1] and
    [avg_sentiment_score] the value of
    [round((0 + sa + sb + sc) / 3, 3)] for the three scores in feed
    order.  An item whose time stamp does not parse is skipped without
    an exception. *)
Theorem parse_news_sentiment_counts `{Py.Builtins} (today : Py.datetime)
    (news_data : gmap string Py.pyval) (symbol : string) (items : list Py.pyval)
    (a b c : gmap string Py.pyval) (ta tb total avg : Py.pyval) :
  news_data !! "feed" = Some (Py.PList items) ->
  length items = 12%nat ->
  Forall FetchInfo.is_object (take 10 items) ->
  List.filter (FetchInfo.is_recent today) (take 10 items) =
    [Py.PDict a; Py.PDict b; Py.PDict c] ->
  Forall (fun d => exists s,
            FetchInfo.truncated (Py.get d "summary" (Py.PStr "")) 100 = Py.Ok s)
         [a; b; c] ->
  length (List.filter (FetchInfo.has_label "positive")
            [Py.PDict a; Py.PDict b; Py.PDict c]) = 2%nat ->
  length (List.filter (FetchInfo.has_label "negative")
            [Py.PDict a; Py.PDict b; Py.PDict c]) = 1%nat ->
  Py.add (Py.PInt 0) (Py.get a "overall_sentiment_score" (Py.PInt 0)) = Py.Ok ta ->
  Py.add ta (Py.get b "overall_sentiment_score" (Py.PInt 0)) = Py.Ok tb ->
  Py.add tb (Py.get c "overall_sentiment_score" (Py.PInt 0)) = Py.Ok total ->
  Py.truediv total (Py.PInt 3) ≫= (fun q => Py.round q 3) = Py.Ok avg ->
  (exists recent,
     length recent = 3%nat /\
     FetchInfo.parse_news_sentiment today news_data symbol =
       Py.Ok (list_to_map [
         ("symbol", Py.PStr symbol);
         ("recent_news_count", Py.PInt 3);
         ("avg_sentiment_score", avg);
         ("positive_news_count", Py.PInt 2);
         ("negative_news_count", Py.PInt 1);
         ("recent_news", Py.PList recent)])) /\
  (forall acc d e,
     FetchInfo.parse_time_published (Py.get d "time_published" (Py.PStr "")) = Py.Raise e ->
     FetchInfo.news_step today acc (Py.PDict d) = Py.Ok acc).
Proof.
  intros Hfeed Hlen Hobj Hkept Hsum Hpos Hneg Hta Htb Htotal Havg. split.
  - assert (Hin : forall x, x ∈ [Py.PDict a; Py.PDict b; Py.PDict c] ->
                            FetchInfo.is_recent today x = true).
    { intros x Hx. rewrite <- Hkept in Hx. apply list_elem_of_In, filter_In in Hx.
      tauto. }
    assert (Hra : FetchInfo.is_recent today (Py.PDict a) = true) by (apply Hin; set_solver).
    assert (Hrb : FetchInfo.is_recent today (Py.PDict b) = true) by (apply Hin; set_solver).
    assert (Hrc : FetchInfo.is_recent today (Py.PDict c) = true) by (apply Hin; set_solver).
    apply Forall_cons in Hsum as [Ha Hsum].
    apply Forall_cons in Hsum as [Hb Hsum].
    apply Forall_cons in Hsum as [Hc _].
    destruct (news_step_counted today FetchInfo.news_acc0 a ta Hra Ha Hta) as [ea Hstep_a].
    lazymatch type of Hstep_a with
    | _ = Py.Ok ?acc1 =>
        destruct (news_step_counted today acc1 b tb Hrb Hb Htb) as [eb Hstep_b]
    end.
    lazymatch type of Hstep_b with
    | _ = Py.Ok ?acc2 =>
        destruct (news_step_counted today acc2 c total Hrc Hc Htotal) as [ec Hstep_c]
    end.
    exists [ea; eb; ec]. split; [reflexivity |].
    unfold FetchInfo.parse_news_sentiment.
    assert (Py.truthy (Py.PDict news_data) = true) as ->.
    { cbn. rewrite bool_decide_eq_false_2; [done |]. intros ->. done. }
    assert (Net.has news_data "feed" = true) as ->.
    { unfold Net.has. rewrite bool_decide_eq_true_2; [done |]. by rewrite Hfeed. }
    rewrite (get_Some _ _ (Py.PList []) _ Hfeed).
    assert (Py.truthy (Py.PList items) = true) as -> by by destruct items.
    cbn [negb orb].
    rewrite news_loop_filter, Hkept by assumption.
    cbn [FetchInfo.news_loop]. rewrite Hstep_a. cbn [mbind Py.result_bind].
    rewrite Hstep_b. cbn [mbind Py.result_bind].
    rewrite Hstep_c. cbn [mbind Py.result_bind].
    cbn [FetchInfo.recent_news FetchInfo.total_sentiment FetchInfo.positive_count
         FetchInfo.negative_count FetchInfo.news_acc0 app length].
    cbn [Py.truthy]. change (Z.of_nat 3) with 3.
    cbn [mbind Py.result_bind] in Havg. rewrite Havg.
    pose proof (label_exclusive (Py.PDict a)) as Ea.
    pose proof (label_exclusive (Py.PDict b)) as Eb.
    pose proof (label_exclusive (Py.PDict c)) as Ec.
    cbn [List.filter] in Hpos, Hneg.
    destruct (FetchInfo.has_label "positive" (Py.PDict a)),
             (FetchInfo.has_label "positive" (Py.PDict b)),
             (FetchInfo.has_label "positive" (Py.PDict c));
      try discriminate Hpos;
      try rewrite (Ea eq_refl) in *; try rewrite (Eb eq_refl) in *;
      try rewrite (Ec eq_refl) in *;
      destruct (FetchInfo.has_label "negative" (Py.PDict a)),
               (FetchInfo.has_label "negative" (Py.PDict b)),
               (FetchInfo.has_label "negative" (Py.PDict c));
      try discriminate Hneg; reflexivity.
  - intros acc d e He. unfold FetchInfo.news_step, FetchInfo.news_try.
    rewrite He. by destruct (Py.truthy _).
Qed.

(** [parse_daily_week_change] on the eight-day series: seven rows, the
    change from 10.0 (2024-08-30) to 12.5 (2024-09-09). *)
Lemma parse_daily_week_change_witness :
  let r := FetchInfo.parse_daily_data_for_week Samples.eight_days_body "600519.SHH" in
  length Samples.eight_days_rows = 7%nat /\
  Samples.field r "week_change" = Some (Py.PFloat 2.5) /\
  Samples.field r "week_change_percent" = Some (Py.PFloat 25).
Proof.
  destruct (parse_daily_week_change Samples.eight_days_body "600519.SHH") as [_ Hmain].
  destruct (Hmain Samples.eight_days_series Samples.eight_days_rows)
    as (_ & _ & _ & _ & _ & wc & wcp & Hparse & Hchange & _).
  - vm_compute. reflexivity.
  - intros Hempty.
    apply (f_equal (fun m : gmap string Py.pyval => m !! "2024-09-09")) in Hempty.
    vm_compute in Hempty. discriminate Hempty.
  - vm_compute. reflexivity.
  - cbv zeta. rewrite Hparse. split; [reflexivity |].
    edestruct Hchange as (Hwc & Hwcp & _);
      [vm_compute; lia | vm_compute; reflexivity | vm_compute; reflexivity |].
    rewrite Hwc, Hwcp by (vm_compute; reflexivity).
    split; vm_compute; reflexivity.
Defined.

(** C8 as stated fails: with an oldest close of zero [week_change] is
    the most recent close, 5.0, not 0; only [week_change_percent] is 0. *)
Lemma zero_oldest_close_keeps_week_change :
  let r := FetchInfo.parse_daily_data_for_week Samples.zero_close_body "600519.SHH" in
  Py.tofloat (Py.PStr "0.0") = Py.Ok 0%float /\
  Samples.field r "week_change" = Some (Py.PFloat 5) /\
  Samples.field r "week_change_percent" = Some (Py.PInt 0).
Proof. cbv zeta. split; [| split]; vm_compute; reflexivity. Qed.

(** [parse_news_sentiment_counts] on the feed whose three recent items
    come first, with the scores 1 (an [int]), none and 0.5: the sum is
    1.5 and the mean 0.5. *)
Lemma parse_news_sentiment_counts_witness :
  let r := FetchInfo.parse_news_sentiment Samples.noon Samples.feed_mixed_scores
             "600519.SHH" in
  Samples.field r "recent_news_count" = Some (Py.PInt 3) /\
  Samples.field r "avg_sentiment_score" = Some (Py.PFloat 0.5) /\
  Samples.field r "positive_news_count" = Some (Py.PInt 2) /\
  Samples.field r "negative_news_count" = Some (Py.PInt 1).
Proof.
  destruct (parse_news_sentiment_counts Samples.noon Samples.feed_mixed_scores
              "600519.SHH" Samples.mixed_items
              (Samples.scored_fields "20240909T093000" "positive" (Some (Py.PInt 1)))
              (Samples.scored_fields "20240908T093000" "negative" None)
              (Samples.scored_fields "20240905T093000" "positive" (Some (Py.PFloat 0.5)))
              (Py.PInt 1) (Py.PInt 1) (Py.PFloat 1.5) (Py.PFloat 0.5))
    as [(recent & _ & Hparse) _].
  - vm_compute. reflexivity.
  - vm_compute. reflexivity.
  - vm_compute. repeat constructor.
  - vm_compute. reflexivity.
  - repeat constructor; eexists; vm_compute; reflexivity.
  - vm_compute. reflexivity.
  - vm_compute. reflexivity.
  - vm_compute. reflexivity.
  - vm_compute. reflexivity.
  - vm_compute. reflexivity.
  - vm_compute. reflexivity.
  - cbv zeta. rewrite Hparse. repeat split; vm_compute; reflexivity.
Defined.

(** C9 as stated fails: in a feed of twelve items whose three recent
    items come last, only the tenth item is looked at, and
    [recent_news_count] is 1. *)
Lemma recent_items_after_the_tenth_are_ignored :
  let r := FetchInfo.parse_news_sentiment Samples.noon Samples.feed_recent_last
             "600519.SHH" in
  Samples.field r "recent_news_count" = Some (Py.PInt 1) /\
  Samples.field r "positive_news_count" = Some (Py.PInt 1) /\
  Samples.field r "negative_news_count" = Some (Py.PInt 0).
Proof. cbv zeta. split; [| split]; vm_compute; reflexivity. Qed.

(* ========================================================================= *)
(** * Part III. Further properties of the code *)

(** ** The rate limiter at full rate *)



(** ** The shape of a call of a fetcher *)
Section FetcherShape.
Import Py Net.

Lemma attempts_trace_cons (r : request) (p : option Z) (ps : list (option Z)) :
  attempts_trace r (p :: ps) = attempt_events r p ++ attempts_trace r ps.
Proof. reflexivity. Qed.

Lemma requests_attempts_trace (r : request) (ps : list (option Z)) :
  requests (attempts_trace r ps) = replicate (length ps) r.
Proof.
  induction ps as [| p ps IH]; [reflexivity |].
  rewrite attempts_trace_cons, requests_app, IH. by destruct p.
Qed.

(** A loop whose turns each make one attempt makes at most [n], and one
    at least unless [n] is zero. *)
Lemma for_attempts_shape {A : Type} (body : Z -> io (option A)) (r : request)
    (ok : option Z -> Prop) :
  (forall a w, 1 <= a ->
     exists p, (body a w).2 = extend w (attempt_events r p) /\ ok p) ->
  forall (n : nat) (first : Z) (w : world),
    1 <= first ->
    exists ps,
      (for_attempts body first n w).2 = extend w (attempts_trace r ps) /\
      (Nat.min 1 n <= length ps <= n)%nat /\ Forall ok ps.
Proof.
  intros Hbody n. induction n as [| n IH]; intros first w Hfirst.
  - exists []. cbn. by rewrite extend_nil.
  - cbn [for_attempts]. rewrite io_bind_run.
    destruct (Hbody first w Hfirst) as (p & Hw & Hp).
    destruct (body first w) as [[[a |] | e] w1]; cbn [snd] in Hw; subst w1.
    + exists [p]. cbn. rewrite app_nil_r. repeat split; [lia | lia | by constructor].
    + destruct (IH (first + 1) (extend w (attempt_events r p))) as (ps & Hw' & Hn & Hps);
        [lia |].
      exists (p :: ps). rewrite Hw', extend_extend.
      repeat split; [cbn; lia | cbn; lia | by constructor].
    + exists [p]. cbn. rewrite app_nil_r. repeat split; [lia | lia | by constructor].
Qed.

Lemma data_attempt_shape (symbol : string) (r : request) (a : Z) (w : world) :
  1 <= a ->
  exists p,
    (FetchInfo.data_attempt symbol r a w).2 = extend w (attempt_events r p) /\
    (forall z, p = Some z -> 2 <= z <= 60).
Proof.
  intros Ha. rewrite data_attempt_run.
  destruct (next_response w r) as [| status_code [data |]];
    repeat match goal with |- context [if ?c then _ else _] => destruct c end;
    cbn [snd];
    first [ exists None; split; [reflexivity | intros z [=]]
          | eexists (Some _); split; [reflexivity | intros z [= <-]; lia] ].
Qed.

Lemma daily_attempt_shape (symbol : string) (r : request) (a : Z) (w : world) :
  1 <= a ->
  exists p,
    (FetchShares.daily_attempt symbol r a w).2 = extend w (attempt_events r p) /\
    (forall z, p = Some z -> 2 <= z <= 75).
Proof.
  intros Ha. rewrite daily_attempt_run.
  destruct (next_response w r) as [| status_code [data |]];
    repeat match goal with |- context [if ?c then _ else _] => destruct c end;
    cbn [snd];
    first [ exists None; split; [reflexivity | intros z [=]]
          | eexists (Some _); split; [reflexivity | intros z [= <-]; lia] ].
Qed.

(** A call of [fetch_alpha_vantage_data]: its attempts and nothing else. *)
Lemma fetch_data_shape (function symbol api_key : string)
    (extra_params : gmap string string) (max_retries timeout_s : Z) (w : world) :
  exists pauses,
    (FetchInfo.fetch_alpha_vantage_data function symbol api_key extra_params
       max_retries timeout_s w).2 =
      extend w
        (attempts_trace
           (FetchInfo.data_request function symbol api_key extra_params timeout_s)
           pauses) /\
    (Nat.min 1 (Z.to_nat max_retries) <= length pauses <= Z.to_nat max_retries)%nat /\
    Forall (fun p => forall z, p = Some z -> 2 <= z <= 60) pauses.
Proof.
  unfold FetchInfo.fetch_alpha_vantage_data. rewrite io_bind_run.
  set (req := FetchInfo.data_request _ _ _ _ _).
  destruct (for_attempts_shape (FetchInfo.data_attempt symbol req) req _
              (data_attempt_shape symbol req) (Z.to_nat max_retries) 1 w)
    as (ps & Hw & Hn & Hps); [lia |].
  exists ps.
  destruct (for_attempts _ _ _ w) as [[[data |] | e] w1]; cbn [snd] in *; by subst.
Qed.

(** A call of [fetch_alpha_vantage_daily]: its attempts and nothing else. *)
Lemma fetch_daily_shape (symbol api_key outputsize function_name : string)
    (max_retries timeout_s : Z) (w : world) :
  exists pauses,
    (FetchShares.fetch_alpha_vantage_daily symbol api_key outputsize function_name
       max_retries timeout_s w).2 =
      extend w
        (attempts_trace
           (FetchShares.daily_request symbol api_key outputsize function_name timeout_s)
           pauses) /\
    (Nat.min 1 (Z.to_nat max_retries) <= length pauses <= Z.to_nat max_retries)%nat /\
    Forall (fun p => forall z, p = Some z -> 2 <= z <= 75) pauses.
Proof.
  unfold FetchShares.fetch_alpha_vantage_daily. rewrite io_bind_run.
  set (req := FetchShares.daily_request _ _ _ _ _).
  destruct (for_attempts_shape (FetchShares.daily_attempt symbol req) req _
              (daily_attempt_shape symbol req) (Z.to_nat max_retries) 1 w)
    as (ps & Hw & Hn & Hps); [lia |].
  exists ps.
  destruct (for_attempts _ _ _ w) as [[[data |] | e] w1]; cbn [snd] in *; by subst.
Qed.

End FetcherShape.

(** X2.  Whatever the upstream answers, a call of either fetcher is a
    sequence of attempts, at most [max_retries] of them and one at least
    when [max_retries] is positive, each made of one acquisition of the
    rate limiter followed by one request, always the same, and possibly
    one sleep, of 2 to 60 seconds in [fetch_alpha_vantage_data] and of 2
    to 75 seconds in [fetch_alpha_vantage_daily]; nothing else happens. *)
Theorem fetch_is_paced (function symbol api_key outputsize function_name : string)
    (extra_params : gmap string string) (max_retries timeout_s : Z) (w : Net.world) :
  (exists pauses,
     (FetchInfo.fetch_alpha_vantage_data function symbol api_key extra_params
        max_retries timeout_s w).2 =
       Net.extend w
         (Net.attempts_trace
            (FetchInfo.data_request function symbol api_key extra_params timeout_s)
            pauses) /\
     (Nat.min 1 (Z.to_nat max_retries) <= length pauses <= Z.to_nat max_retries)%nat /\
     Forall (fun p => forall z, p = Some z -> 2 <= z <= 60) pauses) /\
  (exists pauses,
     (FetchShares.fetch_alpha_vantage_daily symbol api_key outputsize function_name
        max_retries timeout_s w).2 =
       Net.extend w
         (Net.attempts_trace
            (FetchShares.daily_request symbol api_key outputsize function_name timeout_s)
            pauses) /\
     (Nat.min 1 (Z.to_nat max_retries) <= length pauses <= Z.to_nat max_retries)%nat /\
     Forall (fun p => forall z, p = Some z -> 2 <= z <= 75) pauses).
Proof. split; [apply fetch_data_shape | apply fetch_daily_shape]. Qed.

(** ** What the fetchers return *)
Section FetcherReturns.
Import Py Net.

(** A loop that returns a value returned it from one of its turns, run
    in a later state of the same world. *)
Lemma for_attempts_Some_from {A : Type} (body : Z -> io (option A)) (n : nat) :
  (forall a w, exists evs, (body a w).2 = extend w evs) ->
  forall (first : Z) (w w' : world) (a : A),
    for_attempts body first n w = (Ok (Some a), w') ->
    exists attempt evs w2, body attempt (extend w evs) = (Ok (Some a), w2).
Proof.
  intros Hext. induction n as [| n IH]; intros first w w' a; cbn [for_attempts].
  - discriminate.
  - rewrite io_bind_run. destruct (Hext first w) as [evs Hevs].
    destruct (body first w) as [[[b |] | e] w1] eqn:Hb; cbn [snd] in Hevs; intros Hr.
    + injection Hr as -> ->. exists first, [], w'. by rewrite extend_nil.
    + subst w1. apply IH in Hr as (attempt & evs' & w2 & Hbody).
      exists attempt, (evs ++ evs'), w2. by rewrite <- extend_extend.
    + discriminate.
Qed.

Lemma data_attempt_extends (symbol : string) (r : request) (a : Z) (w : world) :
  exists evs, (FetchInfo.data_attempt symbol r a w).2 = extend w evs.
Proof. destruct (data_attempt_starts symbol r a w) as [evs ->]. eauto. Qed.

Lemma daily_attempt_extends (symbol : string) (r : request) (a : Z) (w : world) :
  exists evs, (FetchShares.daily_attempt symbol r a w).2 = extend w evs.
Proof.
  rewrite daily_attempt_run.
  destruct (next_response w r) as [| status_code [data |]];
    repeat match goal with |- context [if ?c then _ else _] => destruct c end;
    cbn [snd]; eauto.
Qed.

End FetcherReturns.

(** X3.  A body returned by either fetcher is the decoded body of a 200
    answer the upstream gave to the request of the call, and it has none
    of the keys [Note], [Information] and [Error Message]: a throttling
    notice or an error payload is never handed to a parser. *)
Theorem fetch_returns_upstream_body (function symbol api_key outputsize function_name : string)
    (extra_params : gmap string string) (max_retries timeout_s : Z)
    (w w' : Net.world) (data : gmap string Py.pyval) :
  (FetchInfo.fetch_alpha_vantage_data function symbol api_key extra_params
     max_retries timeout_s w = (Py.Ok data, w') ->
   Net.clean data /\
   exists k,
     Net.transport w k
       (FetchInfo.data_request function symbol api_key extra_params timeout_s) =
     Net.Response 200 (Some data)) /\
  (FetchShares.fetch_alpha_vantage_daily symbol api_key outputsize function_name
     max_retries timeout_s w = (Py.Ok data, w') ->
   Net.clean data /\
   exists k,
     Net.transport w k
       (FetchShares.daily_request symbol api_key outputsize function_name timeout_s) =
     Net.Response 200 (Some data)).
Proof.
  split.
  - unfold FetchInfo.fetch_alpha_vantage_data. rewrite io_bind_run.
    set (req := FetchInfo.data_request _ _ _ _ _).
    destruct (Net.for_attempts _ 1 _ w) as [[[d |] | e] w1] eqn:Hloop;
      cbn; intros Hr; try discriminate.
    injection Hr as -> ->.
    apply for_attempts_Some_from in Hloop as (a & evs & w2 & Hbody);
      [| apply data_attempt_extends].
    rewrite data_attempt_run in Hbody. unfold Net.next_response in Hbody at 1.
    cbn [Net.transport Net.extend] in Hbody.
    destruct (Net.transport w _ req) as [| status_code [body |]] eqn:Hresp;
      try discriminate.
    + destruct (status_code =? 200) eqn:Hst; [| discriminate]. cbn [negb] in Hbody.
      apply Z.eqb_eq in Hst as ->.
      destruct (Net.has body "Note" || Net.has body "Information") eqn:Hthr;
        [discriminate |].
      destruct (Net.has body "Error Message") eqn:Herr; [discriminate |].
      injection Hbody as -> _. apply orb_false_iff in Hthr as [Hn Hi].
      split; [by repeat split | eauto].
    + by destruct (negb _).
  - unfold FetchShares.fetch_alpha_vantage_daily. rewrite io_bind_run.
    set (req := FetchShares.daily_request _ _ _ _ _).
    destruct (Net.for_attempts _ 1 _ w) as [[[d |] | e] w1] eqn:Hloop;
      cbn; intros Hr; try discriminate.
    injection Hr as -> ->.
    apply for_attempts_Some_from in Hloop as (a & evs & w2 & Hbody);
      [| apply daily_attempt_extends].
    rewrite daily_attempt_run in Hbody. unfold Net.next_response in Hbody at 1.
    cbn [Net.transport Net.extend] in Hbody.
    destruct (Net.transport w _ req) as [| status_code [body |]] eqn:Hresp;
      try discriminate.
    + destruct (status_code =? 200) eqn:Hst; [| discriminate]. cbn [negb] in Hbody.
      apply Z.eqb_eq in Hst as ->.
      destruct (Net.has body "Note" || Net.has body "Information") eqn:Hthr;
        [discriminate |].
      destruct (Net.has body "Error Message") eqn:Herr; [discriminate |].
      destruct (Net.has body "Time Series (Daily)"); [| discriminate].
      injection Hbody as -> _. apply orb_false_iff in Hthr as [Hn Hi].
      split; [by repeat split | eauto].
    + by destruct (negb _).
Qed.

(** Against the one-day series both fetchers return it. *)
Lemma fetch_returns_upstream_body_witness :
  let w := Samples.always (Net.Response 200 (Some Samples.one_day_body)) in
  Net.clean Samples.one_day_body /\
  exists k,
    Net.transport w k (FetchInfo.data_request "TIME_SERIES_DAILY" "600519.SHH" "k" ∅ 20) =
    Net.Response 200 (Some Samples.one_day_body).
Proof.
  intros w.
  destruct (fetch_returns_upstream_body "TIME_SERIES_DAILY" "600519.SHH" "k" "full"
              "TIME_SERIES_DAILY" ∅ 3 20 w
              (Net.extend w [Net.Wait;
                             Net.Get (FetchInfo.data_request "TIME_SERIES_DAILY"
                                        "600519.SHH" "k" ∅ 20)])
              Samples.one_day_body) as [Hdata _].
  apply Hdata. vm_compute. reflexivity.
Defined.

(** ** Throttling and recovery *)
Section ThrottleFacts.
Import Py Net.

Lemma paced_trace_succ (pause : Z -> Z) (r : request) (first : Z) (n : nat) :
  paced_trace pause r first (S n) =
  [Wait; Get r; Sleep (pause first)] ++ paced_trace pause r (first + 1) n.
Proof.
  unfold paced_trace. rewrite seqZ_cons by lia. cbn [mbind list_bind].
  replace (Z.pred (Z.of_nat (S n))) with (Z.of_nat n) by lia.
  by replace (Z.succ first) with (first + 1) by lia.
Qed.

Lemma requests_paced_trace (pause : Z -> Z) (r : request) (n : nat) : forall first,
  requests (paced_trace pause r first n) = replicate n r.
Proof.
  induction n as [| n IH]; intros first; [reflexivity |].
  rewrite paced_trace_succ, requests_app, IH. reflexivity.
Qed.

Lemma sleeps_paced_trace (pause : Z -> Z) (r : request) (n : nat) : forall first,
  sleeps (paced_trace pause r first n) = pause <$> seqZ first (Z.of_nat n).
Proof.
  induction n as [| n IH]; intros first; [reflexivity |].
  rewrite paced_trace_succ. unfold sleeps in *. rewrite omap_app, IH.
  rewrite (seqZ_cons first) by lia. cbn.
  replace (Z.pred (Z.of_nat (S n))) with (Z.of_nat n) by lia.
  by replace (Z.succ first) with (first + 1) by lia.
Qed.

(** A loop whose every turn meets an answer of one kind and sleeps. *)
Lemma for_attempts_all_paced {A : Type} (body : Z -> io (option A))
    (pause : Z -> Z) (r : request) (kind : response -> Prop) :
  (forall a w, kind (next_response w r) ->
     body a w = (Ok None, extend w [Wait; Get r; Sleep (pause a)])) ->
  forall (n : nat) (first : Z) (w : world),
    (forall k r', kind (transport w k r')) ->
    for_attempts body first n w = (Ok None, extend w (paced_trace pause r first n)).
Proof.
  intros Hbody n. induction n as [| n IH]; intros first w Hw.
  - cbn. by rewrite extend_nil.
  - cbn [for_attempts]. rewrite io_bind_run.
    rewrite Hbody by apply Hw.
    rewrite IH by apply Hw.
    by rewrite extend_extend, paced_trace_succ.
Qed.

Lemma data_attempt_throttled (symbol : string) (r : request) (a : Z) (w : world) :
  throttled (next_response w r) ->
  FetchInfo.data_attempt symbol r a w =
    (Ok None, extend w [Wait; Get r; Sleep (Z.min 60 (15 * a))]).
Proof.
  intros Hw. rewrite data_attempt_run.
  destruct (next_response w r) as [| status_code [data |]]; try done;
    cbn in Hw; repeat case_match; try done; by simplify_eq.
Qed.

Lemma daily_attempt_throttled (symbol : string) (r : request) (a : Z) (w : world) :
  throttled (next_response w r) ->
  FetchShares.daily_attempt symbol r a w =
    (Ok None, extend w [Wait; Get r; Sleep (Z.min 75 (10 * a))]).
Proof.
  intros Hw. rewrite daily_attempt_run.
  destruct (next_response w r) as [| status_code [data |]]; try done;
    cbn in Hw; repeat case_match; try done; by simplify_eq.
Qed.

(** A loop that meets [k] failing answers and then an acceptable one. *)
Lemma for_attempts_recovers {A : Type} (body : Z -> io (option A))
    (cap : Z) (r : request) (a : A) (good : response) :
  (forall at_ w, failing (next_response w r) ->
     body at_ w = (Ok None, extend w [Wait; Get r; Sleep (Z.min cap (at_ * 2))])) ->
  (forall at_ w, next_response w r = good ->
     body at_ w = (Ok (Some a), extend w [Wait; Get r])) ->
  forall (k n : nat) (first : Z) (w : world),
    (k < n)%nat ->
    (forall j, (j < k)%nat ->
       failing (transport w (length (requests (trace w)) + j) r)) ->
    transport w (length (requests (trace w)) + k) r = good ->
    for_attempts body first n w =
      (Ok (Some a), extend w (backoff_trace cap r first k ++ [Wait; Get r])).
Proof.
  intros Hfail Hgood k. induction k as [| k IH]; intros n first w Hn Hbad Hok.
  - destruct n as [| n]; [lia |]. cbn [for_attempts]. rewrite io_bind_run.
    rewrite Hgood; [reflexivity |].
    unfold next_response. by rewrite <- Hok, Nat.add_0_r.
  - destruct n as [| n]; [lia |]. cbn [for_attempts]. rewrite io_bind_run.
    rewrite Hfail.
    2:{ unfold next_response. rewrite <- (Nat.add_0_r (length _)). apply Hbad. lia. }
    rewrite (IH n (first + 1)); [| lia | |].
    + by rewrite extend_extend, backoff_trace_succ, <- app_assoc.
    + intros j Hj. cbn [transport extend trace].
      rewrite requests_app, length_app. cbn.
      replace (length (requests (trace w)) + 1 + j)%nat
        with (length (requests (trace w)) + S j)%nat by lia.
      apply Hbad. lia.
    + cbn [transport extend trace]. rewrite requests_app, length_app. cbn.
      by replace (length (requests (trace w)) + 1 + k)%nat
        with (length (requests (trace w)) + S k)%nat by lia.
Qed.

End ThrottleFacts.

(** X4.  A 200 answer whose body has the key [Note] or [Information] is
    a throttling notice whatever else the body holds: the attempt sleeps
    [min(60, 15 * attempt)] seconds in [fetch_alpha_vantage_data] and
    [min(75, 10 * attempt)] seconds in [fetch_alpha_vantage_daily] and
    goes on.  Against an upstream that always throttles, both fetchers
    use their whole budget and raise the [RuntimeError]. *)
Theorem throttle_backoff (function symbol api_key outputsize function_name : string)
    (extra_params : gmap string string) (max_retries timeout_s attempt : Z)
    (w : Net.world) :
  let req_data := FetchInfo.data_request function symbol api_key extra_params timeout_s in
  let req_daily :=
    FetchShares.daily_request symbol api_key outputsize function_name timeout_s in
  (Net.throttled (Net.next_response w req_data) ->
     FetchInfo.data_attempt symbol req_data attempt w =
       (Py.Ok None,
        Net.extend w [Net.Wait; Net.Get req_data; Net.Sleep (Z.min 60 (15 * attempt))])) /\
  (Net.throttled (Net.next_response w req_daily) ->
     FetchShares.daily_attempt symbol req_daily attempt w =
       (Py.Ok None,
        Net.extend w [Net.Wait; Net.Get req_daily; Net.Sleep (Z.min 75 (10 * attempt))])) /\
  ((forall k r, Net.throttled (Net.transport w k r)) ->
     FetchInfo.fetch_alpha_vantage_data function symbol api_key extra_params
       max_retries timeout_s w =
       (Py.Raise (Py.RuntimeError_retries symbol (Some function) max_retries),
        Net.extend w (Net.paced_trace (fun a => Z.min 60 (15 * a)) req_data 1
                        (Z.to_nat max_retries))) /\
     FetchShares.fetch_alpha_vantage_daily symbol api_key outputsize function_name
       max_retries timeout_s w =
       (Py.Raise (Py.RuntimeError_retries symbol None max_retries),
        Net.extend w (Net.paced_trace (fun a => Z.min 75 (10 * a)) req_daily 1
                        (Z.to_nat max_retries)))).
Proof.
  intros req_data req_daily. split; [apply data_attempt_throttled |].
  split; [apply daily_attempt_throttled |].
  intros Hw. split.
  - unfold FetchInfo.fetch_alpha_vantage_data. rewrite io_bind_run. fold req_data.
    by rewrite (for_attempts_all_paced _ (fun a => Z.min 60 (15 * a)) req_data
                  Net.throttled (data_attempt_throttled symbol req_data)).
  - unfold FetchShares.fetch_alpha_vantage_daily. rewrite io_bind_run. fold req_daily.
    by rewrite (for_attempts_all_paced _ (fun a => Z.min 75 (10 * a)) req_daily
                  Net.throttled (daily_attempt_throttled symbol req_daily)).
Qed.

(** Against an upstream that always sends the note together with an
    error message, five attempts of [fetch_alpha_vantage_data] sleep 15,
    30, 45, 60 and 60 seconds. *)
Lemma throttle_backoff_witness :
  let w := Samples.always (Net.Response 200 (Some Samples.error_and_note_body)) in
  let run := FetchInfo.fetch_alpha_vantage_data "OVERVIEW" "600519.SHH" "k" ∅ 5 20 w in
  run.1 = Py.Raise (Py.RuntimeError_retries "600519.SHH" (Some "OVERVIEW") 5) /\
  Net.sleeps (Net.trace run.2) = [15; 30; 45; 60; 60].
Proof.
  intros w run.
  destruct (throttle_backoff "OVERVIEW" "600519.SHH" "k" "full" "TIME_SERIES_DAILY"
              ∅ 5 20 1 w) as (_ & _ & Hall).
  destruct Hall as [Hdata _]; [intros k r; vm_compute; reflexivity |].
  subst run. rewrite Hdata. split; vm_compute; reflexivity.
Defined.

(** X5.  A call recovers from transient failures: when the answers to
    its first [k] requests are HTTP errors or network failures, [k]
    being below the budget, and the next answer is a 200 with an
    acceptable body, the fetcher returns that body after [k + 1]
    requests, having slept [min(cap, attempt * 2)] seconds after each of
    the failed attempts ([cap] is 30 for [fetch_alpha_vantage_data] and
    60 for [fetch_alpha_vantage_daily], which also wants the key
    [Time Series (Daily)]). *)
Theorem fetch_recovers_after_failures
    (function symbol api_key outputsize function_name : string)
    (extra_params : gmap string string) (max_retries timeout_s : Z)
    (w : Net.world) (k : nat) (data : gmap string Py.pyval) :
  let req_data := FetchInfo.data_request function symbol api_key extra_params timeout_s in
  let req_daily :=
    FetchShares.daily_request symbol api_key outputsize function_name timeout_s in
  let rank := length (Net.requests (Net.trace w)) in
  (k < Z.to_nat max_retries)%nat ->
  Net.clean data ->
  ((forall j, (j < k)%nat -> Net.failing (Net.transport w (rank + j) req_data)) ->
   Net.transport w (rank + k) req_data = Net.Response 200 (Some data) ->
   FetchInfo.fetch_alpha_vantage_data function symbol api_key extra_params
     max_retries timeout_s w =
     (Py.Ok data,
      Net.extend w (Net.backoff_trace 30 req_data 1 k ++ [Net.Wait; Net.Get req_data]))) /\
  ((forall j, (j < k)%nat -> Net.failing (Net.transport w (rank + j) req_daily)) ->
   Net.transport w (rank + k) req_daily = Net.Response 200 (Some data) ->
   Net.has data "Time Series (Daily)" = true ->
   FetchShares.fetch_alpha_vantage_daily symbol api_key outputsize function_name
     max_retries timeout_s w =
     (Py.Ok data,
      Net.extend w (Net.backoff_trace 60 req_daily 1 k ++ [Net.Wait; Net.Get req_daily]))).
Proof.
  intros req_data req_daily rank Hk (Hnote & Hinfo & Herr). split.
  - intros Hbad Hok.
    unfold FetchInfo.fetch_alpha_vantage_data. rewrite io_bind_run. fold req_data.
    rewrite (for_attempts_recovers (FetchInfo.data_attempt symbol req_data) 30 req_data
               data (Net.Response 200 (Some data))) with (k := k); try done.
    + intros a w0 [Hf | Hf]; [by apply data_attempt_http_error |].
      by rewrite data_attempt_run, Hf.
    + intros a w0 Hresp. rewrite data_attempt_run, Hresp. cbn.
      by rewrite Hnote, Hinfo, Herr.
  - intros Hbad Hok Hts.
    unfold FetchShares.fetch_alpha_vantage_daily. rewrite io_bind_run. fold req_daily.
    rewrite (for_attempts_recovers (FetchShares.daily_attempt symbol req_daily) 60
               req_daily data (Net.Response 200 (Some data))) with (k := k); try done.
    + intros a w0 [Hf | Hf]; [by apply daily_attempt_http_error |].
      by rewrite daily_attempt_run, Hf.
    + intros a w0 Hresp. rewrite daily_attempt_run, Hresp. cbn.
      by rewrite Hnote, Hinfo, Herr, Hts.
Qed.

(** An upstream that fails twice and then answers. *)
Lemma fetch_recovers_after_failures_witness :
  let w := {| Net.transport := fun n _ =>
                if (n <? 2)%nat then Samples.http_500
                else Net.Response 200 (Some Samples.one_day_body);
              Net.now := Samples.noon; Net.trace := [] |} in
  let run := FetchShares.fetch_alpha_vantage_daily "600519.SHH" "k" "full"
               "TIME_SERIES_DAILY" 5 30 w in
  run.1 = Py.Ok Samples.one_day_body /\
  Net.attempts w run.2 = 3%nat /\
  Net.sleeps (Net.trace run.2) = [2; 4].
Proof.
  intros w run.
  destruct (fetch_recovers_after_failures "TIME_SERIES_DAILY" "600519.SHH" "k" "full"
              "TIME_SERIES_DAILY" ∅ 5 30 w 2 Samples.one_day_body) as [_ Hdaily].
  - vm_compute. lia.
  - vm_compute. by repeat split.
  - subst run. rewrite Hdaily.
    + repeat split; vm_compute; reflexivity.
    + intros j Hj. left. destruct j as [| [| j]]; [cbn; lia | cbn; lia | lia].
    + vm_compute. reflexivity.
    + vm_compute. reflexivity.
Defined.

(** ** How the fetchers fail *)
Section FetcherFailures.
Import Py Net.

(** A loop that raises, raises from one of its turns. *)
Lemma for_attempts_Raise_from {A : Type} (body : Z -> io (option A)) (n : nat) :
  (forall a w, exists evs, (body a w).2 = extend w evs) ->
  forall (first : Z) (w w' : world) (e : exn),
    for_attempts body first n w = (Raise e, w') ->
    exists attempt evs w2, body attempt (extend w evs) = (Raise e, w2).
Proof.
  intros Hext. induction n as [| n IH]; intros first w w' e; cbn [for_attempts].
  - discriminate.
  - rewrite io_bind_run. destruct (Hext first w) as [evs Hevs].
    destruct (body first w) as [[[b |] | e0] w1] eqn:Hb; cbn [snd] in Hevs; intros Hr.
    + discriminate.
    + subst w1. apply IH in Hr as (attempt & evs' & w2 & Hbody).
      exists attempt, (evs ++ evs'), w2. by rewrite <- extend_extend.
    + injection Hr as -> ->. exists first, [], w'. by rewrite extend_nil.
Qed.

(** A loop that uses up its turns made [n] attempts, each followed by
    a sleep. *)
Lemma for_attempts_None_trace {A : Type} (body : Z -> io (option A)) (r : request) :
  (forall a w w1, body a w = (Ok None, w1) ->
     exists z, w1 = extend w (attempt_events r (Some z))) ->
  forall (n : nat) (first : Z) (w w' : world),
    for_attempts body first n w = (Ok None, w') ->
    exists zs, w' = extend w (attempts_trace r (Some <$> zs)) /\ length zs = n.
Proof.
  intros Hbody n. induction n as [| n IH]; intros first w w'; cbn [for_attempts].
  - intros [= <-]. exists []. cbn. by rewrite extend_nil.
  - rewrite io_bind_run.
    destruct (body first w) as [[[b |] | e0] w1] eqn:Hb; intros Hr; try discriminate.
    destruct (Hbody _ _ _ Hb) as [z ->].
    apply IH in Hr as (zs & -> & Hn).
    exists (z :: zs). rewrite extend_extend. split; [reflexivity | by rewrite <- Hn].
Qed.

Lemma data_attempt_None (symbol : string) (r : request) (a : Z) (w w1 : world) :
  FetchInfo.data_attempt symbol r a w = (Ok None, w1) ->
  exists z, w1 = extend w (attempt_events r (Some z)).
Proof.
  rewrite data_attempt_run.
  destruct (next_response w r) as [| status_code [data |]];
    repeat match goal with |- context [if ?c then _ else _] => destruct c end;
    intros [= <-]; eauto.
Qed.

Lemma daily_attempt_None (symbol : string) (r : request) (a : Z) (w w1 : world) :
  FetchShares.daily_attempt symbol r a w = (Ok None, w1) ->
  exists z, w1 = extend w (attempt_events r (Some z)).
Proof.
  rewrite daily_attempt_run.
  destruct (next_response w r) as [| status_code [data |]];
    repeat match goal with |- context [if ?c then _ else _] => destruct c end;
    intros [= <-]; eauto.
Qed.

End FetcherFailures.

(** X6.  What a failure of either fetcher tells.  A
    [requests.RequestException] (a transport failure, or a body that
    does not decode) never leaves a fetcher.  When the fetcher raises
    the [RuntimeError] of the exhausted budget, it has made exactly
    [max_retries] attempts, each followed by a sleep.  When it raises
    the [ValueError] of an upstream error, the exception names the
    symbol of the call and its message is the [Error Message] of a 200
    answer that the upstream gave to the request of the call. *)
Theorem fetch_failures (function symbol api_key outputsize function_name : string)
    (extra_params : gmap string string) (max_retries timeout_s : Z) (w : Net.world) :
  let fetch_data :=
    FetchInfo.fetch_alpha_vantage_data function symbol api_key extra_params
      max_retries timeout_s in
  let fetch_daily :=
    FetchShares.fetch_alpha_vantage_daily symbol api_key outputsize function_name
      max_retries timeout_s in
  let req_data := FetchInfo.data_request function symbol api_key extra_params timeout_s in
  let req_daily :=
    FetchShares.daily_request symbol api_key outputsize function_name timeout_s in
  match (fetch_data w).1 with
  | Py.Ok _ => True
  | Py.Raise e =>
      e <> Py.RequestException /\
      (forall s f n, e = Py.RuntimeError_retries s f n ->
         s = symbol /\ f = Some function /\ n = max_retries /\
         exists zs, (fetch_data w).2 = Net.extend w (Net.attempts_trace req_data (Some <$> zs)) /\
                    length zs = Z.to_nat max_retries) /\
      (forall s message, e = Py.ValueError_api s message ->
         s = symbol /\
         exists k data,
           Net.transport w k req_data = Net.Response 200 (Some data) /\
           Net.has data "Error Message" = true /\
           message = Py.get data "Error Message" Py.PNone)
  end /\
  match (fetch_daily w).1 with
  | Py.Ok _ => True
  | Py.Raise e =>
      e <> Py.RequestException /\
      (forall s f n, e = Py.RuntimeError_retries s f n ->
         s = symbol /\ f = None /\ n = max_retries /\
         exists zs, (fetch_daily w).2 = Net.extend w (Net.attempts_trace req_daily (Some <$> zs)) /\
                    length zs = Z.to_nat max_retries) /\
      (forall s message, e = Py.ValueError_api s message ->
         s = symbol /\
         exists k data,
           Net.transport w k req_daily = Net.Response 200 (Some data) /\
           Net.has data "Error Message" = true /\
           message = Py.get data "Error Message" Py.PNone)
  end.
Proof.
  intros fetch_data fetch_daily req_data req_daily. split.
  - subst fetch_data. unfold FetchInfo.fetch_alpha_vantage_data. rewrite io_bind_run.
    fold req_data.
    destruct (Net.for_attempts _ 1 _ w) as [[[d |] | e] w1] eqn:Hloop; cbn [fst snd]; [done | |].
    + split; [discriminate |]. split; [| discriminate].
      intros s f n [= <- <- <-]. repeat split.
      apply (for_attempts_None_trace _ req_data (data_attempt_None symbol req_data))
        in Hloop as (zs & -> & Hn). by exists zs.
    + apply for_attempts_Raise_from in Hloop as (a & evs & w2 & Hbody);
        [| apply data_attempt_extends].
      rewrite data_attempt_run in Hbody. unfold Net.next_response in Hbody at 1.
      cbn [Net.transport Net.extend] in Hbody.
      destruct (Net.transport w _ req_data) as [| status_code [body |]] eqn:Hresp;
        try discriminate.
      * destruct (status_code =? 200) eqn:Hst; [| discriminate]. cbn [negb] in Hbody.
        apply Z.eqb_eq in Hst as ->.
        destruct (Net.has body "Note" || Net.has body "Information"); [discriminate |].
        destruct (Net.has body "Error Message") eqn:Herr; [| discriminate].
        injection Hbody as <- _.
        split; [discriminate |]. split; [discriminate |].
        intros s message [= <- <-]. split; [reflexivity | eauto].
      * by destruct (negb _).
  - subst fetch_daily. unfold FetchShares.fetch_alpha_vantage_daily. rewrite io_bind_run.
    fold req_daily.
    destruct (Net.for_attempts _ 1 _ w) as [[[d |] | e] w1] eqn:Hloop; cbn [fst snd]; [done | |].
    + split; [discriminate |]. split; [| discriminate].
      intros s f n [= <- <- <-]. repeat split.
      apply (for_attempts_None_trace _ req_daily (daily_attempt_None symbol req_daily))
        in Hloop as (zs & -> & Hn). by exists zs.
    + apply for_attempts_Raise_from in Hloop as (a & evs & w2 & Hbody);
        [| apply daily_attempt_extends].
      rewrite daily_attempt_run in Hbody. unfold Net.next_response in Hbody at 1.
      cbn [Net.transport Net.extend] in Hbody.
      destruct (Net.transport w _ req_daily) as [| status_code [body |]] eqn:Hresp;
        try discriminate.
      * destruct (status_code =? 200) eqn:Hst; [| discriminate]. cbn [negb] in Hbody.
        apply Z.eqb_eq in Hst as ->.
        destruct (Net.has body "Note" || Net.has body "Information"); [discriminate |].
        destruct (Net.has body "Error Message") eqn:Herr;
          [| destruct (Net.has body "Time Series (Daily)"); discriminate].
        injection Hbody as <- _.
        split; [discriminate |]. split; [discriminate |].
        intros s message [= <- <-]. split; [reflexivity | eauto].
      * by destruct (negb _).
Qed.

(** ** The quote and overview parsers *)
Section QuoteFacts.
Import Py Net.
Context `{Builtins}.

Lemma remove_char_contains (c : ascii) (s : string) :
  Str.contains c (Str.remove_char c s) = false.
Proof.
  induction s as [| c' s IH]; [reflexivity |]. cbn [Str.remove_char].
  destruct (Ascii.eqb c c') eqn:E; [assumption |].
  cbn [Str.contains]. by rewrite E.
Qed.

Lemma str_take_length (k : nat) (s : string) :
  String.length (Str.take k s) = Nat.min k (String.length s).
Proof.
  unfold Str.take. revert k. induction s as [| c s IH]; intros [| k]; cbn; try done.
  by rewrite IH.
Qed.

Lemma str_take_all (k : nat) (s : string) :
  (String.length s <= k)%nat -> Str.take k s = s.
Proof.
  unfold Str.take. revert k. induction s as [| c s IH]; intros [| k]; cbn; try done.
  - lia.
  - intros Hk. rewrite IH; [done | lia].
Qed.

(** A missing field converts: the default of [float] fields is [0]. *)
Lemma tofloat_default : tofloat (PInt 0) = Ok 0%float.
Proof. reflexivity. Qed.

(** A field read with [float(d.get(key, 0))]. *)
Lemma float_field (gq : gmap string pyval) (key : string) (x : float) :
  get_attr (PDict gq) key (PInt 0) ≫= tofloat = Ok x ->
  match gq !! key with
  | Some v => tofloat v = Ok x
  | None => x = 0%float
  end.
Proof.
  cbn [get_attr mbind result_bind]. unfold get.
  destruct (gq !! key) as [v |]; cbn [default]; [done |].
  rewrite tofloat_default. by intros [= <-].
Qed.

End QuoteFacts.

(** X7.  [parse_quote_data] returns the empty record, and no error, when
    the response has no [Global Quote] object or an empty one.  When it
    returns a record for a quote object, the record names the symbol,
    every numeric field is the [float] of its key in the quote or [0.0]
    when the key is missing, [volume] and [latest_trading_day] default to
    ["0"] and the empty string, and [change_percent] holds no percent
    sign. *)
Theorem parse_quote_data_fields `{Py.Builtins} (quote_data : gmap string Py.pyval)
    (symbol : string) :
  (Py.truthy (Py.get quote_data "Global Quote" (Py.PDict ∅)) = false ->
     FetchInfo.parse_quote_data quote_data symbol = Py.Ok ∅) /\
  (forall gq part,
     quote_data !! "Global Quote" = Some (Py.PDict gq) ->
     gq <> ∅ ->
     FetchInfo.parse_quote_data quote_data symbol = Py.Ok part ->
     part !! "symbol" = Some (Py.PStr symbol) /\
     Forall (fun '(field, key) =>
               exists x, part !! field = Some (Py.PFloat x) /\
                         match gq !! key with
                         | Some v => Py.tofloat v = Py.Ok x
                         | None => x = 0%float
                         end)
            [("current_price", "05. price"); ("change", "09. change");
             ("previous_close", "08. previous close"); ("open", "02. open");
             ("high", "03. high"); ("low", "04. low")] /\
     part !! "volume" = Some (Py.get gq "06. volume" (Py.PStr "0")) /\
     part !! "latest_trading_day" = Some (Py.get gq "07. latest trading day" (Py.PStr "")) /\
     (exists s, part !! "change_percent" = Some (Py.PStr s) /\
                Str.contains "%" s = false /\
                (gq !! "10. change percent" = None -> s = "0"))).
Proof.
  split.
  - intros Hq. unfold FetchInfo.parse_quote_data. by rewrite Hq.
  - intros gq part Hgq Hne. unfold FetchInfo.parse_quote_data.
    rewrite (get_Some _ _ (Py.PDict ∅) _ Hgq).
    assert (Py.truthy (Py.PDict gq) = true) as ->
      by (cbn; by rewrite bool_decide_eq_false_2).
    cbn [negb]. intros Hp.
    apply bind_Ok_inv in Hp as (price & Hprice & Hp).
    apply bind_Ok_inv in Hp as (change & Hchange & Hp).
    apply bind_Ok_inv in Hp as (percent & Hpercent & Hp).
    apply bind_Ok_inv in Hp as (volume & Hvolume & Hp).
    apply bind_Ok_inv in Hp as (previous & Hprevious & Hp).
    apply bind_Ok_inv in Hp as (open & Hopen & Hp).
    apply bind_Ok_inv in Hp as (high & Hhigh & Hp).
    apply bind_Ok_inv in Hp as (low & Hlow & Hp).
    apply bind_Ok_inv in Hp as (day & Hday & Hp).
    injection Hp as <-.
    apply float_field in Hprice, Hchange, Hprevious, Hopen, Hhigh, Hlow.
    cbn [Py.get_attr] in Hvolume, Hday. injection Hvolume as <-. injection Hday as <-.
    split; [by vm_compute |].
    split.
    { repeat constructor; eexists; (split; [vm_compute; reflexivity | assumption]). }
    split; [by vm_compute |]. split; [by vm_compute |].
    cbn [Py.get_attr mbind Py.result_bind] in Hpercent.
    unfold FetchInfo.strip_percent in Hpercent.
    destruct (Py.get gq "10. change percent" (Py.PStr "0%")) as [| | | | s | |] eqn:Hget;
      try discriminate.
    injection Hpercent as <-. eexists. split; [by vm_compute |].
    split; [apply remove_char_contains |].
    intros Hnone. rewrite (get_None _ _ _ Hnone) in Hget. by injection Hget as <-.
Qed.

(** Where it applies: a quote with a price and a change percent only. *)
Lemma parse_quote_data_fields_witness :
  exists part,
    FetchInfo.parse_quote_data Samples.quote_body "600519.SHH" = Py.Ok part /\
    part !! "symbol" = Some (Py.PStr "600519.SHH") /\
    part !! "volume" = Some (Py.PStr "0").
Proof.
  remember (FetchInfo.parse_quote_data Samples.quote_body "600519.SHH") as r eqn:Hp.
  assert (match r with Py.Ok _ => True | Py.Raise _ => False end) as Hok
    by (subst r; vm_compute; exact I).
  destruct r as [part | e]; [clear Hok | destruct Hok]. symmetry in Hp.
  exists part. split; [reflexivity |].
  destruct (parse_quote_data_fields Samples.quote_body "600519.SHH") as [_ Hthm].
  destruct (Hthm Samples.partial_quote part) as (Hsym & _ & Hvol & _).
  - vm_compute. reflexivity.
  - intros Heq. apply (f_equal (fun m : gmap string Py.pyval => m !! "05. price")) in Heq.
    vm_compute in Heq. discriminate.
  - exact Hp.
  - split; [exact Hsym |]. rewrite Hvol. vm_compute. reflexivity.
Defined.

Section TruncationFacts.
Import Py Net.

(** [v[:k] + "..."] has at most [k + 3] characters, and the ellipsis is
    added to a short string as well. *)
Lemma truncated_spec (v : pyval) (k : nat) (r : pyval) :
  FetchInfo.truncated v k = Ok r ->
  exists s, r = PStr s /\ (String.length s <= k + 3)%nat /\
    (truthy v = false -> s = "") /\
    (forall t, v = PStr t -> t <> "" ->
       s = Str.take k t +:+ "..." /\
       ((String.length t <= k)%nat -> s = t +:+ "...")).
Proof.
  unfold FetchInfo.truncated. destruct (truthy v) eqn:Hv.
  - destruct v as [| | | | t | |]; try discriminate. intros [= <-].
    eexists. split; [reflexivity |]. split.
    { rewrite string_length_app, str_take_length. cbn. lia. }
    split; [done |]. intros t' [= <-] _. split; [done |].
    intros Hk. by rewrite str_take_all.
  - intros [= <-]. exists "". split; [done |]. split; [cbn; lia |].
    split; [done |]. intros t -> Ht. destruct t; [done | discriminate].
Qed.

End TruncationFacts.

(** X8.  [parse_company_overview] returns the empty record when the
    response has no [Symbol] key.  Otherwise, with a [Description] that
    is an ASCII string or missing, it returns a record that names the
    requested symbol and whose [description] has at most 203
    characters: empty for an empty or missing description, and
    otherwise the first 200 characters followed by an ellipsis, which
    is added to a description of fewer than 200 characters as well.  A
    [Description] that is true and not a string raises [TypeError]. *)
Theorem parse_company_overview_description `{Py.Builtins}
    (overview_data : gmap string Py.pyval) (symbol : string) :
  (Net.has overview_data "Symbol" = false ->
     FetchInfo.parse_company_overview overview_data symbol = Py.Ok ∅) /\
  (Net.has overview_data "Symbol" = true ->
     (forall s, Py.get overview_data "Description" (Py.PStr "") = Py.PStr s ->
        Str.is_ascii s = true ->
        exists part desc,
          FetchInfo.parse_company_overview overview_data symbol = Py.Ok part /\
          part !! "symbol" = Some (Py.PStr symbol) /\
          part !! "description" = Some (Py.PStr desc) /\
          (String.length desc <= 203)%nat /\
          (s = "" -> desc = "") /\
          (s <> "" -> desc = Str.take 200 s +:+ "...") /\
          (s <> "" -> (String.length s <= 200)%nat -> desc = s +:+ "...")) /\
     (forall v, overview_data !! "Description" = Some v ->
        Py.truthy v = true -> (forall s, v <> Py.PStr s) ->
        FetchInfo.parse_company_overview overview_data symbol = Py.Raise Py.TypeError)).
Proof.
  unfold FetchInfo.parse_company_overview. split.
  - intros ->. by rewrite orb_true_r.
  - intros Hsym. rewrite Hsym.
    assert (Py.truthy (Py.PDict overview_data) = true) as ->.
    { cbn. rewrite bool_decide_eq_false_2; [done |]. intros ->. by vm_compute in Hsym. }
    cbn [negb orb]. split.
    + intros s Hs _. rewrite Hs.
      destruct (FetchInfo.truncated (Py.PStr s) 200) as [r | e] eqn:Ht.
      2: { unfold FetchInfo.truncated in Ht. by destruct (Py.truthy _). }
      apply truncated_spec in Ht as (desc & -> & Hlen & Hempty & Hfull).
      eexists _, desc. split; [reflexivity |].
      split; [by vm_compute |]. split; [by vm_compute |].
      split; [exact Hlen |]. split.
      { intros ->. by apply Hempty. }
      split; intros Hne; [by apply (Hfull s) | intros Hk; by apply (Hfull s)].
    + intros v Hv Htrue Hstr. rewrite (get_Some _ _ (Py.PStr "") _ Hv).
      unfold FetchInfo.truncated. rewrite Htrue.
      destruct v; try reflexivity. by destruct (Hstr s).
Qed.

(** Where it applies: an overview with a short description. *)
Lemma parse_company_overview_description_witness :
  exists part,
    FetchInfo.parse_company_overview Samples.overview_body "600519.SHH" = Py.Ok part /\
    part !! "description" = Some (Py.PStr "Liquor...").
Proof.
  pose proof (parse_company_overview_description Samples.overview_body "600519.SHH")
    as [_ Hthm].
  destruct Hthm as [Hdesc _]; [vm_compute; reflexivity |].
  destruct (Hdesc "Liquor") as (part & desc & Hp & _ & Hd & _ & _ & _ & Hshort);
    [vm_compute; reflexivity | reflexivity |].
  exists part. split; [exact Hp |]. rewrite Hd, Hshort; [reflexivity | discriminate | cbn; lia].
Defined.

Section NewsInvariant.
Import Py Net FetchInfo.
Context `{Builtins}.

Lemma news_try_inv today item news_date acc :
  news_inv acc ->
  news_inv (news_try today item news_date acc) /\
  (length (recent_news acc) <= length (recent_news (news_try today item news_date acc))
     <= S (length (recent_news acc)))%nat.
Proof.
  intros (Hp & Hn & Hsum). unfold news_try.
  destruct (parse_time_published news_date); [| split; [done | lia]].
  destruct (within_last_week _ _); [| split; [done | lia]].
  destruct (news_entry _ _); [| split; [done | lia]].
  destruct (add _ _); unfold news_inv; cbn [recent_news positive_count negative_count];
    rewrite ?length_app; cbn [length];
    repeat match goal with |- context [if ?b then _ else _] => destruct b end;
    lia.
Qed.

Lemma news_loop_inv today items : forall acc acc',
  news_loop today acc items = Ok acc' ->
  news_inv acc ->
  news_inv acc' /\
  (length (recent_news acc') <= length (recent_news acc) + length items)%nat.
Proof.
  induction items as [| item rest IH]; intros acc acc' Hloop Hinv; cbn in Hloop.
  - injection Hloop as <-. split; [done | lia].
  - apply bind_Ok_inv in Hloop as (acc1 & Hstep & Hloop).
    assert (news_inv acc1 /\
            (length (recent_news acc1) <= S (length (recent_news acc)))%nat) as [Hinv1 Hlen1].
    { unfold news_step in Hstep. destruct item as [| | | | | | d]; try discriminate.
      destruct (truthy _); injection Hstep as <-; [| split; [done | lia]].
      destruct (news_try_inv today d (get d "time_published" (PStr "")) acc Hinv).
      split; [done | lia]. }
    destruct (IH _ _ Hloop Hinv1) as [Hinv' Hlen']. split; [done |]. cbn [length]. lia.
Qed.

End NewsInvariant.

(** X9.  Whatever the feed holds, a record that [parse_news_sentiment]
    returns is empty or has [recent_news_count] equal to the length of
    [recent_news] and at most 10, and non-negative
    [positive_news_count] and [negative_news_count] whose sum is at most
    [recent_news_count]; when no item was kept, [avg_sentiment_score]
    is [0] without a division. *)
Theorem parse_news_sentiment_bounds `{Py.Builtins} (today : Py.datetime)
    (news_data : gmap string Py.pyval) (symbol : string) (part : gmap string Py.pyval) :
  FetchInfo.parse_news_sentiment today news_data symbol = Py.Ok part ->
  part = ∅ \/
  exists recent avg pos neg,
    part = list_to_map [
      ("symbol", Py.PStr symbol);
      ("recent_news_count", Py.PInt (Z.of_nat (length recent)));
      ("avg_sentiment_score", avg);
      ("positive_news_count", Py.PInt pos);
      ("negative_news_count", Py.PInt neg);
      ("recent_news", Py.PList recent)] /\
    (length recent <= 10)%nat /\
    0 <= pos /\ 0 <= neg /\ pos + neg <= Z.of_nat (length recent) /\
    (recent = [] -> avg = Py.PInt 0 /\ pos = 0 /\ neg = 0).
Proof.
  unfold FetchInfo.parse_news_sentiment.
  destruct (negb _ || negb _); [intros [= <-]; by left |].
  destruct (negb _); [intros [= <-]; by left |].
  destruct (Py.get news_data "feed" (Py.PList [])) as [| | | | | items |]; try discriminate.
  intros Hp. apply bind_Ok_inv in Hp as (acc & Hloop & Hp).
  apply bind_Ok_inv in Hp as (avg & Havg & Hp). injection Hp as <-.
  apply news_loop_inv in Hloop as [(Hpos & Hneg & Hsum) Hlen].
  2: { unfold FetchInfo.news_inv. cbn. lia. }
  right. exists (FetchInfo.recent_news acc), avg,
    (FetchInfo.positive_count acc), (FetchInfo.negative_count acc).
  split; [reflexivity |]. split.
  { cbn [FetchInfo.news_acc0 FetchInfo.recent_news length] in Hlen.
    rewrite length_take in Hlen. lia. }
  split; [done |]. split; [done |]. split; [done |].
  intros Hnil. rewrite Hnil in *. cbn in Havg, Hsum. injection Havg as <-.
  split; [done | lia].
Qed.

(** Where it applies: a feed with one recent positive item. *)
Lemma parse_news_sentiment_bounds_witness :
  exists part,
    FetchInfo.parse_news_sentiment Samples.noon
      Samples.feed_recent_first "600519.SHH" = Py.Ok part /\
    part <> ∅.
Proof.
  remember (FetchInfo.parse_news_sentiment Samples.noon
              Samples.feed_recent_first "600519.SHH") as r eqn:Hp.
  assert (match r with Py.Ok _ => True | Py.Raise _ => False end) as Hok
    by (subst r; vm_compute; exact I).
  destruct r as [part | e]; [clear Hok | destruct Hok]. symmetry in Hp.
  exists part. split; [reflexivity |].
  destruct (parse_news_sentiment_bounds _ _ _ _ Hp) as [-> | Hrec].
  - apply (f_equal (fun r => Samples.field r "symbol")) in Hp.
    vm_compute in Hp. discriminate.
  - destruct Hrec as (recent & avg & pos & neg & -> & _). intros Heq.
    apply (f_equal (fun m : gmap string Py.pyval => m !! "symbol")) in Heq.
    vm_compute in Heq. discriminate.
Defined.

(** ** The data frame of [fetch_a_shares.py] *)
Section FrameFacts.
Import Py Net FetchShares.
Context `{Builtins}.

Lemma parse_row_spec (symbol d_str : string) (values : pyval) (r : row) :
  parse_row symbol d_str values = Ok r -> row_of symbol (d_str, values) r.
Proof.
  unfold parse_row. intros Hp.
  apply bind_Ok_inv in Hp as (date & Hdate & Hp).
  apply bind_Ok_inv in Hp as (open & Hopen & Hp).
  apply bind_Ok_inv in Hp as (high & Hhigh & Hp).
  apply bind_Ok_inv in Hp as (low & Hlow & Hp).
  apply bind_Ok_inv in Hp as (close & Hclose & Hp).
  apply bind_Ok_inv in Hp as (close_or_nan & Hcn & Hp).
  apply bind_Ok_inv in Hp as (adjusted & Hadj & Hp).
  apply bind_Ok_inv in Hp as (volume5 & Hv5 & Hp).
  apply bind_Ok_inv in Hp as (volume_float & Hvf & Hp).
  apply bind_Ok_inv in Hp as (volume & Hvol & Hp).
  apply bind_Ok_inv in Hp as (dividend & Hdiv & Hp).
  apply bind_Ok_inv in Hp as (split_c & Hsplit & Hp).
  injection Hp as <-. unfold row_of. cbn [r_symbol r_date r_adjusted_close r_close
    r_volume r_dividend_amount r_split_coefficient fst snd].
  split; [done |]. split.
  { destruct (strptime d_str "%Y-%m-%d"); by simplify_eq/=. }
  intros v ->. cbn [get_attr mbind result_bind] in *.
  injection Hcn as <-. injection Hv5 as <-.
  split; [| split; [| split]].
  - intros Hnone. rewrite (get_None _ _ _ Hnone) in Hadj. congruence.
  - intros H6 H5. rewrite (get_None _ _ _ H6), (get_None _ _ _ H5) in Hvf.
    vm_compute in Hvf. injection Hvf as <-. vm_compute in Hvol. by injection Hvol as <-.
  - intros Hnone. rewrite (get_None _ _ _ Hnone) in Hdiv. by injection Hdiv as <-.
  - intros Hnone. rewrite (get_None _ _ _ Hnone) in Hsplit. by injection Hsplit as <-.
Qed.

Lemma parse_rows_spec (symbol : string) (items : list (string * pyval)) :
  forall rows, parse_rows symbol items = Ok rows -> Forall2 (row_of symbol) items rows.
Proof.
  induction items as [| [d_str values] rest IH]; intros rows Hp; cbn in Hp.
  - injection Hp as <-. constructor.
  - apply bind_Ok_inv in Hp as (r & Hr & Hp).
    apply bind_Ok_inv in Hp as (rs & Hrs & Hp). injection Hp as <-.
    constructor; [by apply parse_row_spec | by apply IH].
Qed.

End FrameFacts.

(** X10.  [parse_daily_to_dataframe] returns the empty frame for a
    payload without [Time Series (Daily)].  A frame it returns for a
    series has one row for each date of the series, labelled with the
    symbol and dated by the key read as [%Y-%m-%d]; for an entry without
    [5. adjusted close] the adjusted close is the close, without both
    volume fields the volume is [0], without [7. dividend amount] the
    dividend is [0.0] and without [8. split coefficient] the coefficient
    is [1.0]. *)
Theorem parse_daily_to_dataframe_rows `{Py.Builtins} (symbol : string)
    (payload : gmap string Py.pyval) :
  (payload !! "Time Series (Daily)" = None ->
     FetchShares.parse_daily_to_dataframe symbol payload = Py.Ok []) /\
  (forall ts rows,
     payload !! "Time Series (Daily)" = Some (Py.PDict ts) ->
     FetchShares.parse_daily_to_dataframe symbol payload = Py.Ok rows ->
     length rows = size ts /\
     Forall2 (FetchShares.row_of symbol) (map_to_list ts) rows).
Proof.
  unfold FetchShares.parse_daily_to_dataframe. split.
  - intros Hnone. rewrite (get_None _ _ _ Hnone). by rewrite map_to_list_empty.
  - intros ts rows Hts. rewrite (get_Some _ _ (Py.PDict ∅) _ Hts). intros Hp.
    apply parse_rows_spec in Hp. split; [| done].
    apply Forall2_length in Hp. rewrite <- Hp. apply length_map_to_list.
Qed.

(** Where it applies: the frame of a one-day series without adjusted
    close has one row, whose adjusted close is its close. *)
Lemma parse_daily_to_dataframe_rows_witness :
  exists r,
    FetchShares.parse_daily_to_dataframe "600519.SHH" Samples.one_day_body = Py.Ok [r] /\
    FetchShares.r_adjusted_close r = FetchShares.r_close r.
Proof.
  destruct (FetchShares.parse_daily_to_dataframe "600519.SHH" Samples.one_day_body)
    as [rows | e] eqn:Hp; [| vm_compute in Hp; discriminate].
  destruct (parse_daily_to_dataframe_rows "600519.SHH" Samples.one_day_body) as [_ Hthm].
  destruct (Hthm (default ∅ (match Samples.one_day_body !! "Time Series (Daily)" with
                             | Some (Py.PDict ts) => Some ts | _ => None end)) rows)
    as [Hlen Hrows]; [vm_compute; reflexivity | exact Hp |].
  destruct rows as [| r [| r' rows]]; [vm_compute in Hlen; discriminate | | vm_compute in Hlen; discriminate].
  exists r. split; [reflexivity |].
  destruct (map_to_list _) as [| [d values] rest] eqn:Hl in Hrows; [inversion Hrows |].
  apply Forall2_cons in Hrows as [(_ & _ & Hrow) _].
  assert (Hl' := Hl). vm_compute in Hl'. injection Hl' as _ <- _.
  by destruct (Hrow _ eq_refl) as [-> _].
Defined.

(** ** The fields of the aggregated record *)
Section FieldFacts.
Import Py Net FetchInfo.
Context `{Builtins}.

Lemma list_to_map_keys (l : list (string * pyval)) (k : string) :
  is_Some ((list_to_map l : gmap string pyval) !! k) -> k ∈ l.*1.
Proof.
  intros [v Hv]. apply elem_of_list_to_map_2 in Hv.
  by apply (list_elem_of_fmap_2 fst) in Hv.
Qed.

Lemma keys_within_empty (fields : list string) : keys_within fields ∅.
Proof. intros k [v Hv]. by rewrite lookup_empty in Hv. Qed.

Ltac split_binds H :=
  repeat (apply bind_Ok_inv in H as (? & ? & H)).

Ltac keys_of_record H :=
  injection H as <-; intros k Hk;
  unfold quote_fields, overview_fields, news_fields, daily_fields;
  repeat (apply lookup_insert_is_Some' in Hk as [<- | Hk];
          [first [by left | right; set_solver] |]);
  rewrite lookup_empty in Hk; by destruct Hk.

Lemma parse_quote_data_keys (d part : gmap string pyval) (symbol : string) :
  parse_quote_data d symbol = Ok part -> keys_within quote_fields part.
Proof.
  unfold parse_quote_data.
  destruct (negb _); [intros [= <-]; apply keys_within_empty |].
  intros Hp. split_binds Hp. keys_of_record Hp.
Qed.

Lemma parse_company_overview_keys (d part : gmap string pyval) (symbol : string) :
  parse_company_overview d symbol = Ok part -> keys_within overview_fields part.
Proof.
  unfold parse_company_overview.
  destruct (_ || _); [intros [= <-]; apply keys_within_empty |].
  intros Hp. split_binds Hp. keys_of_record Hp.
Qed.

Lemma parse_news_sentiment_keys (today : datetime) (d part : gmap string pyval)
    (symbol : string) :
  parse_news_sentiment today d symbol = Ok part -> keys_within news_fields part.
Proof.
  unfold parse_news_sentiment.
  destruct (_ || _); [intros [= <-]; apply keys_within_empty |].
  destruct (negb _); [intros [= <-]; apply keys_within_empty |].
  destruct (get d "feed" (PList [])); try discriminate.
  intros Hp. split_binds Hp. keys_of_record Hp.
Qed.

Lemma parse_daily_data_for_week_keys (d part : gmap string pyval) (symbol : string) :
  parse_daily_data_for_week d symbol = Ok part -> keys_within daily_fields part.
Proof.
  unfold parse_daily_data_for_week.
  destruct (negb _); [intros [= <-]; apply keys_within_empty |].
  destruct (get d "Time Series (Daily)" (PDict ∅)); try discriminate.
  destruct (take 7 _); [intros [= <-]; apply keys_within_empty |].
  intros Hp. apply bind_Ok_inv in Hp as (week_data & _ & Hp).
  destruct (week_changes week_data). split_binds Hp. keys_of_record Hp.
Qed.

Lemma partial_record_keys (fields : list string) (fetch : io (gmap string pyval))
    (parse : gmap string pyval -> io (gmap string pyval)) (w : world) :
  (forall d w1 part w2, parse d w1 = (Ok part, w2) -> keys_within fields part) ->
  keys_within fields (partial_record fetch parse w).1.
Proof.
  intros Hp. unfold partial_record, mbind, io_bind.
  destruct (fetch w) as [[data | e] w1]; [| apply keys_within_empty].
  destruct (parse data w1) as [[part | e] w2] eqn:Hparse; [| apply keys_within_empty].
  cbn. eauto.
Qed.

Lemma quote_record_keys (symbol api_key : string) (w : world) :
  keys_within quote_fields (quote_record symbol api_key w).1.
Proof.
  apply partial_record_keys. intros d w1 part w2. unfold lift.
  intros [= Hp _]. by apply parse_quote_data_keys in Hp.
Qed.

Lemma overview_record_keys (symbol api_key : string) (w : world) :
  keys_within overview_fields (overview_record symbol api_key w).1.
Proof.
  apply partial_record_keys. intros d w1 part w2. unfold lift.
  intros [= Hp _]. by apply parse_company_overview_keys in Hp.
Qed.

Lemma news_record_keys (symbol api_key : string) (w : world) :
  keys_within news_fields (news_record symbol api_key w).1.
Proof.
  apply partial_record_keys. intros d w1 part w2. unfold lift.
  rewrite io_bind_run. unfold datetime_now. intros [= Hp _].
  by apply parse_news_sentiment_keys in Hp.
Qed.

Lemma daily_record_keys (symbol api_key : string) (w : world) :
  keys_within daily_fields (daily_record symbol api_key w).1.
Proof.
  apply partial_record_keys. intros d w1 part w2. unfold lift.
  intros [= Hp _]. by apply parse_daily_data_for_week_keys in Hp.
Qed.

Lemma keys_within_None (fields : list string) (part : gmap string pyval) (k : string) :
  keys_within fields part -> k <> "symbol" -> k ∉ fields -> part !! k = None.
Proof.
  intros Hkeys Hk Hnot. apply eq_None_not_Some. intros Hsome.
  by destruct (Hkeys k Hsome).
Qed.

Lemma fields_NoDup :
  NoDup ("symbol" :: quote_fields ++ overview_fields ++ news_fields ++ daily_fields).
Proof. apply (bool_decide_unpack _). vm_compute. exact I. Qed.

(** The overlay of four records with separate fields reads each field
    from the record it belongs to. *)
Lemma overlay_field_of (symbol : string) (quote overview news daily : gmap string pyval)
    (k : string) :
  keys_within quote_fields quote -> keys_within overview_fields overview ->
  keys_within news_fields news -> keys_within daily_fields daily ->
  k <> "symbol" ->
  (daily ∪ (news ∪ (overview ∪ (quote ∪ {[ "symbol" := PStr symbol ]})))) !! k =
  field_of quote overview news daily k.
Proof.
  intros Hq Ho Hn Hd Hk.
  pose proof fields_NoDup as Hnodup.
  apply NoDup_cons in Hnodup as [_ Hnodup].
  apply NoDup_app in Hnodup as (_ & Hq_others & Hnodup).
  apply NoDup_app in Hnodup as (_ & Ho_others & Hnodup).
  apply NoDup_app in Hnodup as (_ & Hn_others & _).
  specialize (Hq_others k). specialize (Ho_others k). specialize (Hn_others k).
  rewrite !elem_of_app in Hq_others. rewrite elem_of_app in Ho_others.
  unfold field_of. rewrite !lookup_union, (lookup_singleton_ne "symbol" k) by done.
  repeat case_bool_decide.
  - rewrite (keys_within_None _ _ _ Hd Hk), (keys_within_None _ _ _ Hn Hk),
      (keys_within_None _ _ _ Ho Hk) by tauto. by destruct (quote !! k).
  - rewrite (keys_within_None _ _ _ Hd Hk), (keys_within_None _ _ _ Hn Hk),
      (keys_within_None _ _ _ Hq Hk) by tauto. by destruct (overview !! k).
  - rewrite (keys_within_None _ _ _ Hd Hk), (keys_within_None _ _ _ Ho Hk),
      (keys_within_None _ _ _ Hq Hk) by tauto. by destruct (news !! k).
  - rewrite (keys_within_None _ _ _ Hn Hk), (keys_within_None _ _ _ Ho Hk),
      (keys_within_None _ _ _ Hq Hk) by tauto. by destruct (daily !! k).
  - by rewrite (keys_within_None _ _ _ Hd Hk), (keys_within_None _ _ _ Hn Hk),
      (keys_within_None _ _ _ Ho Hk), (keys_within_None _ _ _ Hq Hk) by tauto.
Qed.

(** The result of the aggregator, field by field. *)
Lemma comprehensive_info_field (symbol api_key : string) (w : world) (k : string) :
  let quote := quote_record symbol api_key w in
  let overview := overview_record symbol api_key quote.2 in
  let news := news_record symbol api_key overview.2 in
  let daily := daily_record symbol api_key news.2 in
  exists result,
    (fetch_stock_comprehensive_info symbol api_key w).1 = Ok result /\
    result !! "symbol" = Some (PStr symbol) /\
    (k <> "symbol" -> result !! k = field_of quote.1 overview.1 news.1 daily.1 k).
Proof.
  intros quote overview news daily.
  pose proof (comprehensive_info_eq symbol api_key w) as Heq. cbv zeta in Heq.
  fold quote overview news daily in Heq.
  destruct (comprehensive_info_returns symbol api_key w) as (r & w' & Hr & Hsym).
  rewrite Heq in Hr. injection Hr as <- _.
  eexists. split; [by rewrite Heq |]. split; [exact Hsym |].
  intros Hk. apply overlay_field_of; [apply quote_record_keys | apply overview_record_keys
    | apply news_record_keys | apply daily_record_keys | done].
Qed.

End FieldFacts.

(** X11.  The four parsers write separate fields: apart from [symbol],
    no key of one record is a key of another.  So the overlays of
    [fetch_stock_comprehensive_info] never overwrite a field: its result
    maps [symbol] to the identifier and every other key to the value in
    the record of the one endpoint that key belongs to, and a key of an
    endpoint that failed is absent. *)
Theorem comprehensive_info_fields `{Py.Builtins} (symbol api_key : string) (w : Net.world) :
  let quote := FetchInfo.quote_record symbol api_key w in
  let overview := FetchInfo.overview_record symbol api_key quote.2 in
  let news := FetchInfo.news_record symbol api_key overview.2 in
  let daily := FetchInfo.daily_record symbol api_key news.2 in
  NoDup ("symbol" :: FetchInfo.quote_fields ++ FetchInfo.overview_fields
           ++ FetchInfo.news_fields ++ FetchInfo.daily_fields) /\
  exists result,
    (FetchInfo.fetch_stock_comprehensive_info symbol api_key w).1 = Py.Ok result /\
    result !! "symbol" = Some (Py.PStr symbol) /\
    (forall k, k <> "symbol" ->
       result !! k = FetchInfo.field_of quote.1 overview.1 news.1 daily.1 k) /\
    (overview.1 = ∅ -> Forall (fun k => result !! k = None) FetchInfo.overview_fields).
Proof.
  intros quote overview news daily. split; [apply fields_NoDup |].
  destruct (comprehensive_info_field symbol api_key w "symbol") as (result & Hr & Hsym & _).
  exists result. split; [exact Hr |]. split; [exact Hsym |].
  assert (forall k, k <> "symbol" ->
            result !! k = FetchInfo.field_of quote.1 overview.1 news.1 daily.1 k) as Hfield.
  { intros k Hk.
    destruct (comprehensive_info_field symbol api_key w k) as (result' & Hr' & _ & Hf).
    rewrite Hr in Hr'. injection Hr' as <-. by apply Hf. }
  split; [exact Hfield |].
  intros Hempty. apply Forall_forall. intros k Hk.
  pose proof fields_NoDup as Hnodup.
  apply NoDup_cons in Hnodup as [Hsymbol Hnodup].
  apply NoDup_app in Hnodup as (_ & Hq_others & _). specialize (Hq_others k).
  rewrite !elem_of_app in Hsymbol, Hq_others.
  rewrite Hfield by (intros ->; tauto).
  unfold FetchInfo.field_of. fold overview. rewrite Hempty.
  rewrite bool_decide_eq_false_2 by tauto.
  by rewrite (bool_decide_eq_true_2 _ Hk).
Qed.

(** Where it applies: against an upstream that answers HTTP 500 the
    overview record is empty, and the result has the identifier and no
    company name. *)
Lemma comprehensive_info_fields_witness :
  let run := FetchInfo.fetch_stock_comprehensive_info "600519.SHH" "k"
               (Samples.always Samples.http_500) in
  Samples.field run.1 "symbol" = Some (Py.PStr "600519.SHH") /\
  Samples.field run.1 "company_name" = None.
Proof.
  intros run.
  destruct (comprehensive_info_fields "600519.SHH" "k" (Samples.always Samples.http_500))
    as (_ & result & Hr & Hsym & _ & Hov).
  subst run. rewrite Hr. cbn [Samples.field]. split; [exact Hsym |].
  unfold FetchInfo.overview_fields in Hov.
  apply Forall_cons in Hov as [Hname _]; [exact Hname |].
  vm_compute. reflexivity.
Defined.

(** ** The batch driver of [fetch_a_share_info.py] *)
Section InfoMainFacts.
Import Py Net FetchInfo.
Context `{Builtins}.

Lemma simplified_row_overlay (symbol : string)
    (quote overview news daily result : gmap string pyval) :
  result !! "symbol" = Some (PStr symbol) ->
  (forall k, k <> "symbol" -> result !! k = field_of quote overview news daily k) ->
  simplified_row result =
    [("股票代码", PStr symbol);
     ("公司名称", get overview "company_name" (PStr ""));
     ("行业", get overview "industry" (PStr ""));
     ("当前价格", get quote "current_price" (PInt 0));
     ("涨跌幅", get quote "change_percent" (PStr "0"));
     ("周涨跌幅", get daily "week_change_percent" (PInt 0));
     ("成交量", get quote "volume" (PStr "0"));
     ("市值", get overview "market_cap" (PStr ""));
     ("市盈率", get overview "pe_ratio" (PStr ""));
     ("最近新闻数", get news "recent_news_count" (PInt 0));
     ("情感评分", get news "avg_sentiment_score" (PInt 0))].
Proof.
  intros Hsym Hfield. unfold simplified_row, get.
  rewrite Hsym, !Hfield by discriminate. reflexivity.
Qed.

Lemma no_requests (evs : list event) :
  Forall (fun _ => False) (requests evs) -> requests evs = [].
Proof. destruct (requests evs); [done | by inversion 1]. Qed.

(** An endpoint with a budget of three attempts issues between one and
    three requests; its parser issues none. *)
Lemma partial_record_count (fetch : io (gmap string pyval))
    (parse : gmap string pyval -> io (gmap string pyval)) (req : request) (w : world) :
  (forall w0, exists ps,
     (fetch w0).2 = extend w0 (attempts_trace req ps) /\ (1 <= length ps <= 3)%nat) ->
  (forall d, runs (fun _ => False) caught (parse d)) ->
  exists evs,
    (partial_record fetch parse w).2 = extend w evs /\
    (1 <= length (requests evs) <= 3)%nat.
Proof.
  intros Hf Hp. unfold partial_record, mbind, io_bind.
  destruct (Hf w) as (ps & Hw & Hps).
  assert (length (requests (attempts_trace req ps)) = length ps) as Hlen
    by (by rewrite requests_attempts_trace, length_replicate).
  destruct (fetch w) as [[data | e] w1]; cbn [snd] in Hw; subst w1.
  - destruct (Hp data (extend w (attempts_trace req ps))) as (evs' & Hw' & Hnone & _).
    apply no_requests in Hnone.
    exists (attempts_trace req ps ++ evs').
    rewrite requests_app, Hnone, app_nil_r, Hlen. split; [| done].
    destruct (parse data _) as [[part | e] w2]; cbn [snd] in *; subst w2;
      by rewrite extend_extend.
  - exists (attempts_trace req ps). by rewrite Hlen.
Qed.

Lemma endpoint_count (function symbol api_key : string)
    (extra_params : gmap string string) (w0 : world) :
  exists ps,
    (fetch_alpha_vantage_data function symbol api_key extra_params 3 20 w0).2 =
      extend w0 (attempts_trace (data_request function symbol api_key extra_params 20) ps) /\
    (1 <= length ps <= 3)%nat.
Proof.
  destruct (fetch_data_shape function symbol api_key extra_params 3 20 w0)
    as (ps & Hw & Hn & _).
  exists ps. split; [done |]. change (Z.to_nat 3) with 3%nat in Hn. cbn in Hn. lia.
Qed.

(** One call of the aggregator issues between 4 and 12 requests. *)
Lemma comprehensive_info_count (symbol api_key : string) (w : world) :
  exists evs,
    (fetch_stock_comprehensive_info symbol api_key w).2 = extend w evs /\
    (4 <= length (requests evs) <= 12)%nat.
Proof.
  rewrite comprehensive_info_eq. cbn [snd].
  destruct (partial_record_count (fetch_quote_endpoint symbol api_key)
              (fun d => lift (parse_quote_data d symbol)) _ w
              (endpoint_count _ _ _ _) (runs_parse_quote _ symbol)) as (e1 & H1 & Hn1).
  fold (quote_record symbol api_key) in H1.
  destruct (partial_record_count (fetch_company_overview symbol api_key)
              (fun d => lift (parse_company_overview d symbol)) _
              (quote_record symbol api_key w).2
              (endpoint_count _ _ _ _) (runs_parse_overview _ symbol)) as (e2 & H2 & Hn2).
  fold (overview_record symbol api_key) in H2.
  destruct (partial_record_count (fetch_news_sentiment symbol api_key)
              (fun d => today ← datetime_now; lift (parse_news_sentiment today d symbol)) _
              (overview_record symbol api_key (quote_record symbol api_key w).2).2
              (endpoint_count _ _ _ _) (runs_parse_news _ symbol)) as (e3 & H3 & Hn3).
  fold (news_record symbol api_key) in H3.
  destruct (partial_record_count (fetch_daily_data symbol api_key)
              (fun d => lift (parse_daily_data_for_week d symbol)) _
              (news_record symbol api_key
                 (overview_record symbol api_key (quote_record symbol api_key w).2).2).2
              (endpoint_count _ _ _ _) (runs_parse_daily _ symbol)) as (e4 & H4 & Hn4).
  fold (daily_record symbol api_key) in H4.
  exists (e1 ++ e2 ++ e3 ++ e4).
  rewrite H4, H3, H2, H1, !extend_extend, !requests_app, !length_app.
  split; [reflexivity | lia].
Qed.

Lemma info_main_loop_count (api_key : string) (raw_symbols : list string) :
  forall (all_results : list (gmap string pyval)) (w : world),
  exists evs,
    (main_loop api_key raw_symbols all_results w).2 = extend w evs /\
    (4 * length raw_symbols <= length (requests evs) <= 12 * length raw_symbols)%nat.
Proof.
  induction raw_symbols as [| raw rest IH]; intros all_results w; cbn [main_loop].
  - exists []. cbn. by rewrite extend_nil.
  - rewrite io_bind_run.
    destruct (comprehensive_info_count (normalize_a_share_symbol raw) api_key w)
      as (evs & Hw & Hn).
    destruct (comprehensive_info_returns (normalize_a_share_symbol raw) api_key w)
      as (result & w1 & Hrun & _).
    rewrite Hrun in *. cbn [snd] in Hw. subst w1.
    destruct (IH (all_results ++ [result]) (extend w evs)) as (evs' & Hw' & Hn').
    exists (evs ++ evs'). rewrite Hw', extend_extend, requests_app, length_app.
    split; [reflexivity |]. cbn [length]. lia.
Qed.

End InfoMainFacts.

(** X12.  A row of the CSV summary that [main] of [fetch_a_share_info.py]
    builds from a result of the aggregator has the identifier in its
    first column, and every other column holds the field of the record
    of one endpoint, or the default of the column when that endpoint
    failed or did not send the field: name, industry, market
    capitalisation and price-earnings ratio come from the overview,
    price, change percent and volume from the quote, the week change
    percent from the daily series, and the news count and the sentiment
    score from the news. *)
Theorem simplified_row_sources `{Py.Builtins} (symbol api_key : string) (w : Net.world) :
  let quote := (FetchInfo.quote_record symbol api_key w) in
  let overview := FetchInfo.overview_record symbol api_key quote.2 in
  let news := FetchInfo.news_record symbol api_key overview.2 in
  let daily := FetchInfo.daily_record symbol api_key news.2 in
  exists result,
    (FetchInfo.fetch_stock_comprehensive_info symbol api_key w).1 = Py.Ok result /\
    FetchInfo.simplified_row result =
      [("股票代码", Py.PStr symbol);
       ("公司名称", Py.get overview.1 "company_name" (Py.PStr ""));
       ("行业", Py.get overview.1 "industry" (Py.PStr ""));
       ("当前价格", Py.get quote.1 "current_price" (Py.PInt 0));
       ("涨跌幅", Py.get quote.1 "change_percent" (Py.PStr "0"));
       ("周涨跌幅", Py.get daily.1 "week_change_percent" (Py.PInt 0));
       ("成交量", Py.get quote.1 "volume" (Py.PStr "0"));
       ("市值", Py.get overview.1 "market_cap" (Py.PStr ""));
       ("市盈率", Py.get overview.1 "pe_ratio" (Py.PStr ""));
       ("最近新闻数", Py.get news.1 "recent_news_count" (Py.PInt 0));
       ("情感评分", Py.get news.1 "avg_sentiment_score" (Py.PInt 0))].
Proof.
  intros quote overview news daily.
  destruct (comprehensive_info_field symbol api_key w "symbol") as (result & Hr & Hsym & _).
  exists result. split; [exact Hr |].
  apply simplified_row_overlay; [exact Hsym |]. intros k Hk.
  destruct (comprehensive_info_field symbol api_key w k) as (result' & Hr' & _ & Hf).
  rewrite Hr in Hr'. injection Hr' as <-. by apply Hf.
Qed.

(** X13.  [main] of [fetch_a_share_info.py] issues, for [n] symbols,
    between [4 n] and [12 n] requests whatever the upstream answers, and
    the CSV summary it builds has one row for each symbol, in input
    order, whose first column is the normalised identifier. *)
Theorem info_main_request_budget `{Py.Builtins} (a : FetchInfo.args)
    (ALPHAVANTAGE_API_KEY : option string) (w : Net.world) :
  exists results w',
    FetchInfo.main a ALPHAVANTAGE_API_KEY w = (Py.Ok results, w') /\
    (4 * length (FetchInfo.symbols a) <= Net.attempts w w'
       <= 12 * length (FetchInfo.symbols a))%nat /\
    head <$> FetchInfo.simplified_data results =
      (fun raw => Some ("股票代码", Py.PStr (normalize_a_share_symbol raw)))
        <$> FetchInfo.symbols a.
Proof.
  unfold FetchInfo.main, FetchInfo.resolve_api_key.
  change (negb (Py.truthy (Py.PStr "DBW1NM92621232126K"))) with false. cbv iota.
  destruct (info_main_loop_results "DBW1NM92621232126K" (FetchInfo.symbols a) [] w)
    as (results & w' & Hrun & Hres).
  destruct (info_main_loop_count "DBW1NM92621232126K" (FetchInfo.symbols a) [] w)
    as (evs & Hw & Hn).
  rewrite Hrun in Hw. cbn [snd] in Hw. subst w'.
  exists results, (Net.extend w evs). split; [exact Hrun |]. split.
  - unfold Net.attempts. cbn [Net.trace Net.extend].
    rewrite requests_app, length_app. lia.
  - unfold FetchInfo.simplified_data. rewrite <- list_fmap_compose.
    revert Hres. generalize (FetchInfo.symbols a). clear.
    induction results as [| r results IH]; intros [| raw raws] Hres; try discriminate;
      [reflexivity |].
    cbn in Hres. injection Hres as Hsym Hres.
    cbn [fmap list_fmap compose FetchInfo.simplified_row head].
    unfold Py.get at 1. rewrite Hsym. cbn [default]. f_equal. by apply IH.
Qed.

(** ** The batch driver of [fetch_a_shares.py] *)
Section SharesMainFacts.
Import Py Net FetchShares.
Context `{Builtins}.

Lemma filter_dates_in_range (start_date end_date : option datetime) (df : list row) :
  Forall (in_range start_date end_date) (filter_dates start_date end_date df).
Proof.
  apply Forall_forall. intros r Hr. apply list_elem_of_In in Hr.
  unfold filter_dates, in_range in *.
  destruct start_date as [s |], end_date as [e |];
    repeat (apply filter_In in Hr as [Hr ?]);
    split; intros d [= <-]; lia.
Qed.

Lemma filter_dates_keeps (P : row -> Prop) (start_date end_date : option datetime)
    (df : list row) :
  Forall P df -> Forall P (filter_dates start_date end_date df).
Proof.
  rewrite !Forall_forall. intros Hdf r Hr. apply Hdf.
  apply list_elem_of_In in Hr. apply list_elem_of_In.
  unfold filter_dates in Hr.
  destruct start_date as [s |], end_date as [e |];
    repeat (apply filter_In in Hr as [Hr ?]); done.
Qed.

Lemma parse_daily_to_dataframe_symbol (symbol : string) (payload : gmap string pyval)
    (df : list row) :
  parse_daily_to_dataframe symbol payload = Ok df ->
  Forall (fun r => r_symbol r = symbol) df.
Proof.
  unfold parse_daily_to_dataframe.
  destruct (get payload "Time Series (Daily)" (PDict ∅)); try discriminate.
  intros Hp. apply parse_rows_spec in Hp.
  induction Hp as [| item r items rows Hrow _ IH]; constructor; [apply Hrow | done].
Qed.

(** The loop of [main]: between one and five requests for each symbol it
    gets through, and frames of rows in range. *)
Lemma shares_main_loop_spec (a : args) (api_key function_name : string)
    (start_date end_date : option datetime) (raw_symbols : list string) :
  forall (frames0 : list (list row)) (w : world),
  let run := main_loop a api_key function_name start_date end_date raw_symbols frames0 w in
  exists evs,
    run.2 = extend w evs /\
    (length (requests evs) <= 5 * length raw_symbols)%nat /\
    match run.1 with
    | Ok frames =>
        exists new,
          frames = frames0 ++ new /\
          (length new <= length raw_symbols <= length (requests evs))%nat /\
          Forall (Forall (fun r =>
                    in_range start_date end_date r /\
                    r_symbol r ∈ normalize_a_share_symbol <$> raw_symbols)) new
    | Raise e => caught e
    end.
Proof.
  induction raw_symbols as [| raw rest IH]; intros frames0 w; cbn [main_loop].
  - exists []. cbn. rewrite extend_nil. split; [done |]. split; [lia |].
    exists []. by rewrite app_nil_r.
  - cbv zeta. rewrite io_bind_run. set (symbol := normalize_a_share_symbol raw).
    destruct (fetch_daily_shape symbol api_key (outputsize a) function_name 5 (timeout a) w)
      as (ps & Hw & Hn & _).
    change (Z.to_nat 5) with 5%nat in Hn. cbn [Nat.min] in Hn.
    assert (length (requests (attempts_trace
              (daily_request symbol api_key (outputsize a) function_name (timeout a)) ps))
            = length ps) as Hlen
      by (by rewrite requests_attempts_trace, length_replicate).
    destruct (runs_fetch_daily (fun _ => True) symbol api_key (outputsize a)
                function_name 5 (timeout a) I w) as (_ & _ & _ & He).
    destruct (fetch_alpha_vantage_daily _ _ _ _ _ _ w) as [[payload | e] w1];
      cbn [fst snd raises_only] in Hw, He; subst w1.
    2: { eexists. split; [reflexivity |]. rewrite Hlen. cbn [length fst].
         split; [lia | exact He]. }
    rewrite io_bind_run. unfold lift at 1.
    pose proof (safe_parse_daily_to_dataframe symbol payload) as Hsafe.
    destruct (parse_daily_to_dataframe symbol payload) as [df | e] eqn:Hparse;
      cbn [raises_only] in Hsafe.
    2: { eexists. split; [reflexivity |]. rewrite Hlen. cbn [length fst].
         split; [lia | exact Hsafe]. }
    apply parse_daily_to_dataframe_symbol in Hparse.
    set (w1 := extend w _).
    destruct df as [| r df]; unfold lift; cbv beta iota.
    + destruct (IH frames0 w1) as (evs & Hw' & Hcount & Hres). subst w1.
      eexists. rewrite Hw', extend_extend. split; [reflexivity |].
      rewrite requests_app, length_app, Hlen. cbn [length]. split; [lia |].
      revert Hres.
      destruct (main_loop _ _ _ _ _ rest frames0 _).1 as [frames | e]; [| done].
      intros (new & -> & Hnew & Hrows). exists new.
      split; [done |]. split; [lia |].
      eapply Forall_impl; [exact Hrows |]. intros frame Hframe.
      eapply Forall_impl; [exact Hframe |]. intros r [Hr Hs]. split; [done |].
      cbn [fmap list_fmap]. by apply list_elem_of_further.
    + destruct (IH (frames0 ++ [filter_dates start_date end_date (r :: df)]) w1)
        as (evs & Hw' & Hcount & Hres). subst w1.
      eexists. rewrite Hw', extend_extend. split; [reflexivity |].
      rewrite requests_app, length_app, Hlen. cbn [length]. split; [lia |].
      revert Hres.
      destruct (main_loop _ _ _ _ _ rest _ _).1 as [frames | e]; [| done].
      intros (new & -> & Hnew & Hrows).
      exists (filter_dates start_date end_date (r :: df) :: new).
      rewrite <- app_assoc. split; [done |]. split; [cbn [length]; lia |].
      constructor.
      * apply Forall_and. split; [apply filter_dates_in_range |].
        apply filter_dates_keeps. eapply Forall_impl; [exact Hparse |].
        intros r' ->. cbn [fmap list_fmap]. apply list_elem_of_here.
      * eapply Forall_impl; [exact Hrows |]. intros frame Hframe.
        eapply Forall_impl; [exact Hframe |]. intros r' [Hr Hs]. split; [done |].
        cbn [fmap list_fmap]. by apply list_elem_of_further.
Qed.

End SharesMainFacts.

(** X14.  [main] of [fetch_a_shares.py], run on [n] symbols, issues at
    most [5 n] requests.  When it returns frames, the dates of [--start]
    and [--end] parsed and are in order, there is at least one frame and
    at most [n], at least [n] requests were made, and every row is dated
    within the bounds given and labelled with one of the normalised
    symbols.  When it exits, either the start date is after the end
    date, the exit code is 2 and no request was made, or at least [n]
    requests were made and the exit code is 1.  Any other way out is an
    exception that [except Exception] would catch. *)
Theorem shares_main_outcomes `{Py.Builtins} (a : FetchShares.args)
    (ALPHAVANTAGE_API_KEY : option string) (w : Net.world) :
  let run := FetchShares.main a ALPHAVANTAGE_API_KEY w in
  let n := length (FetchShares.symbols a) in
  (Net.attempts w run.2 <= 5 * n)%nat /\
  match run.1 with
  | Py.Ok frames =>
      exists start_date end_date,
        FetchShares.parse_date (FetchShares.start a) = Py.Ok start_date /\
        FetchShares.parse_date (FetchShares.end_ a) = Py.Ok end_date /\
        FetchShares.start_after_end start_date end_date = false /\
        frames <> [] /\
        (length frames <= n <= Net.attempts w run.2)%nat /\
        Forall (Forall (fun r =>
                  FetchShares.in_range start_date end_date r /\
                  FetchShares.r_symbol r ∈
                    normalize_a_share_symbol <$> FetchShares.symbols a)) frames
  | Py.Raise (Py.SystemExit why) =>
      (why = Py.StartAfterEnd /\ Py.exit_code why = 2 /\ run.2 = w) \/
      (why = Py.NoFrames /\ Py.exit_code why = 1 /\ (n <= Net.attempts w run.2)%nat)
  | Py.Raise e => Net.caught e
  end.
Proof.
  intros run n. subst run n.
  unfold FetchShares.main, FetchShares.resolve_api_key.
  change (negb (Py.truthy (Py.PStr "DBW1NM92621232126K"))) with false. cbv iota.
  unfold mbind, Net.io_bind, Net.lift. cbv beta.
  destruct (FetchShares.parse_date (FetchShares.start a)) as [start_date | e] eqn:Hstart;
    cbv beta iota.
  2: { cbn [fst snd]. unfold Net.attempts. split; [lia |].
       unfold FetchShares.parse_date in Hstart.
       destruct (FetchShares.start a) as [s |]; [| discriminate].
       destruct (String.eqb s _); [discriminate |].
       destruct (Py.dateutil_parse s); [discriminate |]. by injection Hstart as <-. }
  destruct (FetchShares.parse_date (FetchShares.end_ a)) as [end_date | e] eqn:Hend;
    cbv beta iota.
  2: { cbn [fst snd]. unfold Net.attempts. split; [lia |].
       unfold FetchShares.parse_date in Hend.
       destruct (FetchShares.end_ a) as [s |]; [| discriminate].
       destruct (String.eqb s _); [discriminate |].
       destruct (Py.dateutil_parse s); [discriminate |]. by injection Hend as <-. }
  destruct (FetchShares.start_after_end start_date end_date) eqn:Horder; cbv beta iota.
  { unfold Net.raise. cbn [fst snd]. unfold Net.attempts. split; [lia |]. by left. }
  destruct (shares_main_loop_spec a "DBW1NM92621232126K"
              (if FetchShares.adjusted a then "TIME_SERIES_DAILY_ADJUSTED"
               else "TIME_SERIES_DAILY")
              start_date end_date (FetchShares.symbols a) [] w)
    as (evs & Hw & Hcount & Hres).
  revert Hw Hres.
  destruct (FetchShares.main_loop _ _ _ _ _ _ _ w) as [[frames | e] w1];
    cbn [fst snd]; intros Hw Hres; subst w1.
  - destruct Hres as (new & Hframes & Hnew & Hrows). cbn [app] in Hframes. subst new.
    destruct frames as [| frame frames]; unfold Net.raise, mret, Net.io_ret;
      cbn [fst snd]; rewrite attempts_extend.
    + split; [lia |]. right. repeat split; lia.
    + split; [lia |]. exists start_date, end_date. repeat split; try done; lia.
  - cbn [fst snd]. rewrite attempts_extend. split; [lia |].
    destruct e; try done.
Qed.

(** ** Normalised symbols are fixed points *)

(** X15.  [normalize_a_share_symbol] is idempotent, and what it returns
    is trimmed and in upper case: normalising a normalised identifier
    changes nothing, so an identifier that already ends in [.SHH] or
    [.SHZ] is never given a second suffix. *)
Theorem normalize_a_share_symbol_idempotent (symbol : string) :
  normalize_a_share_symbol (normalize_a_share_symbol symbol) =
    normalize_a_share_symbol symbol /\
  Str.upper (Str.strip (normalize_a_share_symbol symbol)) =
    normalize_a_share_symbol symbol.
Proof.
  assert (canonical (normalize_a_share_symbol symbol) /\
          normalize_a_share_symbol (normalize_a_share_symbol symbol) =
            normalize_a_share_symbol symbol) as [Hc Hn].
  2: { split; [exact Hn | by apply canonical_fixed]. }
  pose proof (canonical_upper_strip symbol) as Hs.
  unfold normalize_a_share_symbol at 1 3 4.
  set (s := Str.upper (Str.strip symbol)) in *. clearbody s.
  assert (normalize_a_share_symbol s =
          match s with
          | EmptyString => s
          | String c0 _ =>
              if Str.contains "." s then
                if Str.endswith s ".SH" then Str.drop_last 3 s +:+ ".SHH"
                else if Str.endswith s ".SZ" then Str.drop_last 3 s +:+ ".SHZ"
                else s
              else if Ascii.eqb c0 "6" then s +:+ ".SHH"
              else if Ascii.eqb c0 "0" || Ascii.eqb c0 "3" then s +:+ ".SHZ"
              else s
          end) as Hself.
  { unfold normalize_a_share_symbol. by rewrite (canonical_fixed s Hs). }
  destruct Hs as (Hl & Hr & Hu).
  destruct s as [| c0 s']; [by split |].
  cbn [fst] in Hself.
  set (s := String c0 s') in *.
  destruct (Str.contains "." s) eqn:Hdot.
  - destruct (Str.endswith s ".SH") eqn:Hsh.
    { apply endswith_inv in Hsh as [p Hp]. rewrite Hp.
      rewrite (drop_last_app p ".SH" : Str.drop_last 3 (p +:+ ".SH") = p).
      rewrite Hp in Hl, Hu.
      apply head_ok_app_inv in Hl. apply upper_app_inv in Hu.
      split; [apply canonical_suffixed | apply normalize_suffixed]; auto. }
    destruct (Str.endswith s ".SZ") eqn:Hsz.
    { apply endswith_inv in Hsz as [p Hp]. rewrite Hp.
      rewrite (drop_last_app p ".SZ" : Str.drop_last 3 (p +:+ ".SZ") = p).
      rewrite Hp in Hl, Hu.
      apply head_ok_app_inv in Hl. apply upper_app_inv in Hu.
      split; [apply canonical_suffixed | apply normalize_suffixed]; auto. }
    split; [done | exact Hself].
  - destruct (Ascii.eqb c0 "6") eqn:H6.
    { split; [apply canonical_suffixed | apply normalize_suffixed]; auto. }
    destruct (Ascii.eqb c0 "0" || Ascii.eqb c0 "3") eqn:H03.
    { split; [apply canonical_suffixed | apply normalize_suffixed]; auto. }
    split; [done | exact Hself].
Qed.
